(** * Slot availability engine (utils/slotLogic.ts, utils/time.ts, types.ts)

    A shallow embedding of [calculateAvailableSlots] and of the parts of the
    JavaScript platform it calls ([Date], [String.prototype.split], [Number],
    [padStart], [Array.prototype.find/filter/some]).

    The function is embedded three times.  [calculateAvailableSlots] is the
    function of the values of its arguments, in a time zone of one offset;
    [Stateful.calculateAvailableSlots] runs the same statements over a store
    of Date objects, the mutable objects of the source, and is shown to
    return the slots of the first and to leave the store as it found it;
    [Zoned.calculateAvailableSlots] is the function in a time zone whose
    clock may change, and is shown to return the slots of the first on the
    days on which it does not.

    Around the engine, the code that calls it or shares its data is
    embedded too: [formatTime] (utils/time.ts), the booking dialog
    (components/ReservationModal.tsx), the timeline of the calendar page
    (components/ReservationsCalendar.tsx), the no-show mark of the list of
    reservations, the figures and the chart of the dashboard
    (components/Dashboard.tsx), the switch "Ready" of the layout page
    (components/LayoutManager.tsx) and the in-memory service
    (services/mockApiService.ts).  A handler of a component is a function
    from the state before the event to the state after it; a promise is the
    value or the error it settles with; the array of the in-memory service is
    passed to a call and returned by it.

    Conventions of the embedding.
    - A JavaScript number that holds a count or a time value is an integer
      of [Z]; the rounding of doubles and the range limit of [Date]
      (8.64e15 ms around the epoch) are outside the model.
    - [NaN] and the "Invalid Date" are [None]; every comparison with [None]
      is false, as in JavaScript.
    - The host's time zone is modelled twice.  In the engine of the first
      part it is a parameter [tza], one adjustment in milliseconds (local
      time = UTC + tza): a zone without clock changes.  The engine of
      [Zoned] runs over a [TimeZone], which gives the adjustment in force at
      every instant and for every local time, the two readings of [LocalTZA]
      of ECMAScript; it covers the days on which the clock changes, and on
      the other days it returns what the first engine returns.
    - [Number] is modelled on runs of decimal digits and on the empty
      string, which is what an "HH:MM" string splits into; other strings
      are read as [NaN].
    - An object used as a dictionary ([Settings.openingHours]) is a [gmap]
      with string keys; arrays are lists.
    - The [while] loop runs with a bound on its passes, computed from the
      opening and the closing time; the bound is shown to be enough.  So
      does the [for] loop of the timeline.
    - A character of a string is a code unit from U+0000 to U+00FF (the
      256 characters of [ascii]); the white space that [trim] and [parseInt]
      strip is the white space of ECMAScript in that range, NO-BREAK SPACE
      included.  [toLowerCase] is applied to the English weekday names only.
      A date-time string is read in the ISO format only.
    - The order that [sort] with [localeCompare] gives depends on the
      collation of the host; the sort is a parameter of which only the fact
      that it rearranges its argument is used. *)

From Stdlib Require Import ZArith Lia Ascii String DecimalString DecimalPos Sorted.
From stdpp Require Import base option list strings gmap.

Local Open Scope string_scope.
Local Open Scope Z_scope.
Local Open Scope list_scope.

(** ** Data model (types.ts)

    The interfaces of types.ts as records.  Where two interfaces have a
    field of the same name the field carries a prefix ([tbl_id], [res_id],
    [soh_date], [res_date], [slot_time]); an optional field ([f?: T]) and a
    nullable one ([T | null]) are options. *)

Inductive ReservationStatus :=
  | PENDING | CONFIRMED | CANCELLED | NO_SHOW | PAID.

Record OpeningHours := mkOpeningHours {
  open : string;   (* "HH:MM" *)
  close : string   (* "HH:MM" *)
}.

Record Settings := mkSettings {
  turnoverMinutes : Z;
  openingHours : gmap string OpeningHours;   (* day: "monday", ... *)
  timezone : string;
  overallCapacity : option Z;
  noShowGraceMinutes : option Z
}.

Record SpecialOpeningHour := mkSpecialOpeningHour {
  soh_date : string;             (* "YYYY-MM-DD" *)
  isOpen : bool;
  openTime : option string;      (* "HH:MM" *)
  closeTime : option string      (* "HH:MM" *)
}.

Record Table := mkTable {
  tbl_id : string;
  tbl_name : string;
  capacity : Z;
  tbl_sectionId : string;
  isReady : bool
}.

Record Reservation := mkReservation {
  res_id : string;
  customerName : string;
  contact : string;
  res_date : string;             (* "YYYY-MM-DD" *)
  time : string;                 (* "HH:MM" *)
  covers : Z;
  tableId : option string;
  res_sectionId : string;
  status : ReservationStatus;
  notes : string;
  createdAt : string;
  checkAmount : option Z;
  tableName : option string;
  sectionName : option string
}.

(** The interface [TimeSlot] of utils/slotLogic.ts. *)
Record TimeSlot := mkTimeSlot {
  slot_time : string;            (* "HH:MM" *)
  availableTables : list Table
}.

(** ** The JavaScript platform *)

Module JS.

(** *** Strings and numbers *)

(** [s.split(sep)] for a one-character separator: never the empty list. *)
Fixpoint split (sep : ascii) (s : string) : list string :=
  match s with
  | EmptyString => [EmptyString]
  | String c r =>
      if Ascii.eqb c sep then EmptyString :: split sep r
      else match split sep r with
           | x :: xs => String c x :: xs
           | [] => [String c EmptyString]
           end
  end.

Definition digitValue (c : ascii) : option Z :=
  let n := Z.of_N (N_of_ascii c) in
  if (48 <=? n) && (n <=? 57) then Some (n - 48) else None.

Fixpoint digitsValue (acc : Z) (s : string) : option Z :=
  match s with
  | EmptyString => Some acc
  | String c r =>
      match digitValue c with
      | Some d => digitsValue (10 * acc + d) r
      | None => None
      end
  end.

(** [Number(s)] on the strings the engine meets: a run of decimal digits is
    its value, the empty string is 0, and anything else is [NaN].  (Signs,
    white space, fractions, exponents and hexadecimal literals, which
    [Number] also accepts, are not "HH:MM" material and are read as [NaN]
    here.) *)
Definition Number (s : string) : option Z := digitsValue 0 s.

(** [String(n)] for an integer. *)
Definition String_ (n : Z) : string :=
  match n with
  | Z0 => "0"
  | Zpos p => NilEmpty.string_of_uint (Pos.to_uint p)
  | Zneg p => String "-" (NilEmpty.string_of_uint (Pos.to_uint p))
  end.

(** [String(v)] for a number that may be [NaN]. *)
Definition StringOfNumber (v : option Z) : string :=
  match v with
  | Some n => String_ n
  | None => "NaN"
  end.

Fixpoint repeatChar (c : ascii) (n : nat) : string :=
  match n with
  | O => EmptyString
  | S k => String c (repeatChar c k)
  end.

(** [s.padStart(n, c)] for a one-character filler. *)
Definition padStart (n : nat) (c : ascii) (s : string) : string :=
  repeatChar c (n - String.length s)%nat +:+ s.

(** A value is falsy when it is [null]/[undefined] or the empty string. *)
Definition falsy (o : option string) : bool :=
  match o with
  | None => true
  | Some s => String.eqb s ""
  end.

(** *** Dates *)

Definition msPerMinute : Z := 60000.
Definition msPerHour : Z := 3600000.
Definition msPerDay : Z := 86400000.

(** The time value of a Date object; [None] is the Invalid Date. *)
Abbreviation TimeValue := (option Z).

(** [a < b] on Date objects (both are converted to their time values). *)
Definition dateLt (a b : TimeValue) : bool :=
  match a, b with
  | Some x, Some y => x <? y
  | _, _ => false
  end.

(** [a > b] on Date objects. *)
Definition dateGt (a b : TimeValue) : bool := dateLt b a.

(** [new Date(d.getTime() + ms)]. *)
Definition addMs (d : TimeValue) (ms : Z) : TimeValue :=
  match d with
  | Some t => Some (t + ms)
  | None => None
  end.

(** The local time functions that follow take the offset [tza] of the
    zone, one for all instants; those of a zone whose clock changes are in
    [Zoned]. *)

(** [Day(t)] and the start of the day of [t], both in local time. *)
Definition localDay (tza t : Z) : Z := (t + tza) / msPerDay.

(** [d.setHours(h, m, 0, 0)] on a copy of the valid Date [t]: the local
    calendar day is kept, the time within the day is replaced.  A [NaN]
    argument ([None]) gives the Invalid Date. *)
Definition setHours (tza t : Z) (h m : option Z) : TimeValue :=
  match h, m with
  | Some h, Some m =>
      Some (localDay tza t * msPerDay + (h * msPerHour + m * msPerMinute) - tza)
  | _, _ => None
  end.

(** [d.getHours()] and [d.getMinutes()], in local time; [NaN] on the
    Invalid Date. *)
Definition getHours (tza : Z) (d : TimeValue) : option Z :=
  match d with
  | Some t => Some (((t + tza) / msPerHour) mod 24)
  | None => None
  end.

Definition getMinutes (tza : Z) (d : TimeValue) : option Z :=
  match d with
  | Some t => Some (((t + tza) / msPerMinute) mod 60)
  | None => None
  end.

(** Civil date of a day number (days since 1970-01-01), proleptic
    Gregorian calendar. *)
Definition civilFromDays (days : Z) : Z * Z * Z :=
  let z := days + 719468 in
  let era := z / 146097 in
  let doe := z mod 146097 in
  let yoe := (doe - doe / 1460 + doe / 36524 - doe / 146096) / 365 in
  let doy := doe - (365 * yoe + yoe / 4 - yoe / 100) in
  let mp := (5 * doy + 2) / 153 in
  let d := doy - (153 * mp + 2) / 5 + 1 in
  let m := if mp <? 10 then mp + 3 else mp - 9 in
  let y := yoe + era * 400 + (if m <=? 2 then 1 else 0) in
  (y, m, d).

Definition pad (n : nat) (v : Z) : string := padStart n "0" (String_ v).

(** The year of an ISO string: four digits, or a sign and six digits
    outside 0..9999. *)
Definition isoYear (y : Z) : string :=
  if (0 <=? y) && (y <=? 9999) then pad 4 y
  else if y <? 0 then String "-" (pad 6 (- y))
  else String "+" (pad 6 y).

(** [d.toISOString().split('T')[0]]: the calendar date in UTC. *)
Definition toISODateString (t : Z) : string :=
  let '(y, m, d) := civilFromDays (t / msPerDay) in
  isoYear y +:+ "-" +:+ pad 2 m +:+ "-" +:+ pad 2 d.

(** [d.toISOString()] *)
Definition toISOString (t : Z) : string :=
  toISODateString t +:+ "T" +:+ pad 2 (t mod msPerDay / msPerHour)
  +:+ ":" +:+ pad 2 (t mod msPerHour / msPerMinute)
  +:+ ":" +:+ pad 2 (t mod msPerMinute / 1000)
  +:+ "." +:+ pad 3 (t mod 1000) +:+ "Z".

(** [d.toLocaleDateString('en-US', { weekday: 'long' })]: the weekday of
    the local calendar day (1970-01-01 was a Thursday). *)
Definition weekdayLong (tza t : Z) : string :=
  match (localDay tza t + 4) mod 7 with
  | 0 => "Sunday"
  | 1 => "Monday"
  | 2 => "Tuesday"
  | 3 => "Wednesday"
  | 4 => "Thursday"
  | 5 => "Friday"
  | _ => "Saturday"
  end.

Definition lowerChar (c : ascii) : ascii :=
  let n := N_of_ascii c in
  if ((65 <=? n) && (n <=? 90))%N then ascii_of_N (n + 32) else c.

Fixpoint toLowerCase (s : string) : string :=
  match s with
  | EmptyString => EmptyString
  | String c r => String (lowerChar c) (toLowerCase r)
  end.

(** *** parseInt, trim and arithmetic on numbers that may be NaN *)

(** The white space and the line terminators of ECMAScript among the code
    units up to U+00FF: TAB, LF, VT, FF, CR, the space and NO-BREAK SPACE
    (U+00A0).  (Those beyond, U+1680, U+2000 to U+200A, U+2028, U+2029,
    U+202F, U+205F, U+3000 and U+FEFF, are not characters of the model.) *)
Definition isWhiteSpace (c : ascii) : bool :=
  let n := N_of_ascii c in
  (((9 <=? n) && (n <=? 13)) || (n =? 32) || (n =? 160))%N.

Fixpoint trimStart (s : string) : string :=
  match s with
  | String c r => if isWhiteSpace c then trimStart r else s
  | EmptyString => EmptyString
  end.

Fixpoint rev_string (acc s : string) : string :=
  match s with
  | EmptyString => acc
  | String c r => rev_string (String c acc) r
  end.

Definition trimEnd (s : string) : string :=
  rev_string "" (trimStart (rev_string "" s)).

(** [s.trim()] *)
Definition trim (s : string) : string := trimEnd (trimStart s).

(** The value of a character as a digit of the radix [R], if it is one. *)
Definition radixDigit (R : Z) (c : ascii) : option Z :=
  let n := Z.of_N (N_of_ascii c) in
  let v := if (48 <=? n) && (n <=? 57) then Some (n - 48)
           else if (97 <=? n) && (n <=? 122) then Some (n - 87)
           else if (65 <=? n) && (n <=? 90) then Some (n - 55)
           else None in
  match v with
  | Some d => if d <? R then Some d else None
  | None => None
  end.

(** The value of the longest prefix of [s] made of digits of the radix
    [R], continuing from [acc]; [seen] tells whether a digit was read. *)
Fixpoint radixPrefix (R : Z) (seen : bool) (acc : Z) (s : string) : option Z :=
  match s with
  | String c r =>
      match radixDigit R c with
      | Some d => radixPrefix R true (R * acc + d) r
      | None => if seen then Some acc else None
      end
  | EmptyString => if seen then Some acc else None
  end.

(** [parseInt(s, radix)]; [radix = None] is a call with one argument. *)
Definition parseInt (radix : option Z) (s : string) : option Z :=
  let str := trimStart s in
  let '(sign, str) :=
    match str with
    | String "-" r => (-1, r)
    | String "+" r => (1, r)
    | _ => (1, str)
    end in
  let R0 := match radix with Some r => r | None => 0 end in
  if negb (R0 =? 0) && ((R0 <? 2) || (36 <? R0)) then None
  else
    let stripPrefix := (R0 =? 0) || (R0 =? 16) in
    let R := if R0 =? 0 then 10 else R0 in
    let '(R, str) :=
      match str with
      | String "0" (String x r) =>
          if stripPrefix && (Ascii.eqb x "x" || Ascii.eqb x "X")
          then (16, r) else (R, str)
      | _ => (R, str)
      end in
    match radixPrefix R false 0 str with
    | Some v => Some (sign * v)
    | None => None
    end.

(** [a >= b], [a > b], [a < b], [a === b], [a % b] and [a + b] on numbers. *)
Definition numGe (a b : option Z) : bool :=
  match a, b with Some x, Some y => y <=? x | _, _ => false end.
Definition numGt (a b : option Z) : bool :=
  match a, b with Some x, Some y => y <? x | _, _ => false end.
Definition numLt (a b : option Z) : bool :=
  match a, b with Some x, Some y => x <? y | _, _ => false end.
Definition numEq (a b : option Z) : bool :=
  match a, b with Some x, Some y => x =? y | _, _ => false end.
Definition numRem (a b : option Z) : option Z :=
  match a, b with
  | Some x, Some y => if y =? 0 then None else Some (Z.rem x y)
  | _, _ => None
  end.
Definition numAdd (a b : option Z) : option Z :=
  match a, b with Some x, Some y => Some (x + y) | _, _ => None end.

(** [`${v}`] for a string that may be [undefined]. *)
Definition StringOfText (v : option string) : string :=
  match v with
  | Some s => s
  | None => "undefined"
  end.

(** *** Date-time strings *)

(** The day number of a civil date: the inverse of [civilFromDays] on the
    dates of the calendar.  A day past the end of its month counts on into
    the next month. *)
Definition daysFromCivil (y m d : Z) : Z :=
  let y := if m <=? 2 then y - 1 else y in
  let era := y / 400 in
  let yoe := y mod 400 in
  let mp := if 2 <? m then m - 3 else m + 9 in
  let doy := (153 * mp + 2) / 5 + d - 1 in
  let doe := yoe * 365 + yoe / 4 - yoe / 100 + doy in
  era * 146097 + doe - 719468.

(** The value of a string of exactly [n] decimal digits. *)
Definition fixedDigits (n : nat) (s : string) : option Z :=
  if (String.length s =? n)%nat then digitsValue 0 s else None.

(** The day number written as "YYYY-MM-DD", when the month is 01-12 and
    the day 01-31. *)
Definition dayOfDate (date : string) : option Z :=
  match split "-" date with
  | [YYYY; MM; DD] =>
      match fixedDigits 4 YYYY, fixedDigits 2 MM, fixedDigits 2 DD with
      | Some y, Some m, Some d =>
          if (1 <=? m) && (m <=? 12) && (1 <=? d) && (d <=? 31)
          then Some (daysFromCivil y m d) else None
      | _, _, _ => None
      end
  | _ => None
  end.

(** The milliseconds since midnight written as "HH:mm" or "HH:mm:ss", when
    the hour is 00-23 and the minute and the second are 00-59. *)
Definition timeOfDayMs (time : string) : option Z :=
  let fields :=
    match split ":" time with
    | [HH; mm] => Some (HH, mm, "00")
    | [HH; mm; ss] => Some (HH, mm, ss)
    | _ => None
    end in
  match fields with
  | Some (HH, mm, ss) =>
      match fixedDigits 2 HH, fixedDigits 2 mm, fixedDigits 2 ss with
      | Some h, Some mi, Some sec =>
          if (h <=? 23) && (mi <=? 59) && (sec <=? 59)
          then Some (h * msPerHour + mi * msPerMinute + sec * 1000) else None
      | _, _, _ => None
      end
  | None => None
  end.

(** [new Date(s)] for a string of the form "YYYY-MM-DDTHH:mm" or
    "YYYY-MM-DDTHH:mm:ss": without an offset it is a local time.  A field
    out of its bounds gives an Invalid Date.  Fractions of a second, the end
    of day "24:00:00" and the strings of another form, for which an engine
    may fall back on parsers of its own, are outside the model and read as
    Invalid Date here. *)
Definition parseDateTimeLocal (tza : Z) (s : string) : TimeValue :=
  match split "T" s with
  | [date; time] =>
      match dayOfDate date, timeOfDayMs time with
      | Some day, Some ms => Some (day * msPerDay + ms - tza)
      | _, _ => None
      end
  | _ => None
  end.

(** [d.getDate()] and the time value after [d.setDate(n)], in local time:
    the day [n] of the month of [d], counted on into the months before or
    after when it is not a day of that month, at the time of day of [d]. *)
Definition getDate (tza t : Z) : Z :=
  let '(_, _, d) := civilFromDays (localDay tza t) in d.

Definition setDate (tza t n : Z) : Z :=
  let '(y, m, _) := civilFromDays (localDay tza t) in
  daysFromCivil y m n * msPerDay + (t + tza) mod msPerDay - tza.

(** A number is falsy when it is [NaN] or 0. *)
Definition falsyNumber (v : option Z) : bool :=
  match v with
  | Some n => n =? 0
  | None => true
  end.

End JS.

(** ** utils/time.ts *)

(** [formatTime]: "HH:MM" to "7:00 PM". *)
Definition formatTime (timeString : string) : string :=
  let parts := JS.split ":" timeString in
  let hour := parts !! 0%nat in
  let minute := parts !! 1%nat in
  let hourNum := JS.parseInt (Some 10) (JS.StringOfText hour) in
  let ampm := if JS.numGe hourNum (Some 12) then "PM" else "AM" in
  let formattedHour :=
    if JS.numEq (JS.numRem hourNum (Some 12)) (Some 0) then Some 12
    else JS.numRem hourNum (Some 12) in
  JS.StringOfNumber formattedHour +:+ ":" +:+ JS.StringOfText minute
  +:+ " " +:+ ampm.

Definition getDayOfWeek (tza date : Z) : string :=
  JS.toLowerCase (JS.weekdayLong tza date).

(** ** utils/slotLogic.ts *)

(** [const [h, m] = s.split(':').map(Number)]: an element that is missing
    is [undefined], which [setHours] converts to [NaN]. *)
Definition parseHM (s : string) : option Z * option Z :=
  let parts := List.map JS.Number (JS.split ":" s) in
  (mjoin (parts !! 0%nat), mjoin (parts !! 1%nat)).

(** [const d = new Date(date); d.setHours(h, m, 0, 0)] with [h], [m] read
    from the string [s]. *)
Definition dateWithTime (tza date : Z) (s : string) : JS.TimeValue :=
  let '(h, m) := parseHM s in
  JS.setHours tza date h m.

(** [r.tableId === table.id] *)
Definition onTable (table : Table) (r : Reservation) : bool :=
  match tableId r with
  | Some i => String.eqb i (tbl_id table)
  | None => false
  end.

(** The callback of [some] (lines 79-92): does the booking that would
    start at [currentTime] overlap the reservation [res]? *)
Definition conflicts (tza date : Z) (settings : Settings)
    (currentTime : JS.TimeValue) (res : Reservation) : bool :=
  let resStartTime := dateWithTime tza date (time res) in
  let resEndTime := JS.addMs resStartTime (turnoverMinutes settings * 60000) in
  let newBookingStartTime := currentTime in
  let newBookingEndTime :=
    JS.addMs newBookingStartTime (turnoverMinutes settings * 60000) in
  JS.dateLt newBookingStartTime resEndTime
  && JS.dateGt newBookingEndTime resStartTime.

(** The callback of [eligibleTables.filter] (lines 75-93). *)
Definition tableIsFree (tza date : Z) (settings : Settings)
    (reservations : list Reservation) (currentTime : JS.TimeValue)
    (table : Table) : bool :=
  let conflictingReservations := List.filter (onTable table) reservations in
  negb (existsb (conflicts tza date settings currentTime)
          conflictingReservations).

Definition timeString (tza : Z) (currentTime : JS.TimeValue) : string :=
  JS.padStart 2 "0" (JS.StringOfNumber (JS.getHours tza currentTime))
  +:+ ":" +:+
  JS.padStart 2 "0" (JS.StringOfNumber (JS.getMinutes tza currentTime)).

(** One pass through the body of the [while] loop (lines 72-100): the
    slots collected so far, with the slot of [currentTime] pushed when
    some table is free. *)
Definition loopBody (tza date : Z) (settings : Settings)
    (reservations : list Reservation) (eligibleTables : list Table)
    (currentTime : JS.TimeValue) (availableSlots : list TimeSlot)
    : list TimeSlot :=
  let timeStr := timeString tza currentTime in
  let availableTablesForSlot :=
    List.filter (tableIsFree tza date settings reservations currentTime)
      eligibleTables in
  if (0 <? length availableTablesForSlot)%nat
  then availableSlots ++ [mkTimeSlot timeStr availableTablesForSlot]
  else availableSlots.

(** The [while] loop (lines 71-104), with a bound on the number of
    passes. *)
Fixpoint whileLoop (fuel : nat) (tza date : Z) (settings : Settings)
    (reservations : list Reservation) (eligibleTables : list Table)
    (closingTime currentTime : JS.TimeValue)
    (availableSlots : list TimeSlot) : list TimeSlot :=
  match fuel with
  | O => availableSlots
  | S fuel' =>
      if JS.dateLt currentTime closingTime then
        whileLoop fuel' tza date settings reservations eligibleTables
          closingTime
          (JS.addMs currentTime (15 * 60000))
          (loopBody tza date settings reservations eligibleTables
             currentTime availableSlots)
      else availableSlots
  end.

(** Line 54: [tables.filter(t => t.capacity >= covers && t.isReady)]. *)
Definition eligible (covers : Z) (tables : list Table) : list Table :=
  List.filter (fun t => (capacity t >=? covers) && isReady t) tables.

(** The number of multiples of 15 minutes that fit between [o] and [c]
    (rounded up), and a number of passes after which the loop condition is
    false: one more than that. *)
Definition slotStep : Z := 15 * 60000.

Definition candidateCount (o c : Z) : nat :=
  Z.to_nat ((c - o + (slotStep - 1)) / slotStep).

Definition passes (openingTime closingTime : JS.TimeValue) : nat :=
  match openingTime, closingTime with
  | Some o, Some c => S (candidateCount o c)
  | _, _ => O
  end.

(** Lines 50-107: what follows the choice of the opening hours. *)
Definition slotsForHours (tza date covers : Z) (settings : Settings)
    (reservations : list Reservation) (tables : list Table)
    (effectiveOpeningHours : option OpeningHours) : list TimeSlot :=
  match effectiveOpeningHours with
  | None => []
  | Some hours =>
      if String.eqb (open hours) "" then []
      else
        let eligibleTables := eligible covers tables in
        if (length eligibleTables =? 0)%nat then []
        else
          let openingTime := dateWithTime tza date (open hours) in
          let closingTime := dateWithTime tza date (close hours) in
          whileLoop (passes openingTime closingTime) tza date settings
            reservations eligibleTables closingTime openingTime []
  end.

(** Line 37: [specialOpeningHours.find(h => h.date === dateString)]. *)
Definition findSpecialHour (dateString : string)
    (specialOpeningHours : list SpecialOpeningHour)
    : option SpecialOpeningHour :=
  List.find (fun h => String.eqb (soh_date h) dateString) specialOpeningHours.

Definition calculateAvailableSlots (tza date covers : Z) (settings : Settings)
    (reservations : list Reservation) (tables : list Table)
    (specialOpeningHours : list SpecialOpeningHour) : list TimeSlot :=
  let dateString := JS.toISODateString date in
  let specialHour := findSpecialHour dateString specialOpeningHours in
  match specialHour with
  | Some sh =>
      if negb (isOpen sh) || JS.falsy (openTime sh) || JS.falsy (closeTime sh)
      then []
      else
        match openTime sh, closeTime sh with
        | Some o, Some c =>
            slotsForHours tza date covers settings reservations tables
              (Some (mkOpeningHours o c))
        | _, _ => []
        end
  | None =>
      let dayOfWeek := getDayOfWeek tza date in
      slotsForHours tza date covers settings reservations tables
        (openingHours settings !! dayOfWeek)
  end.

(** ** Date objects in a store

    [Date] is the one mutable type the function works with: it calls
    [setHours], which writes into the object.  (The other mutation is
    [availableSlots.push] on the array the function creates itself; the
    arrays and records it receives are only read, through [find], [filter],
    [some] and property access.)  This section runs the function over a
    store of Date objects, where [date] is a reference that the caller may
    share, [new Date(...)] allocates and [setHours] overwrites. *)

Module Stateful.

Abbreviation Ref := nat.

Abbreviation Store := (gmap nat JS.TimeValue).

Inductive Failure :=
  | RangeError      (* thrown by [toISOString] on an Invalid Date *)
  | DanglingRef     (* a reference without object: not reachable from JS *)
  | OutOfPasses.    (* the bound on the loop passes was too small *)

(** A computation over the store that returns a value or fails. *)
Definition M (A : Type) : Type := Store -> Failure + (A * Store).

Definition ret {A} (a : A) : M A := fun σ => inr (a, σ).

Definition fail {A} (e : Failure) : M A := fun _ => inl e.

Definition bind {A B} (m : M A) (k : A -> M B) : M B :=
  fun σ =>
    match m σ with
    | inl e => inl e
    | inr (a, σ') => k a σ'
    end.

Declare Scope store_scope.
Delimit Scope store_scope with store.
Notation "x <- m ;; k" := (bind m (fun x => k))
  (at level 100, m at next level, right associativity) : store_scope.
Notation "m ;;; k" := (bind m (fun _ => k))
  (at level 100, right associativity) : store_scope.
Local Open Scope store_scope.

(** [d.getTime()] *)
Definition getTime (d : Ref) : M JS.TimeValue :=
  fun σ =>
    match σ !! d with
    | Some v => inr (v, σ)
    | None => inl DanglingRef
    end.

(** [new Date(v)] for a number [v]: a new object. *)
Definition newDate (v : JS.TimeValue) : M Ref :=
  fun σ => let r := fresh (dom σ) in inr (r, <[r := v]> σ).

(** [new Date(d)] for a Date [d]: a new object with the time value of [d]. *)
Definition copyDate (d : Ref) : M Ref :=
  v <- getTime d ;; newDate v.

(** [d.setHours(h, m, 0, 0)]: overwrites the time value of [d]. *)
Definition setHours (tza : Z) (d : Ref) (h m : option Z) : M unit :=
  fun σ =>
    match σ !! d with
    | Some v =>
        let v' := match v with
                  | Some t => JS.setHours tza t h m
                  | None => None
                  end in
        inr (tt, <[d := v']> σ)
    | None => inl DanglingRef
    end.

(** [a < b] on two Date objects. *)
Definition dateLt (a b : Ref) : M bool :=
  x <- getTime a ;; y <- getTime b ;; ret (JS.dateLt x y).

(** [d.toISOString().split('T')[0]]; [toISOString] throws on an Invalid
    Date. *)
Definition toISODateString (d : Ref) : M string :=
  v <- getTime d ;;
  match v with
  | Some t => ret (JS.toISODateString t)
  | None => fail RangeError
  end.

(** [getDayOfWeek(d)] of utils/time.ts; [toLocaleDateString] of an Invalid
    Date is the string "Invalid Date". *)
Definition getDayOfWeek (tza : Z) (d : Ref) : M string :=
  v <- getTime d ;;
  match v with
  | Some t => ret (JS.toLowerCase (JS.weekdayLong tza t))
  | None => ret (JS.toLowerCase "Invalid Date")
  end.

(** [l.some(f)] with a callback that works on the store; it stops at the
    first [true]. *)
Fixpoint someM {A} (f : A -> M bool) (l : list A) : M bool :=
  match l with
  | [] => ret false
  | x :: l' => b <- f x ;; if b then ret true else someM f l'
  end.

(** [l.filter(f)] with a callback that works on the store. *)
Fixpoint filterM {A} (f : A -> M bool) (l : list A) : M (list A) :=
  match l with
  | [] => ret []
  | x :: l' =>
      b <- f x ;;
      rest <- filterM f l' ;;
      ret (if b then x :: rest else rest)
  end.

(** Lines 79-92. *)
Definition conflicts (tza : Z) (date : Ref) (settings : Settings)
    (currentTime : Ref) (res : Reservation) : M bool :=
  resStartTime <- copyDate date ;;
  let '(resH, resM) := parseHM (time res) in
  setHours tza resStartTime resH resM ;;;
  t <- getTime resStartTime ;;
  resEndTime <- newDate (JS.addMs t (turnoverMinutes settings * 60000)) ;;
  let newBookingStartTime := currentTime in
  t' <- getTime newBookingStartTime ;;
  newBookingEndTime <-
    newDate (JS.addMs t' (turnoverMinutes settings * 60000)) ;;
  b <- dateLt newBookingStartTime resEndTime ;;
  if b then dateLt resStartTime newBookingEndTime else ret false.

(** Lines 75-93. *)
Definition tableIsFree (tza : Z) (date : Ref) (settings : Settings)
    (reservations : list Reservation) (currentTime : Ref) (table : Table)
    : M bool :=
  let conflictingReservations := List.filter (onTable table) reservations in
  b <- someM (conflicts tza date settings currentTime)
         conflictingReservations ;;
  ret (negb b).

(** Lines 71-104; [n] bounds the number of passes. *)
Fixpoint whileLoop (n : nat) (tza : Z) (date : Ref) (settings : Settings)
    (reservations : list Reservation) (eligibleTables : list Table)
    (closingTime currentTime : Ref) (availableSlots : list TimeSlot)
    : M (list TimeSlot) :=
  continue <- dateLt currentTime closingTime ;;
  if continue then
    match n with
    | O => fail OutOfPasses
    | S n' =>
        t <- getTime currentTime ;;
        let timeStr := timeString tza t in
        availableTablesForSlot <-
          filterM (tableIsFree tza date settings reservations currentTime)
            eligibleTables ;;
        let availableSlots' :=
          if (0 <? length availableTablesForSlot)%nat
          then availableSlots ++ [mkTimeSlot timeStr availableTablesForSlot]
          else availableSlots in
        t <- getTime currentTime ;;
        next <- newDate (JS.addMs t (15 * 60000)) ;;
        whileLoop n' tza date settings reservations eligibleTables
          closingTime next availableSlots'
    end
  else ret availableSlots.

(** Lines 50-107. *)
Definition slotsForHours (tza : Z) (date : Ref) (covers : Z)
    (settings : Settings) (reservations : list Reservation)
    (tables : list Table) (effectiveOpeningHours : option OpeningHours)
    : M (list TimeSlot) :=
  match effectiveOpeningHours with
  | None => ret []
  | Some hours =>
      if String.eqb (open hours) "" then ret []
      else
        let eligibleTables := eligible covers tables in
        if (length eligibleTables =? 0)%nat then ret []
        else
          let '(startH, startM) := parseHM (open hours) in
          let '(endH, endM) := parseHM (close hours) in
          openingTime <- copyDate date ;;
          setHours tza openingTime startH startM ;;;
          closingTime <- copyDate date ;;
          setHours tza closingTime endH endM ;;;
          let currentTime := openingTime in
          o <- getTime openingTime ;;
          c <- getTime closingTime ;;
          whileLoop (passes o c) tza date settings reservations
            eligibleTables closingTime currentTime []
  end.

Definition calculateAvailableSlots (tza : Z) (date : Ref) (covers : Z)
    (settings : Settings) (reservations : list Reservation)
    (tables : list Table) (specialOpeningHours : list SpecialOpeningHour)
    : M (list TimeSlot) :=
  dateString <- toISODateString date ;;
  let specialHour := findSpecialHour dateString specialOpeningHours in
  match specialHour with
  | Some sh =>
      if negb (isOpen sh) || JS.falsy (openTime sh) || JS.falsy (closeTime sh)
      then ret []
      else
        match openTime sh, closeTime sh with
        | Some o, Some c =>
            slotsForHours tza date covers settings reservations tables
              (Some (mkOpeningHours o c))
        | _, _ => ret []
        end
  | None =>
      dayOfWeek <- getDayOfWeek tza date ;;
      slotsForHours tza date covers settings reservations tables
        (openingHours settings !! dayOfWeek)
  end.

(** The computation [m] run in [σ] returns a value and a store that
    satisfy [Q], and the store has every object of [σ] unchanged. *)
Definition runs {A} (m : M A) (σ : Store) (Q : A -> Store -> Prop) : Prop :=
  exists a σ', m σ = inr (a, σ') /\ σ ⊆ σ' /\ Q a σ'.

End Stateful.

(** ** Vocabulary of the specification *)

(** The occupancy window [[start, start + w)] of a booking. *)
Definition inWindow (start w x : Z) : Prop := start <= x < start + w.

(** Two windows of the same width overlap when they share an instant. *)
Definition windowsOverlap (a b w : Z) : Prop :=
  exists x, inWindow a w x /\ inWindow b w x.

(** The candidate slot starts: [o], [o + 15 min], ... as long as they lie
    before [c]. *)
Definition candidateTimes (o c : Z) : list Z :=
  List.map (fun k => o + Z.of_nat k * slotStep) (seq 0 (candidateCount o c)).

(** The slot pushed for the candidate [t], if any. *)
Definition slotAt (tza date : Z) (settings : Settings)
    (reservations : list Reservation) (eligibleTables : list Table)
    (t : Z) : list TimeSlot :=
  loopBody tza date settings reservations eligibleTables (Some t) [].

(** The big-step reading of the [while] loop of lines 71-104: from the
    state ([currentTime], [availableSlots]) the loop ends with the array
    [result]. *)
Inductive LoopRun (tza date : Z) (settings : Settings)
    (reservations : list Reservation) (eligibleTables : list Table)
    (closingTime : JS.TimeValue)
    : JS.TimeValue -> list TimeSlot -> list TimeSlot -> Prop :=
  | LoopExit currentTime availableSlots :
      JS.dateLt currentTime closingTime = false ->
      LoopRun tza date settings reservations eligibleTables closingTime
        currentTime availableSlots availableSlots
  | LoopPass currentTime availableSlots result :
      JS.dateLt currentTime closingTime = true ->
      LoopRun tza date settings reservations eligibleTables closingTime
        (JS.addMs currentTime (15 * 60000))
        (loopBody tza date settings reservations eligibleTables
           currentTime availableSlots)
        result ->
      LoopRun tza date settings reservations eligibleTables closingTime
        currentTime availableSlots result.

(** The opening hours in force (lines 37-48); [None] when the restaurant
    is closed by an override or has no entry for the weekday. *)
Definition resolveHours (tza date : Z) (settings : Settings)
    (specialOpeningHours : list SpecialOpeningHour) : option OpeningHours :=
  match findSpecialHour (JS.toISODateString date) specialOpeningHours with
  | Some sh =>
      match isOpen sh, openTime sh, closeTime sh with
      | true, Some o, Some c =>
          if String.eqb o "" || String.eqb c "" then None
          else Some (mkOpeningHours o c)
      | _, _, _ => None
      end
  | None => openingHours settings !! getDayOfWeek tza date
  end.

(** The local midnight of the day of [date], as an instant. *)
Definition dayStart (tza date : Z) : Z :=
  JS.localDay tza date * JS.msPerDay - tza.

(** The reading of step 4 of the specification: the table carries no
    reservation that conflicts with a booking starting at [t]. *)
Definition noConflict (tza date : Z) (settings : Settings)
    (reservations : list Reservation) (t : Z) (table : Table) : bool :=
  forallb
    (fun res => negb (onTable table res
                      && conflicts tza date settings (Some t) res))
    reservations.

(** [m] returns the value [a] and changes no object of [σ]. *)
Definition returns {A} (m : Stateful.M A) (σ : Stateful.Store) (a : A) : Prop :=
  Stateful.runs m σ (fun a' _ => a' = a).

(** Enough passes: the loop ends before the bound is reached. *)
Definition enoughPasses (n : nat) (cur closing : JS.TimeValue) : Prop :=
  match cur, closing with
  | Some o, Some c => (candidateCount o c <= n)%nat
  | _, _ => True
  end.

(** ** Sample data *)

Module Sample.

Definition monday : Z := 1704067200000.   (* 2024-01-01T00:00:00Z *)

(** Scenario A of the specification. *)
Definition settingsA : Settings :=
  mkSettings 90 {[ "monday" := mkOpeningHours "17:00" "19:00" ]} "UTC"
    None None.

Definition t1 : Table := mkTable "t1" "1" 4 "sec1" true.

Definition t2 : Table := mkTable "t2" "2" 2 "sec1" true.

Definition booking (id time table : string) : Reservation :=
  mkReservation id "Alice Johnson" "555-0101" "2024-01-01" time 2 (Some table)
    "sec1" CONFIRMED "" "2024-01-01T09:00:00.000Z" None None None.

Definition settings60 : Settings :=
  mkSettings 60 {[ "monday" := mkOpeningHours "17:00" "20:00" ]} "UTC"
    None None.

(** The instant of an "HH:MM" time on the sample day. *)
Definition at_ (hh mm : Z) : Z := monday + hh * 3600000 + mm * 60000.

(** Scenario B: the table t1 is taken from 17:30. *)
Definition reservationsB : list Reservation := [booking "res1" "17:30" "t1"].

Definition slot1700 : TimeSlot := mkTimeSlot "17:00" [t2].

(** Scenario D: a table that is large enough but not ready. *)
Definition tNotReady : Table := mkTable "t9" "9" 4 "sec1" false.

Definition settings1710 : Settings :=
  mkSettings 90 {[ "monday" := mkOpeningHours "17:10" "18:10" ]} "UTC"
    None None.

(** Special opening hours: another day, the sample day closed (scenario C),
    and the sample day open late. *)
Definition otherDay : SpecialOpeningHour :=
  mkSpecialOpeningHour "2024-12-25" false None None.
Definition closedDay : SpecialOpeningHour :=
  mkSpecialOpeningHour "2024-01-01" false None None.
Definition lateDay : SpecialOpeningHour :=
  mkSpecialOpeningHour "2024-01-01" true (Some "20:00") (Some "21:00").

End Sample.

(** ** Labels of the times of a day *)

(** The label of the minute [n] of a day on a 12-hour clock: what
    [formatTime] is meant to show for the time [n] minutes after
    midnight. *)
Definition label12 (n : Z) : string :=
  JS.String_ (if (n / 60) mod 12 =? 0 then 12 else (n / 60) mod 12)
  +:+ ":" +:+ JS.pad 2 (n mod 60) +:+ " "
  +:+ (if n <? 720 then "AM" else "PM").

(** No string occurs twice in the list. *)
Fixpoint distinctb (l : list string) : bool :=
  match l with
  | [] => true
  | x :: l' => negb (existsb (String.eqb x) l') && distinctb l'
  end.

(** ** components/ReservationsCalendar.tsx *)

(** One row of the timeline of the selected day: its key [time], its label
    [formatTime(time)] and the reservations drawn in it. *)
Record CalendarRow := mkCalendarRow {
  row_time : string;
  row_label : string;
  row_reservations : list Reservation
}.

(** What [renderTimeSlots] returns: [null], the paragraph "Restaurant is
    closed today.", or the rows of the timeline. *)
Inductive Timeline :=
  | TimelineNull
  | TimelineClosed
  | TimelineRows (rows : list CalendarRow).

(** [parseInt(s.split(':')[i])] *)
Definition parseIntPart (i : nat) (s : string) : option Z :=
  JS.parseInt None (JS.StringOfText (JS.split ":" s !! i)).

(** The [for] loop of lines 84-87, with a bound on the number of passes. *)
Fixpoint hourLoop (fuel : nat) (hour closeTime : option Z)
    (slots : list string) : list string :=
  match fuel with
  | O => slots
  | S fuel' =>
      if JS.numLt hour closeTime then
        let hh := JS.padStart 2 "0" (JS.StringOfNumber hour) in
        let slots := slots ++ [hh +:+ ":00"] in
        let slots := slots ++ [hh +:+ ":30"] in
        hourLoop fuel' (JS.numAdd hour (Some 1)) closeTime slots
      else slots
  end.

(** The number of passes of the loop: none when a bound is [NaN]. *)
Definition hourCount (openTime closeTime : option Z) : nat :=
  match openTime, closeTime with
  | Some o, Some c => Z.to_nat (c - o)
  | _, _ => O
  end.

(** The callback of [reservations.filter] (lines 93-99): is the
    reservation [r] drawn in the row of [slot]? *)
Definition inRow (slot : string) (r : Reservation) : bool :=
  let resHour := parseIntPart 0 (time r) in
  let resMin := parseIntPart 1 (time r) in
  let slotHour := parseIntPart 0 slot in
  let slotMin := parseIntPart 1 slot in
  JS.numEq resHour slotHour
  && (if JS.numEq slotMin (Some 0) then JS.numLt resMin (Some 30)
      else JS.numGe resMin (Some 30)).

(** The callback of [slots.map] (lines 89-111). *)
Definition calendarRow (reservations : list Reservation) (slot : string)
    : CalendarRow :=
  mkCalendarRow slot (formatTime slot) (List.filter (inRow slot) reservations).

(** [renderTimeSlots] (lines 73-113); [settings] is [None] until the
    settings are loaded. *)
Definition renderTimeSlots (tza selectedDate : Z) (settings : option Settings)
    (reservations : list Reservation) : Timeline :=
  match settings with
  | None => TimelineNull
  | Some settings =>
      let dayOfWeek := getDayOfWeek tza selectedDate in
      match openingHours settings !! dayOfWeek with
      | None => TimelineClosed
      | Some hours =>
          if String.eqb (open hours) "" then TimelineClosed
          else
            let openTime := parseIntPart 0 (open hours) in
            let closeTime := parseIntPart 0 (close hours) in
            let slots :=
              hourLoop (hourCount openTime closeTime) openTime closeTime [] in
            TimelineRows (List.map (calendarRow reservations) slots)
      end
  end.

(** The hours [o], [o + 1], ... below [c]. *)
Definition hoursFrom (o c : Z) : list Z :=
  List.map (fun k => o + Z.of_nat k) (seq 0 (Z.to_nat (c - o))).

(** The two rows of the hour [h]. *)
Definition rowTimes (h : Z) : list string :=
  [JS.pad 2 h +:+ ":00"; JS.pad 2 h +:+ ":30"].

(** The row of the time [h]:[m]. *)
Definition rowTimeOf (h m : Z) : string :=
  JS.pad 2 h +:+ (if m <? 30 then ":00" else ":30").

(** Is [r] drawn in some row? *)
Definition shown (rows : list CalendarRow) (r : Reservation) : Prop :=
  exists row, row ∈ rows /\ r ∈ row_reservations row.

Module CalendarSample.

(** Monday from 17:00, closing on the half hour. *)
Definition settings2230 : Settings :=
  mkSettings 90 {[ "monday" := mkOpeningHours "17:00" "22:30" ]}
    "UTC" None None.

End CalendarSample.

(** ** components/Dashboard.tsx *)

(** An entry of [chartData]: a bar of the chart "Covers by Hour". *)
Record ChartItem := mkChartItem {
  item_time : string;
  item_covers : Z
}.

(** [l.reduce((sum, x) => sum + f(x), 0)] *)
Definition sumOf {A} (f : A -> Z) (l : list A) : Z :=
  fold_left (fun sum x => sum + f x) l 0.

(** Lines 57-59. *)
Definition totalReservations (reservations : list Reservation) : Z :=
  Z.of_nat (length reservations).

Definition hasStatus (s : ReservationStatus) (r : Reservation) : bool :=
  match status r, s with
  | PENDING, PENDING | CONFIRMED, CONFIRMED | CANCELLED, CANCELLED
  | NO_SHOW, NO_SHOW | PAID, PAID => true
  | _, _ => false
  end.

Definition confirmedReservations (reservations : list Reservation)
    : list Reservation :=
  List.filter (hasStatus CONFIRMED) reservations.

Definition totalCovers (reservations : list Reservation) : Z :=
  sumOf covers (confirmedReservations reservations).

(** Lines 64-65: the label of the hour of a reservation. *)
Definition hourLabel (res : Reservation) : string :=
  let hour :=
    JS.parseInt (Some 10) (JS.StringOfText (JS.split ":" (time res) !! 0%nat)) in
  JS.StringOfNumber hour +:+ ":00".

(** [existing.covers += n], where [existing] is the object that
    [acc.find(item => item.time === slot)] returns: the first item with the
    label. *)
Fixpoint addToFirst (slot : string) (n : Z) (acc : list ChartItem)
    : list ChartItem :=
  match acc with
  | [] => []
  | item :: rest =>
      if String.eqb (item_time item) slot
      then mkChartItem (item_time item) (item_covers item + n) :: rest
      else item :: addToFirst slot n rest
  end.

(** The callback of [reduce] (lines 63-72). *)
Definition chartStep (acc : list ChartItem) (res : Reservation)
    : list ChartItem :=
  let slot := hourLabel res in
  match List.find (fun item => String.eqb (item_time item) slot) acc with
  | Some existing => addToFirst slot (covers res) acc
  | None => acc ++ [mkChartItem slot (covers res)]
  end.

(** [chartData] (lines 63-73).  The order in which
    [sort((a, b) => a.time.localeCompare(b.time))] leaves the entries depends
    on the collation of the host and is not modelled: [sort] stands for it,
    and all that is used of it is that sorting rearranges the array. *)
Definition chartData (sort : list ChartItem -> list ChartItem)
    (reservations : list Reservation) : list ChartItem :=
  sort (fold_left chartStep reservations []).

(** The covers of the reservations whose hour has the label [slot]. *)
Definition coversAt (slot : string) (reservations : list Reservation) : Z :=
  sumOf covers
    (List.filter (fun r => String.eqb (hourLabel r) slot) reservations).

(** The height of the bars with the label [slot]. *)
Definition barsAt (slot : string) (items : list ChartItem) : Z :=
  sumOf item_covers
    (List.filter (fun item => String.eqb (item_time item) slot) items).

Module DashboardSample.

Definition party (id time : string) (n : Z) (s : ReservationStatus)
    : Reservation :=
  mkReservation id "Guest" "" "2024-01-01" time n (Some "t1") "sec1" s ""
    "" None None None.

Definition today : list Reservation :=
  [party "a" "18:00" 2 CONFIRMED; party "b" "9:30" 4 PENDING;
   party "c" "18:45" 3 CANCELLED; party "d" "09:00" 5 CONFIRMED].

End DashboardSample.

(** ** components/ReservationModal.tsx *)

(** The interface [Section] of types.ts. *)
Record Section := mkSection {
  sec_id : string;
  sec_name : string;
  floorId : string
}.

(** The state [formData].  Its fields are set from the first render on
    (lines 16-26 and 72), so they are not options; [covers] is the result of
    a [parseInt] and may be [NaN]. *)
Record FormData := mkFormData {
  fd_customerName : string;
  fd_contact : string;
  fd_date : string;
  fd_time : string;
  fd_covers : option Z;
  fd_tableId : option string;
  fd_sectionId : string;
  fd_status : ReservationStatus;
  fd_notes : string
}.

(** Lines 16-26. *)
Definition initialFormData (initialDate : string) : FormData :=
  mkFormData "" "" initialDate "" (Some 2) None "" CONFIRMED "".

(** Lines 47-49: the reservations of the day, without the one that is
    edited. *)
Definition reservationsForDate (reservation : option Reservation)
    (reservationsData : list Reservation) : list Reservation :=
  match reservation with
  | Some res =>
      List.filter (fun r => negb (String.eqb (res_id r) (res_id res)))
        reservationsData
  | None => reservationsData
  end.

(** The effect of lines 87-92: it returns early, or it throws (the
    [toISOString] of an Invalid Date is a RangeError), or it sets
    [availableTimeSlots]. *)
Inductive SlotsEffect :=
  | EffectSkipped
  | EffectThrows
  | EffectSlots (slots : list TimeSlot).

Definition slotsEffect (tza : Z) (formData : FormData)
    (settings : option Settings) (reservationsForDate : list Reservation)
    (allTables : list Table) (specialOpeningHours : list SpecialOpeningHour)
    : SlotsEffect :=
  match settings, fd_covers formData with
  | Some settings, Some covers =>
      if (length allTables =? 0)%nat || String.eqb (fd_date formData) ""
         || JS.falsyNumber (Some covers)
      then EffectSkipped
      else
        match JS.parseDateTimeLocal tza (fd_date formData +:+ "T00:00:00") with
        | Some dateObj =>
            EffectSlots
              (calculateAvailableSlots tza dateObj covers settings
                 reservationsForDate allTables specialOpeningHours)
        | None => EffectThrows
        end
  | _, _ => EffectSkipped
  end.

(** Lines 107-116: the state after a click on a slot and on a table. *)
Definition handleTimeSelect (slot : TimeSlot) (prev : FormData * list Table)
    : FormData * list Table :=
  let '(formData, _) := prev in
  (mkFormData (fd_customerName formData) (fd_contact formData)
     (fd_date formData) (slot_time slot) (fd_covers formData)
     (fd_tableId formData) (fd_sectionId formData) (fd_status formData)
     (fd_notes formData),
   availableTables slot).

Definition handleTableSelect (table : Table) (prev : FormData) : FormData :=
  mkFormData (fd_customerName prev) (fd_contact prev) (fd_date prev)
    (fd_time prev) (fd_covers prev) (Some (tbl_id table))
    (tbl_sectionId table) (fd_status prev) (fd_notes prev).

(** Lines 118-128: the errors found by [validateDetails]. *)
Definition detailErrors (formData : FormData) : list (string * string) :=
  (if String.eqb (JS.trim (fd_customerName formData)) ""
   then [("customerName", "Customer name is required.")] else [])
  ++ (if String.eqb (JS.trim (fd_contact formData)) ""
      then [("contact", "Contact information is required.")] else []).

Definition validateDetails (formData : FormData) : bool :=
  (length (detailErrors formData) =? 0)%nat.

(** Lines 154-164. *)
Record SubmissionPayload := mkSubmissionPayload {
  p_customerName : string;
  p_contact : string;
  p_date : string;
  p_time : string;
  p_covers : Z;
  p_tableId : string;
  p_sectionId : string;
  p_status : ReservationStatus;
  p_notes : string
}.

(** What [handleSubmit] (lines 130-177) does: it returns with inline
    errors, or sets the error of the dialog, or calls the API. *)
Inductive Submission :=
  | InvalidDetails (errors : list (string * string))
  | SubmitError (message : string)
  | UpdateReservation (id : string) (payload : SubmissionPayload)
  | CreateReservation (payload : SubmissionPayload).

(** The message of line 148. *)
Definition capacityMessage (covers : option Z) (capacity : Z) : string :=
  "Party size (" +:+ JS.StringOfNumber covers
  +:+ ") exceeds this table's capacity of " +:+ JS.String_ capacity
  +:+ ". Please choose a larger table or reduce the party size.".

Definition handleSubmit (reservation : option Reservation)
    (allTables : list Table) (formData : FormData) : Submission :=
  if negb (validateDetails formData) then InvalidDetails (detailErrors formData)
  else
    match fd_tableId formData with
    | None => SubmitError "A table must be selected."
    | Some tableId =>
        if String.eqb tableId "" then SubmitError "A table must be selected."
        else
          match List.find (fun t => String.eqb (tbl_id t) tableId) allTables with
          | None =>
              SubmitError
                "Could not find the selected table. Please go back and select a table again."
          | Some selectedTable =>
              match fd_covers formData with
              | None =>
                  SubmitError (capacityMessage None (capacity selectedTable))
              | Some covers =>
                  if (covers =? 0) || (capacity selectedTable <? covers)
                  then SubmitError
                         (capacityMessage (Some covers)
                            (capacity selectedTable))
                  else
                    let submissionPayload :=
                      mkSubmissionPayload (fd_customerName formData)
                        (fd_contact formData) (fd_date formData)
                        (fd_time formData) covers tableId
                        (fd_sectionId formData) (fd_status formData)
                        (fd_notes formData) in
                    match reservation with
                    | Some res =>
                        UpdateReservation (res_id res) submissionPayload
                    | None => CreateReservation submissionPayload
                    end
              end
          end
    end.

(** Lines 179-184: the sections of step 2, each with its tables. *)
Definition sectionsWithAvailableTables (allSections : list Section)
    (availableTablesForSlot : list Table) : list (Section * list Table) :=
  List.filter (fun section => (0 <? length (snd section))%nat)
    (List.map
       (fun section =>
          (section,
           List.filter
             (fun table => String.eqb (tbl_sectionId table) (sec_id section))
             availableTablesForSlot))
       allSections).

(** A string of white space only. *)
Fixpoint blank (s : string) : bool :=
  match s with
  | EmptyString => true
  | String c r => JS.isWhiteSpace c && blank r
  end.

(** Does the character occur in the string? *)
Fixpoint hasChar (c : ascii) (s : string) : bool :=
  match s with
  | EmptyString => false
  | String x r => Ascii.eqb x c || hasChar c r
  end.

(** [P] holds of the [n] integers from [z] on. *)
Fixpoint allFrom (n : nat) (z : Z) (P : Z -> bool) : bool :=
  match n with
  | O => true
  | S n' => P z && allFrom n' (z + 1) P
  end.

(** The first and the last day of the years 0000 to 9999, as day
    numbers. *)
Definition firstDay : Z := -719528.
Definition lastDay : Z := 2932896.

Module DialogSample.

Definition sections : list Section :=
  [mkSection "sec1" "Main Room" "f1"; mkSection "sec2" "Terrace" "f1"].

Definition details : FormData :=
  mkFormData "Ada" "555" "2024-01-01" "" (Some 2) None "" CONFIRMED "".

End DialogSample.

(** ** services/mockApiService.ts

    The arrays of data/mockData.ts are the state of the service; a call
    takes the array and returns the settled promise with the array after the
    call.  The promise resolves with a JSON copy of the data, which for
    these records is the same value. *)

(** A settled promise: resolved with a value, or rejected with the message
    of an [Error]. *)
Inductive Settled (A : Type) :=
  | Resolved (value : A)
  | Rejected (message : string).

Arguments Resolved {A} value.
Arguments Rejected {A} message.

(** [l.findIndex(f)]; [None] is the index -1. *)
Fixpoint findIndex {A} (f : A -> bool) (l : list A) : option nat :=
  match l with
  | [] => None
  | x :: r => if f x then Some O else S <$> findIndex f r
  end.

(** Lines 31-34. *)
Definition getReservationsByDate (date : string)
    (mockReservations : list Reservation) : Settled (list Reservation) :=
  let filtered :=
    List.filter (fun r => String.eqb (res_date r) date) mockReservations in
  Resolved filtered.

(** Lines 36-44.  [now] is the value of [Date.now()] and [now'] the time of
    the [new Date()] that follows; the id and the creation time take the
    place of whatever the argument holds in these fields. *)
Definition createReservation (now now' : Z) (newReservationData : Reservation)
    (mockReservations : list Reservation)
    : Settled Reservation * list Reservation :=
  let newReservation :=
    mkReservation ("res" +:+ JS.String_ now)
      (customerName newReservationData) (contact newReservationData)
      (res_date newReservationData) (time newReservationData)
      (covers newReservationData) (tableId newReservationData)
      (res_sectionId newReservationData) (status newReservationData)
      (notes newReservationData) (JS.toISOString now')
      (checkAmount newReservationData) (tableName newReservationData)
      (sectionName newReservationData) in
  (Resolved newReservation, mockReservations ++ [newReservation]).

(** Lines 46-53. *)
Definition updateReservation (updatedReservation : Reservation)
    (mockReservations : list Reservation)
    : Settled Reservation * list Reservation :=
  match findIndex
          (fun r => String.eqb (res_id r) (res_id updatedReservation))
          mockReservations with
  | Some index =>
      (Resolved updatedReservation,
       <[index := updatedReservation]> mockReservations)
  | None => (Rejected "Reservation not found", mockReservations)
  end.

(** Lines 55-62. *)
Definition deleteReservation (reservationId : string)
    (mockReservations : list Reservation)
    : Settled string * list Reservation :=
  match findIndex (fun r => String.eqb (res_id r) reservationId)
          mockReservations with
  | Some index => (Resolved reservationId, delete index mockReservations)
  | None => (Rejected "Reservation not found", mockReservations)
  end.

(** The reservations of a date, as the dialog gets them. *)
Definition reservationsOn (date : string) (mockReservations : list Reservation)
    : list Reservation :=
  match getReservationsByDate date mockReservations with
  | Resolved l => l
  | Rejected _ => []
  end.

(** The reservation that a payload of the dialog describes. *)
Definition reservationOfPayload (p : SubmissionPayload) : Reservation :=
  mkReservation "" (p_customerName p) (p_contact p) (p_date p) (p_time p)
    (p_covers p) (Some (p_tableId p)) (p_sectionId p) (p_status p)
    (p_notes p) "" None None None.

(** ** components/LayoutManager.tsx *)

(** [handleToggleTableReady] (lines 122-129): the state [tables] after the
    call, given how the request to the API settled. *)
Definition handleToggleTableReady (request : Settled Table) (tableId : string)
    (currentStatus : bool) (prevTables : list Table) : list Table :=
  match request with
  | Resolved _ =>
      List.map
        (fun t =>
           if String.eqb (tbl_id t) tableId
           then mkTable (tbl_id t) (tbl_name t) (capacity t) (tbl_sectionId t)
                  (negb currentStatus)
           else t)
        prevTables
  | Rejected _ => prevTables
  end.

(** A slot without the tables of the id [tableId]; no slot when no table is
    left. *)
Definition withoutTable (tableId : string) (slot : TimeSlot) : list TimeSlot :=
  match List.filter (fun t => negb (String.eqb (tbl_id t) tableId))
          (availableTables slot) with
  | [] => []
  | l => [mkTimeSlot (slot_time slot) l]
  end.

(** The candidate start times of the day of [date]. *)
Definition engineCandidates (tza date : Z) (settings : Settings)
    (specialOpeningHours : list SpecialOpeningHour) : list Z :=
  match resolveHours tza date settings specialOpeningHours with
  | Some hours =>
      match dateWithTime tza date (open hours),
            dateWithTime tza date (close hours) with
      | Some o, Some c => candidateTimes o c
      | _, _ => []
      end
  | None => []
  end.

(** ** components/ReservationsList.tsx *)

(** [isPotentialNoShow] (lines 282-290); [now] is the time of
    [new Date()]. *)
Definition isPotentialNoShow (tza now : Z) (settings : option Settings)
    (reservation : Reservation) : bool :=
  let grace :=
    match settings with
    | Some s => noShowGraceMinutes s
    | None => None
    end in
  if negb (hasStatus CONFIRMED reservation) || JS.falsyNumber grace
  then false
  else
    let gracePeriod := grace in
    let reservationTime :=
      JS.parseDateTimeLocal tza
        (res_date reservation +:+ "T" +:+ time reservation) in
    let graceTime :=
      match reservationTime, gracePeriod with
      | Some t, Some g => Some (t + g * 60000)
      | _, _ => None
      end in
    JS.dateGt (Some now) graceTime.

(** The grace period that the settings page shows (Settings.tsx, line
    114): [settings.noShowGraceMinutes || 15]. *)
Definition shownGraceMinutes (settings : Settings) : Z :=
  match noShowGraceMinutes settings with
  | Some g => if g =? 0 then 15 else g
  | None => 15
  end.

(** ** The day of the calendar and of the lists *)

(** ReservationsCalendar.tsx, lines 54-60: the selected date after a click
    on an arrow. *)
Definition handleDateChange (tza days prev : Z) : Z :=
  let newDate := prev in
  JS.setDate tza newDate (JS.getDate tza newDate + days).

(** Line 29 of the calendar, line 217 of the list and line 34 of the
    dashboard: [d.toISOString().split('T')[0]]. *)
Definition dateString (selectedDate : Z) : string :=
  JS.toISODateString selectedDate.

(** ** The engine in a time zone with clock changes

    The local time functions of [Date] read the zone through [LocalTZA] of
    ECMAScript (21.4.1.25): [offsetAt t] is the adjustment in force at the
    instant [t] ([LocalTZA(t, true)]), [offsetOfLocal l] the adjustment
    under which the local time [l] is read ([LocalTZA(l, false)]).  Where the
    clock is put forward a local time is skipped, where it is put back a
    local time comes twice; both are read with the adjustment in force
    before the change. *)
Record TimeZone := mkTimeZone {
  offsetAt : Z -> Z;
  offsetOfLocal : Z -> Z
}.

(** A zone without clock changes. *)
Definition fixedZone (tza : Z) : TimeZone :=
  mkTimeZone (fun _ => tza) (fun _ => tza).

(** A zone that is [standard] milliseconds from UTC, and an hour more from
    the instant [spring] to the instant [fall]. *)
Definition zoneWithSummerTime (standard spring fall : Z) : TimeZone :=
  mkTimeZone
    (fun t =>
       if (spring <=? t) && (t <? fall) then standard + JS.msPerHour
       else standard)
    (fun l =>
       if (spring + standard + JS.msPerHour <=? l)
          && (l <? fall + standard + JS.msPerHour)
       then standard + JS.msPerHour
       else standard).

Module Zoned.

(** [LocalTime(t)] and [UTC(l)]. *)
Definition localTime (zone : TimeZone) (t : Z) : Z := t + offsetAt zone t.

Definition utc (zone : TimeZone) (l : Z) : Z := l - offsetOfLocal zone l.

(** [d.setHours(h, m, 0, 0)] on a copy of the valid Date [t]:
    [UTC(MakeDate(Day(LocalTime(t)), MakeTime(h, m, 0, 0)))]. *)
Definition setHours (zone : TimeZone) (t : Z) (h m : option Z)
    : JS.TimeValue :=
  match h, m with
  | Some h, Some m =>
      Some (utc zone
              (localTime zone t / JS.msPerDay * JS.msPerDay
               + (h * JS.msPerHour + m * JS.msPerMinute)))
  | _, _ => None
  end.

(** [d.getHours()] and [d.getMinutes()]: [HourFromTime(LocalTime(t))] and
    [MinFromTime(LocalTime(t))]. *)
Definition getHours (zone : TimeZone) (d : JS.TimeValue) : option Z :=
  match d with
  | Some t => Some ((localTime zone t / JS.msPerHour) mod 24)
  | None => None
  end.

Definition getMinutes (zone : TimeZone) (d : JS.TimeValue) : option Z :=
  match d with
  | Some t => Some ((localTime zone t / JS.msPerMinute) mod 60)
  | None => None
  end.

(** utils/time.ts: the weekday of the local calendar day of [date]. *)
Definition getDayOfWeek (zone : TimeZone) (date : Z) : string :=
  JS.toLowerCase (JS.weekdayLong (offsetAt zone date) date).

(** utils/slotLogic.ts, as above, over the zone. *)
Definition dateWithTime (zone : TimeZone) (date : Z) (s : string)
    : JS.TimeValue :=
  let '(h, m) := parseHM s in
  setHours zone date h m.

Definition conflicts (zone : TimeZone) (date : Z) (settings : Settings)
    (currentTime : JS.TimeValue) (res : Reservation) : bool :=
  let resStartTime := dateWithTime zone date (time res) in
  let resEndTime := JS.addMs resStartTime (turnoverMinutes settings * 60000) in
  let newBookingStartTime := currentTime in
  let newBookingEndTime :=
    JS.addMs newBookingStartTime (turnoverMinutes settings * 60000) in
  JS.dateLt newBookingStartTime resEndTime
  && JS.dateGt newBookingEndTime resStartTime.

Definition tableIsFree (zone : TimeZone) (date : Z) (settings : Settings)
    (reservations : list Reservation) (currentTime : JS.TimeValue)
    (table : Table) : bool :=
  let conflictingReservations := List.filter (onTable table) reservations in
  negb (existsb (conflicts zone date settings currentTime)
          conflictingReservations).

Definition timeString (zone : TimeZone) (currentTime : JS.TimeValue)
    : string :=
  JS.padStart 2 "0" (JS.StringOfNumber (getHours zone currentTime))
  +:+ ":" +:+
  JS.padStart 2 "0" (JS.StringOfNumber (getMinutes zone currentTime)).

Definition loopBody (zone : TimeZone) (date : Z) (settings : Settings)
    (reservations : list Reservation) (eligibleTables : list Table)
    (currentTime : JS.TimeValue) (availableSlots : list TimeSlot)
    : list TimeSlot :=
  let timeStr := timeString zone currentTime in
  let availableTablesForSlot :=
    List.filter (tableIsFree zone date settings reservations currentTime)
      eligibleTables in
  if (0 <? length availableTablesForSlot)%nat
  then availableSlots ++ [mkTimeSlot timeStr availableTablesForSlot]
  else availableSlots.

Fixpoint whileLoop (fuel : nat) (zone : TimeZone) (date : Z)
    (settings : Settings) (reservations : list Reservation)
    (eligibleTables : list Table) (closingTime currentTime : JS.TimeValue)
    (availableSlots : list TimeSlot) : list TimeSlot :=
  match fuel with
  | O => availableSlots
  | S fuel' =>
      if JS.dateLt currentTime closingTime then
        whileLoop fuel' zone date settings reservations eligibleTables
          closingTime
          (JS.addMs currentTime (15 * 60000))
          (loopBody zone date settings reservations eligibleTables
             currentTime availableSlots)
      else availableSlots
  end.

Definition slotsForHours (zone : TimeZone) (date covers : Z)
    (settings : Settings) (reservations : list Reservation)
    (tables : list Table) (effectiveOpeningHours : option OpeningHours)
    : list TimeSlot :=
  match effectiveOpeningHours with
  | None => []
  | Some hours =>
      if String.eqb (open hours) "" then []
      else
        let eligibleTables := eligible covers tables in
        if (length eligibleTables =? 0)%nat then []
        else
          let openingTime := dateWithTime zone date (open hours) in
          let closingTime := dateWithTime zone date (close hours) in
          whileLoop (passes openingTime closingTime) zone date settings
            reservations eligibleTables closingTime openingTime []
  end.

Definition calculateAvailableSlots (zone : TimeZone) (date covers : Z)
    (settings : Settings) (reservations : list Reservation)
    (tables : list Table) (specialOpeningHours : list SpecialOpeningHour)
    : list TimeSlot :=
  let dateString := JS.toISODateString date in
  let specialHour := findSpecialHour dateString specialOpeningHours in
  match specialHour with
  | Some sh =>
      if negb (isOpen sh) || JS.falsy (openTime sh) || JS.falsy (closeTime sh)
      then []
      else
        match openTime sh, closeTime sh with
        | Some o, Some c =>
            slotsForHours zone date covers settings reservations tables
              (Some (mkOpeningHours o c))
        | _, _ => []
        end
  | None =>
      let dayOfWeek := getDayOfWeek zone date in
      slotsForHours zone date covers settings reservations tables
        (openingHours settings !! dayOfWeek)
  end.

(** The slot pushed for the candidate [t], if any. *)
Definition slotAt (zone : TimeZone) (date : Z) (settings : Settings)
    (reservations : list Reservation) (eligibleTables : list Table)
    (t : Z) : list TimeSlot :=
  loopBody zone date settings reservations eligibleTables (Some t) [].

End Zoned.

(** The clock of the zone does not change on the local day of [date]: from
    its midnight to the next the zone is [tza] milliseconds from UTC. *)
Definition noClockChange (zone : TimeZone) (tza date : Z) : Prop :=
  (forall t,
     dayStart tza date <= t <= dayStart tza date + JS.msPerDay ->
     offsetAt zone t = tza)
  /\ (forall l,
        JS.localDay tza date * JS.msPerDay <= l
        <= JS.localDay tza date * JS.msPerDay + JS.msPerDay ->
        offsetOfLocal zone l = tza).

(** An "HH:MM" string that names a time of the day, 00:00 to 24:00, or
    that [Number] does not read. *)
Definition withinDay (s : string) : Prop :=
  match parseHM s with
  | (Some h, Some m) => 0 <= h * 60 + m <= 1440
  | _ => True
  end.

(** New York in 2024: five hours behind UTC, four from 10 March, 07:00 UTC,
    to 3 November, 06:00 UTC. *)
Module ZoneSample.

Definition newYork : TimeZone :=
  zoneWithSummerTime (-18000000) 1710054000000 1730613600000.

(** Monday 1 January 2024 and Sunday 3 November 2024, 00:00 in New York. *)
Definition newYearsDay : Z := 1704085200000.
Definition fallBackDay : Z := 1730606400000.

(** Johannesburg: two hours ahead of UTC all year. *)
Definition johannesburg : TimeZone := fixedZone 7200000.

Definition nightSettings : Settings :=
  mkSettings 60 {[ "sunday" := mkOpeningHours "00:30" "02:30" ]}
    "America/New_York" None None.

End ZoneSample.

(** * Properties *)

(** ** The platform functions on known values *)

Example ex_split : JS.split ":" "17:05" = ["17"; "05"].
Proof. reflexivity. Qed.
Example ex_iso : JS.toISODateString 1704067200000 = "2024-01-01".
Proof. reflexivity. Qed.
Example ex_iso2 : JS.toISODateString 951782400000 = "2000-02-29".
Proof. reflexivity. Qed.
Example ex_iso3 : JS.toISODateString (-1) = "1969-12-31".
Proof. reflexivity. Qed.
Example ex_dow : getDayOfWeek 0 1704067200000 = "monday".
Proof. reflexivity. Qed.
Example ex_dow2 : getDayOfWeek (-18000000) 1704067200000 = "sunday".
Proof. reflexivity. Qed.

(** The store does record a write: [setHours] on the argument itself, which
    the function never does, would change it. *)
Example ex_setHours_overwrites :
  Stateful.setHours 0 0%nat (Some 17) (Some 0)
    {[ 0%nat := Some Sample.monday ]}
  = inr (tt, {[ 0%nat := Some (Sample.at_ 17 0) ]}).
Proof. by vm_compute. Qed.

(** ** The loop *)

Section Loop.

Context (tza date : Z) (settings : Settings)
  (reservations : list Reservation) (eligibleTables : list Table).

Local Abbreviation body :=
  (loopBody tza date settings reservations eligibleTables).
Local Abbreviation loop :=
  (fun fuel =>
     whileLoop fuel tza date settings reservations eligibleTables).
Local Abbreviation at_ :=
  (slotAt tza date settings reservations eligibleTables).

Lemma loopBody_app cur acc : body cur acc = acc ++ body cur [].
Proof.
  unfold loopBody. destruct (_ <? _)%nat; [done | by rewrite app_nil_r].
Qed.

Lemma whileLoop_app fuel closing cur acc :
  loop fuel closing cur acc = acc ++ loop fuel closing cur [].
Proof.
  revert cur acc. induction fuel as [|fuel IH]; intros cur acc; simpl.
  - by rewrite app_nil_r.
  - destruct (JS.dateLt cur closing); [| by rewrite app_nil_r].
    rewrite IH, (IH _ (body cur [])), (loopBody_app cur acc).
    by rewrite app_assoc.
Qed.

Lemma candidateCount_le o c : c <= o -> candidateCount o c = O.
Proof.
  intros H. unfold candidateCount, slotStep.
  assert ((c - o + (15 * 60000 - 1)) / (15 * 60000) <= 0); [| lia].
  apply Z.lt_succ_r, Z.div_lt_upper_bound; lia.
Qed.

Lemma candidateCount_lt o c :
  o < c -> candidateCount o c = S (candidateCount (o + slotStep) c).
Proof.
  intros H. unfold candidateCount, slotStep.
  replace (c - o + (15 * 60000 - 1)) with
    (1 * (15 * 60000) + (c - (o + 15 * 60000) + (15 * 60000 - 1))) by lia.
  rewrite Z.div_add_l by lia.
  rewrite <- Z2Nat.inj_succ; [f_equal; lia |].
  apply Z.div_pos; lia.
Qed.

Lemma candidateTimes_le o c : c <= o -> candidateTimes o c = [].
Proof. intros H. unfold candidateTimes. by rewrite candidateCount_le. Qed.

Lemma candidateTimes_lt o c :
  o < c -> candidateTimes o c = o :: candidateTimes (o + slotStep) c.
Proof.
  intros H. unfold candidateTimes. rewrite (candidateCount_lt o c H).
  simpl. f_equal; [lia |].
  rewrite <- seq_shift, List.map_map. apply List.map_ext. intros k. lia.
Qed.

Lemma passes_enough o c :
  (candidateCount o c < passes (Some o) (Some c))%nat.
Proof. simpl. lia. Qed.

(** With enough passes the loop pushes the slots of the candidates, in
    their order. *)
Lemma whileLoop_candidates fuel o c acc :
  (candidateCount o c < fuel)%nat ->
  loop fuel (Some c) (Some o) acc = acc ++ flat_map at_ (candidateTimes o c).
Proof.
  revert o acc. induction fuel as [|fuel IH]; intros o acc Hfuel; [lia |].
  simpl. destruct (Z.ltb_spec o c) as [Hlt|Hge].
  - rewrite candidateTimes_lt by done. simpl.
    rewrite candidateCount_lt in Hfuel by done.
    rewrite IH by (unfold slotStep in *; lia).
    rewrite (loopBody_app (Some o) acc). unfold slotAt, slotStep.
    by rewrite <- app_assoc.
  - rewrite candidateTimes_le by done. simpl. by rewrite app_nil_r.
Qed.

(** The bounded loop computes the result of the [while] loop. *)
Lemma whileLoop_runs fuel closing cur acc :
  (match cur, closing with
   | Some o, Some c => candidateCount o c < fuel
   | _, _ => True
   end)%nat ->
  LoopRun tza date settings reservations eligibleTables closing cur acc
    (loop fuel closing cur acc).
Proof.
  revert cur acc. induction fuel as [|fuel IH]; intros cur acc Hfuel.
  - destruct cur as [o|], closing as [c|]; try lia; simpl;
      by apply LoopExit.
  - simpl. destruct (JS.dateLt cur closing) eqn:Hlt.
    + apply LoopPass; [done |]. apply IH.
      destruct cur as [o|], closing as [c|]; simpl in *; try done.
      apply Z.ltb_lt in Hlt. rewrite candidateCount_lt in Hfuel by done.
      unfold slotStep in *. lia.
    + by apply LoopExit.
Qed.

Lemma LoopRun_deterministic closing cur acc r1 r2 :
  LoopRun tza date settings reservations eligibleTables closing cur acc r1 ->
  LoopRun tza date settings reservations eligibleTables closing cur acc r2 ->
  r1 = r2.
Proof.
  intros H1. revert r2.
  induction H1 as [cur acc Hc | cur acc r Hc H1 IH]; intros r2 H2;
    inversion H2; subst; try congruence.
  by apply IH.
Qed.

End Loop.

(** ** Candidates and slots *)

Lemma candidateCount_spec o c (k : nat) :
  (k < candidateCount o c)%nat <-> o + Z.of_nat k * slotStep < c.
Proof.
  unfold candidateCount, slotStep.
  set (q := (c - o + (15 * 60000 - 1)) / (15 * 60000)).
  assert (Hq : (15 * 60000) * q <= c - o + (15 * 60000 - 1) < (15 * 60000) * (q + 1)).
  { pose proof (Z.mul_div_le (c - o + (15 * 60000 - 1)) (15 * 60000)).
    pose proof (Z.mul_succ_div_gt (c - o + (15 * 60000 - 1)) (15 * 60000)).
    fold q in H, H0. lia. }
  split; intros H.
  - assert (Z.of_nat k + 1 <= q) by lia. nia.
  - assert (Z.of_nat k < q) by nia. lia.
Qed.

Lemma candidateTimes_elem o c t :
  t ∈ candidateTimes o c <->
  exists k : nat, t = o + Z.of_nat k * slotStep /\ t < c.
Proof.
  rewrite list_elem_of_In. unfold candidateTimes. rewrite in_map_iff. split.
  - intros (k & <- & Hk). exists k. split; [done |].
    apply candidateCount_spec. apply in_seq in Hk. lia.
  - intros (k & -> & Hk). exists k. split; [done |].
    apply in_seq. apply candidateCount_spec in Hk. lia.
Qed.

Lemma candidateTimes_sorted o c : StronglySorted Z.lt (candidateTimes o c).
Proof.
  unfold candidateTimes. generalize (candidateCount o c) as n. intros n.
  generalize 0%nat as s. induction n as [|n IH]; intros s; simpl.
  - constructor.
  - constructor; [apply IH |].
    apply List.Forall_forall. intros t Ht. apply in_map_iff in Ht.
    destruct Ht as (k & <- & Hk). apply in_seq in Hk. unfold slotStep. lia.
Qed.

Lemma candidateTimes_shift b o c :
  candidateTimes (o + b) (c + b) = List.map (fun t => t + b) (candidateTimes o c).
Proof.
  unfold candidateTimes. rewrite List.map_map.
  replace (candidateCount (o + b) (c + b)) with (candidateCount o c).
  - apply List.map_ext. intros k. lia.
  - unfold candidateCount. do 2 f_equal. lia.
Qed.

Lemma slotAt_elem tza date settings reservations eligibleTables t slot :
  slot ∈ slotAt tza date settings reservations eligibleTables t <->
  slot = mkTimeSlot (timeString tza (Some t))
           (List.filter (tableIsFree tza date settings reservations (Some t))
              eligibleTables)
  /\ availableTables slot <> [].
Proof.
  unfold slotAt, loopBody.
  destruct (List.filter _ eligibleTables) as [|x l] eqn:E; simpl.
  - split; [intros H; by apply elem_of_nil in H | intros [-> H]; done].
  - rewrite list_elem_of_singleton. split; [intros ->; done | intros [-> _]; done].
Qed.

Lemma slotAt_no_tables tza date settings reservations t :
  slotAt tza date settings reservations [] t = [].
Proof. done. Qed.

Lemma calculateAvailableSlots_resolve tza date covers settings reservations
    tables specialOpeningHours :
  calculateAvailableSlots tza date covers settings reservations tables
    specialOpeningHours
  = slotsForHours tza date covers settings reservations tables
      (resolveHours tza date settings specialOpeningHours).
Proof.
  unfold calculateAvailableSlots, resolveHours.
  destruct (findSpecialHour _ specialOpeningHours) as [sh|]; [| done].
  unfold JS.falsy.
  destruct (isOpen sh), (openTime sh) as [o|], (closeTime sh) as [c|];
    cbn [negb orb]; try done.
  - destruct (String.eqb o ""), (String.eqb c ""); done.
  - by destruct (String.eqb o "").
Qed.

Lemma slotsForHours_candidates tza date covers settings reservations tables
    hours o c :
  open hours <> "" ->
  eligible covers tables <> [] ->
  dateWithTime tza date (open hours) = Some o ->
  dateWithTime tza date (close hours) = Some c ->
  slotsForHours tza date covers settings reservations tables (Some hours)
  = flat_map (slotAt tza date settings reservations (eligible covers tables))
      (candidateTimes o c).
Proof.
  intros Hopen Hel Ho Hc. unfold slotsForHours.
  apply String.eqb_neq in Hopen. rewrite Hopen.
  destruct (eligible covers tables) as [|x l] eqn:E; [done |].
  simpl length. simpl Nat.eqb. cbv iota. rewrite Ho, Hc.
  rewrite whileLoop_candidates by apply passes_enough. done.
Qed.

Lemma slotsForHours_no_eligible tza date covers settings reservations tables
    hours :
  eligible covers tables = [] ->
  slotsForHours tza date covers settings reservations tables hours = [].
Proof.
  intros E. unfold slotsForHours. destruct hours as [h|]; [| done].
  rewrite E. by destruct (String.eqb (open h) "").
Qed.

Lemma dateWithTime_Some_open tza date s o :
  dateWithTime tza date s = Some o -> s <> "".
Proof. intros H ->. discriminate H. Qed.

Lemma slotsForHours_flat_map tza date covers settings reservations tables
    hours o c :
  dateWithTime tza date (open hours) = Some o ->
  dateWithTime tza date (close hours) = Some c ->
  slotsForHours tza date covers settings reservations tables (Some hours)
  = flat_map (slotAt tza date settings reservations (eligible covers tables))
      (candidateTimes o c).
Proof.
  intros Ho Hc.
  destruct (eligible covers tables) as [|x l] eqn:E.
  - rewrite slotsForHours_no_eligible by done.
    induction (candidateTimes o c) as [|t ts IH]; [done | by simpl].
  - rewrite <- E. apply slotsForHours_candidates; try done.
    + by eapply dateWithTime_Some_open.
    + by rewrite E.
Qed.

(** Every returned slot comes from one candidate start. *)
Lemma slotsForHours_elem tza date covers settings reservations tables
    hours slot :
  slot ∈ slotsForHours tza date covers settings reservations tables hours ->
  exists h o c (k : nat),
    hours = Some h /\ open h <> "" /\
    dateWithTime tza date (open h) = Some o /\
    dateWithTime tza date (close h) = Some c /\
    o + Z.of_nat k * slotStep < c /\
    slot = mkTimeSlot (timeString tza (Some (o + Z.of_nat k * slotStep)))
             (List.filter
                (tableIsFree tza date settings reservations
                   (Some (o + Z.of_nat k * slotStep)))
                (eligible covers tables)) /\
    availableTables slot <> [].
Proof.
  intros Hin. destruct hours as [h|]; [| by apply elem_of_nil in Hin].
  destruct (String.eqb_spec (open h) "") as [He|Hne].
  { unfold slotsForHours in Hin. apply String.eqb_eq in He. rewrite He in Hin.
    by apply elem_of_nil in Hin. }
  assert (Hel : eligible covers tables <> []).
  { intros E. unfold slotsForHours in Hin. rewrite E in Hin.
    destruct (String.eqb (open h) ""); by apply elem_of_nil in Hin. }
  assert (Hfuel0 : forall cl cu, whileLoop 0 tza date settings reservations
            (eligible covers tables) cl cu [] = []) by done.
  destruct (dateWithTime tza date (open h)) as [o|] eqn:Ho; cycle 1.
  { unfold slotsForHours in Hin. rewrite Ho in Hin. simpl passes in Hin.
    rewrite Hfuel0 in Hin.
    destruct (String.eqb (open h) ""), (length (eligible covers tables) =? 0)%nat;
      by apply elem_of_nil in Hin. }
  destruct (dateWithTime tza date (close h)) as [c|] eqn:Hc; cycle 1.
  { unfold slotsForHours in Hin. rewrite Ho, Hc in Hin. simpl passes in Hin.
    rewrite Hfuel0 in Hin.
    destruct (String.eqb (open h) ""), (length (eligible covers tables) =? 0)%nat;
      by apply elem_of_nil in Hin. }
  rewrite (slotsForHours_candidates _ _ _ _ _ _ h o c) in Hin by done.
  apply list_elem_of_In, in_flat_map in Hin. destruct Hin as (t & Ht & Hs).
  apply list_elem_of_In, candidateTimes_elem in Ht. destruct Ht as (k & -> & Hk).
  apply list_elem_of_In, slotAt_elem in Hs. destruct Hs as [Hs Hne'].
  by exists h, o, c, k.
Qed.

(** ** The calendar day only anchors the comparisons

    Every instant the engine builds is the local midnight of [date] plus an
    offset read from an "HH:MM" string, so the slots do not depend on the
    day or on the time zone once the opening hours are chosen. *)

Lemma dateWithTime_shift tza date s :
  dateWithTime tza date s = JS.addMs (dateWithTime 0 0 s) (dayStart tza date).
Proof.
  unfold dateWithTime, dayStart. destruct (parseHM s) as [[h|] [m|]]; simpl; try done.
  f_equal. change (JS.localDay 0 0) with 0. lia.
Qed.

Lemma dateWithTime_dayStart tza date s o :
  dateWithTime tza date s = Some o ->
  exists x, dateWithTime 0 0 s = Some x /\ o = x + dayStart tza date.
Proof.
  rewrite dateWithTime_shift. destruct (dateWithTime 0 0 s) as [x|]; [| done].
  intros [= <-]. by exists x.
Qed.

Lemma dateWithTime_hm (h m : Z) s :
  parseHM s = (Some h, Some m) ->
  dateWithTime 0 0 s = Some ((h * 60 + m) * 60000).
Proof.
  intros H. unfold dateWithTime. rewrite H. simpl. f_equal.
  change (JS.localDay 0 0) with 0. unfold JS.msPerDay, JS.msPerHour, JS.msPerMinute. lia.
Qed.

Lemma dateLt_shift b x y :
  JS.dateLt (JS.addMs x b) (JS.addMs y b) = JS.dateLt x y.
Proof.
  destruct x as [x|], y as [y|]; simpl; try done.
  destruct (Z.ltb_spec (x + b) (y + b)), (Z.ltb_spec x y); lia || done.
Qed.

Lemma addMs_comm d a b : JS.addMs (JS.addMs d a) b = JS.addMs (JS.addMs d b) a.
Proof. destruct d; simpl; [f_equal; lia | done]. Qed.

Lemma getHours_shift tza date d :
  JS.getHours tza (JS.addMs d (dayStart tza date)) = JS.getHours 0 d.
Proof.
  destruct d as [x|]; simpl; [| done]. f_equal.
  unfold dayStart, JS.msPerDay, JS.msPerHour.
  replace (x + (JS.localDay tza date * 86400000 - tza) + tza)
    with (JS.localDay tza date * 24 * 3600000 + x) by lia.
  rewrite Z.add_0_r, Z.div_add_l by lia.
  rewrite Z.add_comm, Z_mod_plus_full. done.
Qed.

Lemma getMinutes_shift tza date d :
  JS.getMinutes tza (JS.addMs d (dayStart tza date)) = JS.getMinutes 0 d.
Proof.
  destruct d as [x|]; simpl; [| done]. f_equal.
  unfold dayStart, JS.msPerDay, JS.msPerMinute.
  replace (x + (JS.localDay tza date * 86400000 - tza) + tza)
    with (JS.localDay tza date * 1440 * 60000 + x) by lia.
  rewrite Z.add_0_r, Z.div_add_l by lia.
  replace (JS.localDay tza date * 1440) with (JS.localDay tza date * 24 * 60) by lia.
  rewrite Z.add_comm, Z_mod_plus_full. done.
Qed.

Lemma timeString_shift tza date d :
  timeString tza (JS.addMs d (dayStart tza date)) = timeString 0 d.
Proof. unfold timeString. by rewrite getHours_shift, getMinutes_shift. Qed.

(** The string of an instant [n] minutes after local midnight. *)
Lemma timeString_minutes n :
  timeString 0 (Some (n * 60000))
  = JS.pad 2 ((n / 60) mod 24) +:+ ":" +:+ JS.pad 2 (n mod 60).
Proof.
  unfold timeString, JS.pad. simpl. unfold JS.msPerHour, JS.msPerMinute.
  rewrite Z.add_0_r.
  replace 3600000 with (60 * 60000) by done.
  rewrite Z.div_mul_cancel_r by done. rewrite Z.div_mul by done. done.
Qed.

Lemma conflicts_shift tza date settings cur res :
  conflicts tza date settings (JS.addMs cur (dayStart tza date)) res
  = conflicts 0 0 settings cur res.
Proof.
  unfold conflicts, JS.dateGt. rewrite dateWithTime_shift.
  rewrite (addMs_comm (dateWithTime 0 0 (time res))).
  rewrite (addMs_comm cur). by rewrite !dateLt_shift.
Qed.

Lemma existsb_pointwise {A} (f g : A -> bool) l :
  (forall a, f a = g a) -> existsb f l = existsb g l.
Proof. intros H. induction l as [|a l IH]; simpl; [done | by rewrite H, IH]. Qed.

Lemma tableIsFree_shift tza date settings reservations cur table :
  tableIsFree tza date settings reservations
    (JS.addMs cur (dayStart tza date)) table
  = tableIsFree 0 0 settings reservations cur table.
Proof.
  unfold tableIsFree. f_equal. apply existsb_pointwise. intros r.
  apply conflicts_shift.
Qed.

Lemma loopBody_shift tza date settings reservations eligibleTables cur acc :
  loopBody tza date settings reservations eligibleTables
    (JS.addMs cur (dayStart tza date)) acc
  = loopBody 0 0 settings reservations eligibleTables cur acc.
Proof.
  unfold loopBody. rewrite timeString_shift.
  rewrite (List.filter_ext _ _ (tableIsFree_shift tza date settings reservations cur)).
  done.
Qed.

Lemma whileLoop_shift fuel tza date settings reservations eligibleTables
    closing cur acc :
  whileLoop fuel tza date settings reservations eligibleTables
    (JS.addMs closing (dayStart tza date)) (JS.addMs cur (dayStart tza date)) acc
  = whileLoop fuel 0 0 settings reservations eligibleTables closing cur acc.
Proof.
  revert cur acc. induction fuel as [|fuel IH]; intros cur acc; simpl; [done |].
  rewrite dateLt_shift, loopBody_shift, addMs_comm, IH. done.
Qed.

Lemma passes_shift b o c :
  passes (JS.addMs o b) (JS.addMs c b) = passes o c.
Proof.
  destruct o as [o|], c as [c|]; simpl; try done.
  unfold candidateCount. do 3 f_equal. lia.
Qed.

Lemma slotsForHours_shift tza date covers settings reservations tables hours :
  slotsForHours tza date covers settings reservations tables hours
  = slotsForHours 0 0 covers settings reservations tables hours.
Proof.
  unfold slotsForHours. destruct hours as [h|]; [| done].
  rewrite !(dateWithTime_shift tza date), passes_shift, whileLoop_shift. done.
Qed.

(** ** Conflicts, free tables, eligible tables *)

Lemma windowsOverlap_iff a b w :
  windowsOverlap a b w <-> a < b + w /\ b < a + w.
Proof.
  unfold windowsOverlap, inWindow. split.
  - intros (x & Ha & Hb). lia.
  - intros [Ha Hb]. exists (Z.max a b). lia.
Qed.

Lemma conflicts_true_iff tza date settings t res :
  conflicts tza date settings (Some t) res = true <->
  exists r, dateWithTime tza date (time res) = Some r
            /\ t < r + turnoverMinutes settings * 60000
            /\ t + turnoverMinutes settings * 60000 > r.
Proof.
  unfold conflicts, JS.dateGt.
  destruct (dateWithTime tza date (time res)) as [r|]; simpl.
  - rewrite andb_true_iff, !Z.ltb_lt. split.
    + intros [H1 H2]. exists r. split; [done | lia].
    + intros (r' & [= <-] & H1 & H2). lia.
  - split; [done | intros (r & [=] & _)].
Qed.

Lemma onTable_true_iff table res :
  onTable table res = true <-> tableId res = Some (tbl_id table).
Proof.
  unfold onTable. destruct (tableId res) as [i|]; [| done].
  rewrite String.eqb_eq. split; congruence.
Qed.

Lemma tableIsFree_noConflict tza date settings reservations t table :
  tableIsFree tza date settings reservations (Some t) table
  = noConflict tza date settings reservations t table.
Proof.
  unfold tableIsFree, noConflict.
  induction reservations as [|res l IH]; simpl; [done |].
  destruct (onTable table res); simpl; [| done].
  rewrite negb_orb. by rewrite IH.
Qed.

Lemma noConflict_true_iff tza date settings reservations t table :
  noConflict tza date settings reservations t table = true <->
  forall res, res ∈ reservations -> tableId res = Some (tbl_id table) ->
              conflicts tza date settings (Some t) res = false.
Proof.
  unfold noConflict. rewrite forallb_forall. split.
  - intros H res Hin Hid. apply list_elem_of_In, H in Hin.
    apply onTable_true_iff in Hid. rewrite Hid in Hin. simpl in Hin.
    by apply negb_true_iff in Hin.
  - intros H res Hin. apply list_elem_of_In in Hin.
    destruct (onTable table res) eqn:E; [| done]. simpl.
    apply onTable_true_iff in E. by rewrite (H res Hin E).
Qed.

Lemma free_table_no_overlap tza date settings reservations t table res r :
  noConflict tza date settings reservations t table = true ->
  res ∈ reservations ->
  tableId res = Some (tbl_id table) ->
  dateWithTime tza date (time res) = Some r ->
  ~ windowsOverlap t r (turnoverMinutes settings * 60000).
Proof.
  intros Hfree Hres Hid Hr Hov.
  rewrite noConflict_true_iff in Hfree. specialize (Hfree res Hres Hid).
  apply windowsOverlap_iff in Hov.
  assert (conflicts tza date settings (Some t) res = true); [| congruence].
  apply conflicts_true_iff. exists r. split; [done | lia].
Qed.

Lemma eligible_elem covers tables table :
  table ∈ eligible covers tables <->
  table ∈ tables /\ capacity table >= covers /\ isReady table = true.
Proof.
  unfold eligible. rewrite !list_elem_of_In, filter_In, andb_true_iff, Z.geb_le.
  split; intros (H1 & H2 & H3); repeat split; (done || lia).
Qed.

Lemma filter_elem {A} (f : A -> bool) l x :
  x ∈ List.filter f l <-> x ∈ l /\ f x = true.
Proof. by rewrite !list_elem_of_In, filter_In. Qed.

Lemma eligible_mono covers covers' tables table :
  covers <= covers' ->
  table ∈ eligible covers' tables -> table ∈ eligible covers tables.
Proof. rewrite !eligible_elem. intros H (H1 & H2 & H3). repeat split; (done || lia). Qed.

(** Every returned slot, traced back to its start instant. *)
Lemma slot_origin tza date covers settings reservations tables
    specialOpeningHours slot :
  slot ∈ calculateAvailableSlots tza date covers settings reservations tables
           specialOpeningHours ->
  exists h o c (k : nat),
    resolveHours tza date settings specialOpeningHours = Some h /\
    open h <> "" /\
    dateWithTime tza date (open h) = Some o /\
    dateWithTime tza date (close h) = Some c /\
    o + Z.of_nat k * slotStep < c /\
    slot_time slot = timeString tza (Some (o + Z.of_nat k * slotStep)) /\
    availableTables slot
    = List.filter
        (noConflict tza date settings reservations (o + Z.of_nat k * slotStep))
        (eligible covers tables) /\
    availableTables slot <> [].
Proof.
  rewrite calculateAvailableSlots_resolve. intros Hin.
  apply slotsForHours_elem in Hin.
  destruct Hin as (h & o & c & k & Hh & Hop & Ho & Hc & Hk & -> & Hne).
  exists h, o, c, k. repeat split; try done. simpl.
  apply List.filter_ext. intros table. apply tableIsFree_noConflict.
Qed.

(** Conversely, a candidate with a free eligible table is returned. *)
Lemma slot_intro tza date covers settings reservations tables
    specialOpeningHours h o c (k : nat) :
  resolveHours tza date settings specialOpeningHours = Some h ->
  open h <> "" ->
  dateWithTime tza date (open h) = Some o ->
  dateWithTime tza date (close h) = Some c ->
  o + Z.of_nat k * slotStep < c ->
  List.filter
    (noConflict tza date settings reservations (o + Z.of_nat k * slotStep))
    (eligible covers tables) <> [] ->
  mkTimeSlot (timeString tza (Some (o + Z.of_nat k * slotStep)))
    (List.filter
       (noConflict tza date settings reservations (o + Z.of_nat k * slotStep))
       (eligible covers tables))
  ∈ calculateAvailableSlots tza date covers settings reservations tables
      specialOpeningHours.
Proof.
  intros Hh Hop Ho Hc Hk Hne.
  assert (Hel : eligible covers tables <> []).
  { intros E. by rewrite E in Hne. }
  rewrite calculateAvailableSlots_resolve, Hh.
  rewrite (slotsForHours_candidates _ _ _ _ _ _ h o c) by done.
  apply list_elem_of_In, in_flat_map. exists (o + Z.of_nat k * slotStep). split.
  - apply list_elem_of_In, candidateTimes_elem. by exists k.
  - apply list_elem_of_In, slotAt_elem.
    rewrite (List.filter_ext _ _
               (tableIsFree_noConflict tza date settings reservations _)).
    done.
Qed.

(** ** The choice of the opening hours *)

Lemma find_first_match {A} (f : A -> bool) pre x post :
  (forall y, y ∈ pre -> f y = false) -> f x = true ->
  List.find f (pre ++ x :: post) = Some x.
Proof.
  intros Hpre Hx. induction pre as [|y pre IH]; simpl.
  - by rewrite Hx.
  - rewrite (Hpre y) by left. apply IH. intros z Hz. apply Hpre. by right.
Qed.

Lemma find_no_match {A} (f : A -> bool) l :
  (forall y, y ∈ l -> f y = false) <-> List.find f l = None.
Proof.
  induction l as [|y l IH]; simpl.
  - split; [done | intros _ y Hy; by apply elem_of_nil in Hy].
  - destruct (f y) eqn:E.
    + split; [| done]. intros H. specialize (H y ltac:(left)). congruence.
    + rewrite <- IH. split.
      * intros H z Hz. apply H. by right.
      * intros H z Hz. apply elem_of_cons in Hz as [-> | Hz]; [done | by apply H].
Qed.

Lemma findSpecialHour_None dateString specialOpeningHours :
  findSpecialHour dateString specialOpeningHours = None <->
  forall h, h ∈ specialOpeningHours -> soh_date h <> dateString.
Proof.
  unfold findSpecialHour. rewrite <- find_no_match.
  split; intros H h Hh; apply String.eqb_neq; by apply H.
Qed.

Lemma findSpecialHour_Some dateString specialOpeningHours sh :
  findSpecialHour dateString specialOpeningHours = Some sh ->
  sh ∈ specialOpeningHours /\ soh_date sh = dateString.
Proof.
  unfold findSpecialHour. intros H. apply find_some in H.
  rewrite list_elem_of_In. by rewrite <- String.eqb_eq.
Qed.

(** The turnover is all the engine reads from the settings once the
    opening hours are chosen. *)
Lemma whileLoop_turnover fuel tza date settings settings' reservations
    eligibleTables closing cur acc :
  turnoverMinutes settings' = turnoverMinutes settings ->
  whileLoop fuel tza date settings' reservations eligibleTables closing cur acc
  = whileLoop fuel tza date settings reservations eligibleTables closing cur acc.
Proof.
  intros Ht. revert cur acc. induction fuel as [|fuel IH]; intros cur acc;
    simpl; [done |].
  rewrite IH. unfold loopBody, tableIsFree, conflicts. by rewrite Ht.
Qed.

Lemma slotsForHours_turnover tza date covers settings settings' reservations
    tables hours :
  turnoverMinutes settings' = turnoverMinutes settings ->
  slotsForHours tza date covers settings' reservations tables hours
  = slotsForHours tza date covers settings reservations tables hours.
Proof.
  intros Ht. unfold slotsForHours. destruct hours as [h|]; [| done].
  by rewrite (whileLoop_turnover _ _ _ settings settings').
Qed.

(** ** Time strings read back *)

(** The strings of the minutes of one day read back as their hour and
    minute. *)
Lemma parseHM_timeString_day (k : nat) :
  (k < 1440)%nat ->
  parseHM (timeString 0 (Some (Z.of_nat k * 60000)))
  = (Some (Z.of_nat k / 60), Some (Z.of_nat k mod 60)).
Proof.
  intros Hk.
  assert (Hall : forallb
    (fun k => match parseHM (timeString 0 (Some (Z.of_nat k * 60000))) with
              | (Some h, Some m) =>
                  (h =? Z.of_nat k / 60) && (m =? Z.of_nat k mod 60)
              | _ => false
              end) (seq 0 1440) = true) by (by vm_compute).
  rewrite forallb_forall in Hall. specialize (Hall k).
  destruct (parseHM _) as [[h|] [m|]]; try (discriminate Hall; apply in_seq; lia).
  assert (Hin : In k (seq 0 1440)) by (apply in_seq; lia).
  apply Hall in Hin. apply andb_true_iff in Hin as [H1 H2].
  apply Z.eqb_eq in H1, H2. by subst.
Qed.

Lemma dateWithTime_timeString_day tza date n :
  0 <= n < 1440 ->
  dateWithTime tza date (timeString tza (Some (n * 60000 + dayStart tza date)))
  = Some (n * 60000 + dayStart tza date).
Proof.
  intros Hn.
  change (Some (n * 60000 + dayStart tza date))
    with (JS.addMs (Some (n * 60000)) (dayStart tza date)) at 1.
  rewrite timeString_shift, dateWithTime_shift.
  replace n with (Z.of_nat (Z.to_nat n)) by lia.
  unfold dateWithTime. rewrite parseHM_timeString_day by lia.
  simpl. f_equal. change (JS.localDay 0 0) with 0.
  unfold JS.msPerDay, JS.msPerHour, JS.msPerMinute.
  pose proof (Z.div_mod (Z.of_nat (Z.to_nat n)) 60 ltac:(done)). lia.
Qed.

(** ** The store model computes the same slots and keeps the store *)

Section StoreFacts.

Local Abbreviation M := Stateful.M.
Local Abbreviation Store := Stateful.Store.
Local Abbreviation Ref := Stateful.Ref.
Local Abbreviation runs := Stateful.runs.
Local Abbreviation ret := Stateful.ret.
Local Abbreviation bind := Stateful.bind.
Local Abbreviation getTime := Stateful.getTime.
Local Abbreviation newDate := Stateful.newDate.
Local Abbreviation copyDate := Stateful.copyDate.
Local Abbreviation someM := Stateful.someM.
Local Abbreviation filterM := Stateful.filterM.

Lemma runs_ret {A} (a : A) (σ : Store) (Q : A -> Store -> Prop) :
  Q a σ -> runs (ret a) σ Q.
Proof. intros H. by exists a, σ. Qed.

Lemma runs_bind {A B} (m : M A) (k : A -> M B) (σ : Store)
    (Q : A -> Store -> Prop) (R : B -> Store -> Prop) :
  runs m σ Q ->
  (forall a σ', σ ⊆ σ' -> Q a σ' -> runs (k a) σ' R) ->
  runs (bind m k) σ R.
Proof.
  intros (a & σ1 & Hm & Hsub & HQ) Hk.
  destruct (Hk a σ1 Hsub HQ) as (b & σ2 & Hk' & Hsub' & HR).
  exists b, σ2. unfold bind. rewrite Hm. repeat split; try done.
  by etrans.
Qed.

Lemma step_getTime {B} d (σ : Store) v (k : JS.TimeValue -> M B) R :
  σ !! d = Some v ->
  runs (k v) σ R ->
  runs (bind (getTime d) k) σ R.
Proof.
  intros Hd (b & σ' & Hk & Hsub & HR). exists b, σ'.
  unfold Stateful.bind, Stateful.getTime. by rewrite Hd.
Qed.

Lemma step_newDate {B} v (σ : Store) (k : Ref -> M B) R :
  (forall r σ', σ ⊆ σ' -> σ' !! r = Some v -> runs (k r) σ' R) ->
  runs (bind (newDate v) k) σ R.
Proof.
  intros Hk. set (r := fresh (dom σ)).
  assert (Hfresh : σ !! r = None) by apply not_elem_of_dom, is_fresh.
  destruct (Hk r (<[r := v]> σ)) as (b & σ' & Hk' & Hsub & HR).
  - by apply insert_subseteq.
  - apply lookup_insert_eq.
  - exists b, σ'. unfold Stateful.bind, Stateful.newDate. fold r.
    repeat split; try done.
    etrans; [| exact Hsub]. by apply insert_subseteq.
Qed.

(** [const d = new Date(date); d.setHours(h, m, 0, 0)]: the new object
    holds the instant of the pure model, and [date] keeps its value. *)
Lemma step_copy_setHours {B} tza date t h m (σ : Store) (k : Ref -> M B) R :
  σ !! date = Some (Some t) ->
  (forall r σ', σ ⊆ σ' -> σ' !! r = Some (JS.setHours tza t h m) ->
                runs (k r) σ' R) ->
  runs
    (bind (copyDate date)
       (fun d => bind (Stateful.setHours tza d h m) (fun _ => k d)))
    σ R.
Proof.
  intros Hd Hk. set (r := fresh (dom σ)).
  assert (Hfresh : σ !! r = None) by apply not_elem_of_dom, is_fresh.
  destruct (Hk r (<[r := JS.setHours tza t h m]> σ))
    as (b & σ' & Hk' & Hsub & HR).
  - by apply insert_subseteq.
  - apply lookup_insert_eq.
  - exists b, σ'. repeat split; try done.
    + unfold Stateful.bind, Stateful.copyDate, Stateful.bind,
        Stateful.getTime, Stateful.newDate, Stateful.setHours.
      rewrite Hd. fold r. rewrite lookup_insert_eq, insert_insert_eq.
      exact Hk'.
    + etrans; [| exact Hsub]. by apply insert_subseteq.
Qed.

Lemma step_dateLt {B} a b x y (σ : Store) (k : bool -> M B) R :
  σ !! a = Some x -> σ !! b = Some y ->
  runs (k (JS.dateLt x y)) σ R ->
  runs (bind (Stateful.dateLt a b) k) σ R.
Proof.
  intros Ha Hb (c & σ' & Hk & Hsub & HR). exists c, σ'.
  unfold Stateful.bind, Stateful.dateLt, Stateful.bind, Stateful.getTime,
    Stateful.ret.
  by rewrite Ha, Hb.
Qed.

Lemma returns_dateLt a b x y (σ : Store) :
  σ !! a = Some x -> σ !! b = Some y ->
  returns (Stateful.dateLt a b) σ (JS.dateLt x y).
Proof.
  intros Ha Hb. exists (JS.dateLt x y), σ.
  unfold Stateful.dateLt, Stateful.bind, Stateful.getTime, Stateful.ret.
  by rewrite Ha, Hb.
Qed.

Lemma returns_someM {A} (f : A -> M bool) (g : A -> bool) l (σ : Store) :
  (forall x σ', σ ⊆ σ' -> returns (f x) σ' (g x)) ->
  returns (someM f l) σ (existsb g l).
Proof.
  revert σ. induction l as [|x l IH]; intros σ Hf; simpl.
  - by apply runs_ret.
  - eapply runs_bind; [by apply Hf |]. intros b σ1 Hsub ->.
    destruct (g x); simpl; [by apply runs_ret |].
    apply IH. intros y σ2 Hsub2. apply Hf. by etrans.
Qed.

Lemma returns_filterM {A} (f : A -> M bool) (g : A -> bool) l (σ : Store) :
  (forall x σ', σ ⊆ σ' -> returns (f x) σ' (g x)) ->
  returns (filterM f l) σ (List.filter g l).
Proof.
  revert σ. induction l as [|x l IH]; intros σ Hf; simpl.
  - by apply runs_ret.
  - eapply runs_bind; [by apply Hf |]. intros b σ1 Hsub ->.
    eapply runs_bind.
    + apply IH. intros y σ2 Hsub2. apply Hf. by etrans.
    + intros rest σ2 Hsub2 ->. by apply runs_ret.
Qed.

Context (tza : Z) (settings : Settings) (reservations : list Reservation).

Lemma returns_conflicts date t cur tc res (σ : Store) :
  σ !! date = Some (Some t) ->
  σ !! cur = Some tc ->
  returns (Stateful.conflicts tza date settings cur res) σ
    (conflicts tza t settings tc res).
Proof.
  intros Hd Hc. unfold Stateful.conflicts, conflicts, dateWithTime, JS.dateGt.
  destruct (parseHM (time res)) as [h m].
  apply (step_copy_setHours tza date t h m); [done |].
  intros r1 σ1 S1 H1.
  apply (step_getTime r1 σ1 _ _ _ H1).
  apply step_newDate. intros r2 σ2 S2 H2.
  assert (Hc2 : σ2 !! cur = Some tc).
  { eapply lookup_weaken; [exact Hc |]. by etrans. }
  apply (step_getTime cur σ2 _ _ _ Hc2).
  apply step_newDate. intros r3 σ3 S3 H3.
  eapply step_dateLt.
  { eapply lookup_weaken; [exact Hc2 | done]. }
  { eapply lookup_weaken; [exact H2 | done]. }
  destruct (JS.dateLt tc _); simpl; [| by apply runs_ret].
  apply returns_dateLt; [| done].
  eapply lookup_weaken; [exact H1 |]. by etrans.
Qed.

Lemma returns_tableIsFree date t cur tc table (σ : Store) :
  σ !! date = Some (Some t) ->
  σ !! cur = Some tc ->
  returns (Stateful.tableIsFree tza date settings reservations cur table) σ
    (tableIsFree tza t settings reservations tc table).
Proof.
  intros Hd Hc. unfold Stateful.tableIsFree, tableIsFree.
  eapply runs_bind.
  - apply (returns_someM _ (conflicts tza t settings tc)).
    intros res σ1 S1. apply returns_conflicts; by eapply lookup_weaken.
  - intros b σ1 S1 ->. by apply runs_ret.
Qed.

Lemma returns_whileLoop n date t eligibleTables closing tcl cur tc acc
    (σ : Store) :
  σ !! date = Some (Some t) ->
  σ !! closing = Some tcl ->
  σ !! cur = Some tc ->
  enoughPasses n tc tcl ->
  returns
    (Stateful.whileLoop n tza date settings reservations eligibleTables
       closing cur acc) σ
    (whileLoop (S n) tza t settings reservations eligibleTables tcl tc acc).
Proof.
  revert σ cur tc acc. induction n as [|n IH]; intros σ cur tc acc Hd Hcl Hc Hn.
  - simpl. apply (step_dateLt cur closing tc tcl); try done.
    destruct (JS.dateLt tc tcl) eqn:Hlt; [| by apply runs_ret].
    destruct tc as [o|], tcl as [c|]; try done. simpl in Hlt, Hn.
    apply Z.ltb_lt in Hlt. rewrite candidateCount_lt in Hn by done. lia.
  - cbn [Stateful.whileLoop whileLoop].
    apply (step_dateLt cur closing tc tcl); try done.
    destruct (JS.dateLt tc tcl) eqn:Hlt; [| by apply runs_ret].
    apply (step_getTime cur σ _ _ _ Hc).
    eapply runs_bind.
    { apply (returns_filterM _ (tableIsFree tza t settings reservations tc)).
      intros table σ1 S1. apply returns_tableIsFree; by eapply lookup_weaken. }
    intros avail σ1 S1 ->.
    assert (Hc1 : σ1 !! cur = Some tc) by by eapply lookup_weaken.
    apply (step_getTime cur σ1 _ _ _ Hc1).
    apply step_newDate. intros next σ2 S2 Hnext.
    apply IH; try done.
    + eapply lookup_weaken; [exact Hd |]. by etrans.
    + eapply lookup_weaken; [exact Hcl |]. by etrans.
    + destruct tc as [o|], tcl as [c|]; try done. simpl in Hlt, Hn |- *.
      apply Z.ltb_lt in Hlt. rewrite candidateCount_lt in Hn by done.
      unfold slotStep in Hn. lia.
Qed.

(** The pure loop gives the same list for every sufficient bound. *)
Lemma whileLoop_stable n n' date eligibleTables closing cur acc :
  enoughPasses n cur closing -> enoughPasses n' cur closing ->
  whileLoop (S n) tza date settings reservations eligibleTables closing cur acc
  = whileLoop (S n') tza date settings reservations eligibleTables closing
      cur acc.
Proof.
  intros Hn Hn'. destruct cur as [o|], closing as [c|]; try done.
  simpl in Hn, Hn'. rewrite !whileLoop_candidates by lia. done.
Qed.

End StoreFacts.

Section StoreRefinement.

Local Abbreviation M := Stateful.M.
Local Abbreviation Store := Stateful.Store.
Local Abbreviation Ref := Stateful.Ref.
Local Abbreviation runs := Stateful.runs.
Local Abbreviation ret := Stateful.ret.
Local Abbreviation bind := Stateful.bind.
Local Abbreviation getTime := Stateful.getTime.
Local Abbreviation newDate := Stateful.newDate.
Local Abbreviation copyDate := Stateful.copyDate.
Local Abbreviation someM := Stateful.someM.
Local Abbreviation filterM := Stateful.filterM.

Context (tza : Z) (settings : Settings) (reservations : list Reservation).

Lemma step_toISODateString {B} d (σ : Store) t
    (k : string -> M B) R :
  σ !! d = Some (Some t) ->
  runs (k (JS.toISODateString t)) σ R ->
  runs (bind (Stateful.toISODateString d) k) σ R.
Proof.
  intros Hd (b & σ' & Hk & Hsub & HR). exists b, σ'.
  unfold Stateful.bind, Stateful.toISODateString, Stateful.bind,
    getTime, ret.
  by rewrite Hd.
Qed.

Lemma step_getDayOfWeek {B} d (σ : Store) t
    (k : string -> M B) R :
  σ !! d = Some (Some t) ->
  runs (k (getDayOfWeek tza t)) σ R ->
  runs (bind (Stateful.getDayOfWeek tza d) k) σ R.
Proof.
  intros Hd (b & σ' & Hk & Hsub & HR). exists b, σ'.
  unfold Stateful.bind, Stateful.getDayOfWeek, Stateful.bind,
    getTime, ret.
  by rewrite Hd.
Qed.

Lemma whileLoop_passes date eligibleTables closing cur :
  whileLoop (S (passes cur closing)) tza date settings reservations
    eligibleTables closing cur []
  = whileLoop (passes cur closing) tza date settings reservations
      eligibleTables closing cur [].
Proof.
  destruct cur as [o|], closing as [c|]; try done.
  unfold passes. symmetry. apply whileLoop_stable; simpl; lia.
Qed.

Lemma returns_slotsForHours date t covers tables hours (σ : Store) :
  σ !! date = Some (Some t) ->
  returns
    (Stateful.slotsForHours tza date covers settings reservations tables hours)
    σ (slotsForHours tza t covers settings reservations tables hours).
Proof.
  intros Hd. unfold Stateful.slotsForHours, slotsForHours.
  destruct hours as [h|]; [| by apply runs_ret].
  destruct (String.eqb (open h) ""); [by apply runs_ret |].
  destruct (length (eligible covers tables) =? 0)%nat; [by apply runs_ret |].
  unfold dateWithTime.
  destruct (parseHM (open h)) as [sh sm], (parseHM (close h)) as [eh em].
  apply (step_copy_setHours tza date t sh sm); [done |].
  intros ro σ1 S1 Ho.
  apply (step_copy_setHours tza date t eh em); [by eapply lookup_weaken |].
  intros rc σ2 S2 Hc.
  assert (Ho2 : σ2 !! ro = Some (JS.setHours tza t sh sm))
    by by eapply lookup_weaken.
  apply (step_getTime ro σ2 _ _ _ Ho2).
  apply (step_getTime rc σ2 _ _ _ Hc).
  rewrite <- whileLoop_passes.
  apply returns_whileLoop; try done.
  - eapply lookup_weaken; [exact Hd |]. by etrans.
  - unfold enoughPasses, passes.
    destruct (JS.setHours tza t sh sm), (JS.setHours tza t eh em); try done. lia.
Qed.

Lemma returns_calculateAvailableSlots date t covers tables specialOpeningHours
    (σ : Store) :
  σ !! date = Some (Some t) ->
  returns
    (Stateful.calculateAvailableSlots tza date covers settings reservations
       tables specialOpeningHours)
    σ
    (calculateAvailableSlots tza t covers settings reservations tables
       specialOpeningHours).
Proof.
  intros Hd. unfold Stateful.calculateAvailableSlots, calculateAvailableSlots.
  apply (step_toISODateString date σ t); [done |].
  destruct (findSpecialHour _ specialOpeningHours) as [sh|].
  - destruct (negb (isOpen sh) || JS.falsy (openTime sh)
              || JS.falsy (closeTime sh)); [by apply runs_ret |].
    destruct (openTime sh) as [o|], (closeTime sh) as [c|];
      try by apply runs_ret.
    by apply returns_slotsForHours.
  - apply (step_getDayOfWeek date σ t); [done |].
    by apply returns_slotsForHours.
Qed.

End StoreRefinement.

(** On an Invalid Date the source throws, at [toISOString]. *)
Example ex_store_invalid_date :
  Stateful.calculateAvailableSlots 0 0%nat 2 Sample.settingsA [] [Sample.t1] []
    {[ 0%nat := None ]}
  = inl Stateful.RangeError.
Proof. reflexivity. Qed.

(** A run of the store model: the slots, and the argument after the call. *)
Example ex_store_run :
  match Stateful.calculateAvailableSlots 0 0%nat 2 Sample.settingsA
          Sample.reservationsB [Sample.t1; Sample.t2] []
          {[ 0%nat := Some Sample.monday ]} with
  | inr (slots, σ') =>
      List.map slot_time slots
      = ["17:00"; "17:15"; "17:30"; "17:45"; "18:00"; "18:15"; "18:30"; "18:45"]
      /\ σ' !! 0%nat = Some (Some Sample.monday)
  | inl _ => False
  end.
Proof. by vm_compute. Qed.

(** * The claims *)



(** C2. A booking starting at [slotStart] conflicts with a reservation
    starting at [resStart] exactly when
    [slotStart < resStart + turnover] and [slotStart + turnover > resStart],
    that is when the two half-open occupancy windows share an instant.  With
    a turnover of 60 minutes a reservation at 18:00 leaves its table free for
    a slot at 19:00 and blocks it for the slots at 18:30 and at 17:45. *)
Theorem C2_conflict_is_half_open_overlap tza date settings :
  (forall slotStart res resStart,
      dateWithTime tza date (time res) = Some resStart ->
      (conflicts tza date settings (Some slotStart) res = true <->
       slotStart < resStart + turnoverMinutes settings * 60000
       /\ slotStart + turnoverMinutes settings * 60000 > resStart)
      /\ (conflicts tza date settings (Some slotStart) res = true <->
          windowsOverlap slotStart resStart
            (turnoverMinutes settings * 60000)))
  /\ (forall table res,
        turnoverMinutes settings = 60 ->
        time res = "18:00" ->
        tableId res = Some (tbl_id table) ->
        tableIsFree tza date settings [res]
          (dateWithTime tza date "19:00") table = true
        /\ tableIsFree tza date settings [res]
             (dateWithTime tza date "18:30") table = false
        /\ tableIsFree tza date settings [res]
             (dateWithTime tza date "17:45") table = false).
Proof.
  split.
  - intros slotStart res resStart Hres.
    assert (H : conflicts tza date settings (Some slotStart) res = true <->
       slotStart < resStart + turnoverMinutes settings * 60000
       /\ slotStart + turnoverMinutes settings * 60000 > resStart).
    { rewrite conflicts_true_iff. split.
      - intros (r & Hr & H1 & H2). rewrite Hres in Hr. by injection Hr as <-.
      - intros [H1 H2]. by exists resStart. }
    split; [exact H |]. rewrite H, windowsOverlap_iff. lia.
  - intros table res Hturn Htime Hid.
    rewrite !(dateWithTime_shift tza date), !tableIsFree_shift.
    apply onTable_true_iff in Hid.
    unfold tableIsFree. simpl List.filter. rewrite Hid. simpl existsb.
    unfold conflicts. rewrite Hturn, Htime. by vm_compute.
Qed.

Lemma C2_conflict_is_half_open_overlap_witness :
  dateWithTime 0 Sample.monday (time (Sample.booking "res1" "18:00" "t1"))
  = Some (Sample.at_ 18 0)
  /\ (conflicts 0 Sample.monday Sample.settings60 (Some (Sample.at_ 18 30))
        (Sample.booking "res1" "18:00" "t1") = true <->
      Sample.at_ 18 30 < Sample.at_ 18 0 + 60 * 60000
      /\ Sample.at_ 18 30 + 60 * 60000 > Sample.at_ 18 0)
  /\ tableIsFree 0 Sample.monday Sample.settings60
       [Sample.booking "res1" "18:00" "t1"]
       (dateWithTime 0 Sample.monday "19:00") Sample.t1 = true
  /\ tableIsFree 0 Sample.monday Sample.settings60
       [Sample.booking "res1" "18:00" "t1"]
       (dateWithTime 0 Sample.monday "18:30") Sample.t1 = false
  /\ tableIsFree 0 Sample.monday Sample.settings60
       [Sample.booking "res1" "18:00" "t1"]
       (dateWithTime 0 Sample.monday "17:45") Sample.t1 = false.
Proof.
  pose proof (C2_conflict_is_half_open_overlap 0 Sample.monday
                Sample.settings60) as [Hgen Hex].
  assert (Hstart :
    dateWithTime 0 Sample.monday (time (Sample.booking "res1" "18:00" "t1"))
    = Some (Sample.at_ 18 0)) by reflexivity.
  split; [exact Hstart |].
  split; [exact (proj1 (Hgen (Sample.at_ 18 30) _ _ Hstart)) |].
  exact (Hex Sample.t1 (Sample.booking "res1" "18:00" "t1")
           eq_refl eq_refl eq_refl).
Defined.

(** The same boundary seen in a whole run: one table, a reservation at
    18:00, turnover 60 minutes, open from 17:00 to 20:00. *)
Example ex_overlap_boundary_run :
  List.map slot_time
    (calculateAvailableSlots 0 Sample.monday 2 Sample.settings60
       [Sample.booking "res1" "18:00" "t1"] [Sample.t1] [])
  = ["17:00"; "19:00"; "19:15"; "19:30"; "19:45"].
Proof. by vm_compute. Qed.

(** The order of the resolution, over the entry that [find] returns for
    the key of line 34, the calendar date of [date] in UTC.  An entry that
    is marked closed, or lacks an opening or a closing time, gives the empty
    result whatever the weekday default says; an open entry supplies the
    opening and closing time, and the weekday defaults are not read; without
    an entry under that key the default of the weekday is used, and the
    result is empty when that default is absent or has no opening time. *)
Lemma opening_hours_resolution tza date covers settings reservations
    tables specialOpeningHours :
  let found :=
    findSpecialHour (JS.toISODateString date) specialOpeningHours in
  (forall sh,
      found = Some sh ->
      isOpen sh = false \/ JS.falsy (openTime sh) = true
      \/ JS.falsy (closeTime sh) = true ->
      calculateAvailableSlots tza date covers settings reservations tables
        specialOpeningHours = [])
  /\ (forall sh o c,
        found = Some sh ->
        isOpen sh = true -> openTime sh = Some o -> closeTime sh = Some c ->
        o <> "" -> c <> "" ->
        calculateAvailableSlots tza date covers settings reservations tables
          specialOpeningHours
        = slotsForHours tza date covers settings reservations tables
            (Some (mkOpeningHours o c))
        /\ forall settings',
            turnoverMinutes settings' = turnoverMinutes settings ->
            calculateAvailableSlots tza date covers settings' reservations
              tables specialOpeningHours
            = calculateAvailableSlots tza date covers settings reservations
                tables specialOpeningHours)
  /\ ((forall h, h ∈ specialOpeningHours ->
                 soh_date h <> JS.toISODateString date) ->
      calculateAvailableSlots tza date covers settings reservations tables
        specialOpeningHours
      = slotsForHours tza date covers settings reservations tables
          (openingHours settings !! getDayOfWeek tza date)
      /\ (openingHours settings !! getDayOfWeek tza date = None
          \/ (exists h, openingHours settings !! getDayOfWeek tza date = Some h
                        /\ open h = "") ->
          calculateAvailableSlots tza date covers settings reservations tables
            specialOpeningHours = [])).
Proof.
  intros found. split; [| split].
  - intros sh Hf Hclosed. unfold calculateAvailableSlots. fold found.
    rewrite Hf. destruct Hclosed as [H | [H | H]]; rewrite H; simpl;
      by rewrite ?orb_true_r.
  - intros sh o c Hf Hopen Ho Hc Hone Hcne.
    assert (Hcalc : forall s,
      calculateAvailableSlots tza date covers s reservations tables
        specialOpeningHours
      = slotsForHours tza date covers s reservations tables
          (Some (mkOpeningHours o c))).
    { intros s. unfold calculateAvailableSlots. fold found.
      rewrite Hf, Hopen, Ho, Hc. simpl.
      apply String.eqb_neq in Hone, Hcne. by rewrite Hone, Hcne. }
    split; [apply Hcalc |]. intros settings' Ht.
    rewrite !Hcalc. by apply slotsForHours_turnover.
  - intros Hnone. apply findSpecialHour_None in Hnone.
    assert (Hcalc :
      calculateAvailableSlots tza date covers settings reservations tables
        specialOpeningHours
      = slotsForHours tza date covers settings reservations tables
          (openingHours settings !! getDayOfWeek tza date)).
    { unfold calculateAvailableSlots. by rewrite Hnone. }
    split; [exact Hcalc |]. rewrite Hcalc.
    intros [-> | (h & -> & Hh)]; [done |].
    unfold slotsForHours. by rewrite Hh.
Qed.

Example ex_opening_hours_resolution :
  (* a closed override empties a Monday that is open by default *)
  calculateAvailableSlots 0 Sample.monday 2 Sample.settingsA [] [Sample.t1]
    [Sample.closedDay] = []
  (* an open override replaces the default hours *)
  /\ calculateAvailableSlots 0 Sample.monday 2 Sample.settingsA [] [Sample.t1]
       [Sample.lateDay]
     = slotsForHours 0 Sample.monday 2 Sample.settingsA [] [Sample.t1]
         (Some (mkOpeningHours "20:00" "21:00"))
  (* no override: the default of the weekday *)
  /\ calculateAvailableSlots 0 Sample.monday 2 Sample.settingsA [] [Sample.t1]
       [Sample.otherDay]
     = slotsForHours 0 Sample.monday 2 Sample.settingsA [] [Sample.t1]
         (Some (mkOpeningHours "17:00" "19:00"))
  (* no override and no default for the weekday *)
  /\ calculateAvailableSlots 0 (Sample.monday + 86400000) 2 Sample.settingsA []
       [Sample.t1] [Sample.otherDay] = [].
Proof.
  pose proof (opening_hours_resolution 0 Sample.monday 2 Sample.settingsA
                [] [Sample.t1] [Sample.closedDay]) as (Ha & _ & _).
  pose proof (opening_hours_resolution 0 Sample.monday 2 Sample.settingsA
                [] [Sample.t1] [Sample.lateDay]) as (_ & Hb & _).
  pose proof (opening_hours_resolution 0 Sample.monday 2 Sample.settingsA
                [] [Sample.t1] [Sample.otherDay]) as (_ & _ & Hc).
  pose proof (opening_hours_resolution 0 (Sample.monday + 86400000) 2
                Sample.settingsA [] [Sample.t1] [Sample.otherDay])
    as (_ & _ & Hd).
  assert (Hother : forall d h,
            soh_date Sample.otherDay <> JS.toISODateString d ->
            h ∈ [Sample.otherDay] ->
            soh_date h <> JS.toISODateString d).
  { intros d h Hne Hh. apply elem_of_cons in Hh as [-> | Hh]; [done |].
    by apply elem_of_nil in Hh. }
  assert (Hmon : soh_date Sample.otherDay <> JS.toISODateString Sample.monday).
  { intros H. vm_compute in H. discriminate H. }
  assert (Htue : soh_date Sample.otherDay
                 <> JS.toISODateString (Sample.monday + 86400000)).
  { intros H. vm_compute in H. discriminate H. }
  split; [| split; [| split]].
  - exact (Ha Sample.closedDay eq_refl (or_introl eq_refl)).
  - exact (proj1 (Hb Sample.lateDay "20:00" "21:00" eq_refl eq_refl eq_refl
                    eq_refl ltac:(done) ltac:(done))).
  - exact (proj1 (Hc (fun h => Hother _ h Hmon))).
  - exact (proj2 (Hd (fun h => Hother _ h Htue)) (or_introl eq_refl)).
Qed.

(** C4. The candidate starts are the opening instant plus multiples of 15
    minutes that lie strictly before the closing instant; the slots of the
    result are those of the candidates, in chronological order.  From 17:00
    to 22:00 the candidates are the 20 times 17:00, 17:15, ..., 21:45.  When
    the closing instant is not after the opening instant there is no
    candidate and the result is the empty list. *)
Theorem C4_candidate_enumeration :
  (forall tza date covers settings reservations tables specialOpeningHours
          hours o c,
      resolveHours tza date settings specialOpeningHours = Some hours ->
      dateWithTime tza date (open hours) = Some o ->
      dateWithTime tza date (close hours) = Some c ->
      calculateAvailableSlots tza date covers settings reservations tables
        specialOpeningHours
      = flat_map
          (slotAt tza date settings reservations (eligible covers tables))
          (candidateTimes o c)
      /\ (forall t, t ∈ candidateTimes o c <->
                    exists k : nat,
                      t = o + Z.of_nat k * (15 * 60000) /\ t < c)
      /\ StronglySorted Z.lt (candidateTimes o c)
      /\ (c <= o ->
          candidateTimes o c = []
          /\ calculateAvailableSlots tza date covers settings reservations
               tables specialOpeningHours = []))
  /\ (forall tza date o c,
        dateWithTime tza date "17:00" = Some o ->
        dateWithTime tza date "22:00" = Some c ->
        List.map (fun t => timeString tza (Some t)) (candidateTimes o c)
        = ["17:00"; "17:15"; "17:30"; "17:45"; "18:00"; "18:15"; "18:30";
           "18:45"; "19:00"; "19:15"; "19:30"; "19:45"; "20:00"; "20:15";
           "20:30"; "20:45"; "21:00"; "21:15"; "21:30"; "21:45"]).
Proof.
  split.
  - intros tza date covers settings reservations tables specialOpeningHours
      hours o c Hh Ho Hc.
    assert (Hcalc :
      calculateAvailableSlots tza date covers settings reservations tables
        specialOpeningHours
      = flat_map
          (slotAt tza date settings reservations (eligible covers tables))
          (candidateTimes o c)).
    { rewrite calculateAvailableSlots_resolve, Hh.
      by apply slotsForHours_flat_map. }
    split; [exact Hcalc |]. split; [apply candidateTimes_elem |].
    split; [apply candidateTimes_sorted |].
    intros Hle. rewrite Hcalc, candidateTimes_le by done. done.
  - intros tza date o c Ho Hc.
    apply dateWithTime_dayStart in Ho as (x & Hx & ->).
    apply dateWithTime_dayStart in Hc as (y & Hy & ->).
    injection Hx as <-. injection Hy as <-.
    rewrite candidateTimes_shift, List.map_map.
    rewrite (List.map_ext _ (fun t => timeString 0 (Some t)))
      by (intros t; apply (timeString_shift tza date (Some t))).
    by vm_compute.
Qed.

Lemma C4_candidate_enumeration_witness :
  calculateAvailableSlots 0 Sample.monday 2 Sample.settingsA [] [Sample.t1] []
  = flat_map (slotAt 0 Sample.monday Sample.settingsA [] (eligible 2 [Sample.t1]))
      (candidateTimes (Sample.at_ 17 0) (Sample.at_ 19 0))
  /\ (Sample.at_ 18 45 ∈ candidateTimes (Sample.at_ 17 0) (Sample.at_ 19 0)
      /\ Sample.at_ 19 0 ∉ candidateTimes (Sample.at_ 17 0) (Sample.at_ 19 0))
  /\ candidateTimes (Sample.at_ 19 0) (Sample.at_ 17 0) = []
  /\ List.map (fun t => timeString 0 (Some t))
       (candidateTimes (Sample.at_ 17 0) (Sample.at_ 22 0))
     = ["17:00"; "17:15"; "17:30"; "17:45"; "18:00"; "18:15"; "18:30";
        "18:45"; "19:00"; "19:15"; "19:30"; "19:45"; "20:00"; "20:15";
        "20:30"; "20:45"; "21:00"; "21:15"; "21:30"; "21:45"].
Proof.
  destruct C4_candidate_enumeration as [Hgen Hex].
  destruct (Hgen 0 Sample.monday 2 Sample.settingsA [] [Sample.t1] []
              (mkOpeningHours "17:00" "19:00") (Sample.at_ 17 0)
              (Sample.at_ 19 0) eq_refl eq_refl eq_refl)
    as (Hcalc & Hmem & _ & _).
  destruct (Hgen 0 Sample.monday 2 Sample.settingsA [] [Sample.t1] []
              (mkOpeningHours "17:00" "19:00") (Sample.at_ 17 0)
              (Sample.at_ 19 0) eq_refl eq_refl eq_refl)
    as (_ & _ & _ & _).
  split; [exact Hcalc |]. split; [split |].
  - apply Hmem. exists 7%nat. by vm_compute.
  - intros Hin. apply Hmem in Hin. destruct Hin as (k & _ & Hlt).
    by apply Z.lt_irrefl in Hlt.
  - split; [by vm_compute |].
    exact (Hex 0 Sample.monday (Sample.at_ 17 0) (Sample.at_ 22 0)
             eq_refl eq_refl).
Defined.

(** C5. A table listed in a slot is one of the supplied tables, seats the
    party and is ready; a table that is not ready is listed nowhere; and
    when the party is larger than every table the result is empty. *)
Theorem C5_only_eligible_tables tza date covers settings reservations tables
    specialOpeningHours :
  (forall slot table,
      slot ∈ calculateAvailableSlots tza date covers settings reservations
               tables specialOpeningHours ->
      table ∈ availableTables slot ->
      table ∈ tables /\ capacity table >= covers /\ isReady table = true)
  /\ (forall table,
        isReady table = false ->
        forall slot,
          slot ∈ calculateAvailableSlots tza date covers settings reservations
                   tables specialOpeningHours ->
          table ∉ availableTables slot)
  /\ ((forall table, table ∈ tables -> capacity table < covers) ->
      calculateAvailableSlots tza date covers settings reservations tables
        specialOpeningHours = []).
Proof.
  assert (Hmain : forall slot table,
    slot ∈ calculateAvailableSlots tza date covers settings reservations
             tables specialOpeningHours ->
    table ∈ availableTables slot ->
    table ∈ tables /\ capacity table >= covers /\ isReady table = true).
  { intros slot table Hin Ht. apply slot_origin in Hin.
    destruct Hin as (h & o & c & k & _ & _ & _ & _ & _ & _ & Htabs & _).
    rewrite Htabs in Ht. apply filter_elem in Ht. destruct Ht as [Ht _].
    by apply eligible_elem in Ht. }
  split; [exact Hmain |]. split.
  - intros table Hready slot Hin Ht.
    destruct (Hmain slot table Hin Ht) as (_ & _ & Hr). congruence.
  - intros Hsmall. rewrite calculateAvailableSlots_resolve.
    apply slotsForHours_no_eligible.
    destruct (eligible covers tables) as [|x l] eqn:E; [done |].
    assert (Hx : x ∈ eligible covers tables) by (rewrite E; left).
    apply eligible_elem in Hx. destruct Hx as (Hx & Hcap & _).
    specialize (Hsmall x Hx). lia.
Qed.

Lemma C5_only_eligible_tables_witness :
  (forall slot,
      slot ∈ calculateAvailableSlots 0 Sample.monday 2 Sample.settingsA []
               [Sample.tNotReady; Sample.t2] [] ->
      Sample.tNotReady ∉ availableTables slot)
  /\ calculateAvailableSlots 0 Sample.monday 2 Sample.settingsA []
       [Sample.tNotReady] [] = []
  /\ calculateAvailableSlots 0 Sample.monday 5 Sample.settingsA []
       [Sample.t1; Sample.t2] [] = [].
Proof.
  split; [| split].
  - exact (proj1 (proj2 (C5_only_eligible_tables 0 Sample.monday 2
                           Sample.settingsA [] [Sample.tNotReady; Sample.t2] []))
             Sample.tNotReady eq_refl).
  - by vm_compute.
  - apply (proj2 (proj2 (C5_only_eligible_tables 0 Sample.monday 5
                           Sample.settingsA [] [Sample.t1; Sample.t2] []))).
    intros table Ht.
    apply elem_of_cons in Ht as [-> | Ht]; [done |].
    apply elem_of_cons in Ht as [-> | Ht]; [done |].
    by apply elem_of_nil in Ht.
Defined.

(** C6 (as amended). In scenario A (turnover 90 minutes, Monday hours 17:00
    to 19:00, one ready table of capacity 4, no reservation, a party of 2,
    no special hours) the result on any Monday, in any time zone, is the 8
    slots 17:00, 17:15, ..., 18:45, each listing that table. *)
Theorem C6_scenario_A_eight_slots tza date table :
  getDayOfWeek tza date = "monday" ->
  capacity table = 4 ->
  isReady table = true ->
  calculateAvailableSlots tza date 2 Sample.settingsA [] [table] []
  = List.map (fun s => mkTimeSlot s [table])
      ["17:00"; "17:15"; "17:30"; "17:45"; "18:00"; "18:15"; "18:30"; "18:45"]
  /\ length (calculateAvailableSlots tza date 2 Sample.settingsA [] [table] [])
     = 8%nat.
Proof.
  intros Hday Hcap Hready.
  assert (Hcalc :
    calculateAvailableSlots tza date 2 Sample.settingsA [] [table] []
    = List.map (fun s => mkTimeSlot s [table])
        ["17:00"; "17:15"; "17:30"; "17:45"; "18:00"; "18:15"; "18:30";
         "18:45"]).
  { unfold calculateAvailableSlots. simpl findSpecialHour. cbv zeta. rewrite Hday.
    rewrite slotsForHours_shift.
    destruct table as [id name cap sec ready]. simpl in Hcap, Hready. subst.
    by vm_compute. }
  split; [exact Hcalc | by rewrite Hcalc].
Qed.

Lemma C6_scenario_A_eight_slots_witness :
  getDayOfWeek 0 Sample.monday = "monday"
  /\ calculateAvailableSlots 0 Sample.monday 2 Sample.settingsA [] [Sample.t1] []
     = List.map (fun s => mkTimeSlot s [Sample.t1])
         ["17:00"; "17:15"; "17:30"; "17:45"; "18:00"; "18:15"; "18:30";
          "18:45"]
  /\ length (calculateAvailableSlots 0 Sample.monday 2 Sample.settingsA []
               [Sample.t1] [])
     = 8%nat.
Proof.
  split; [reflexivity |].
  exact (C6_scenario_A_eight_slots 0 Sample.monday Sample.t1
           eq_refl eq_refl eq_refl).
Defined.

(** C6 as stated fails: scenario A does not give 9 slots; 19:00, the
    closing time, is not a slot, and 17:00 to 18:45 are 8 times. *)
Lemma C6_scenario_A_not_nine_slots :
  getDayOfWeek 0 Sample.monday = "monday"
  /\ capacity Sample.t1 = 4 /\ isReady Sample.t1 = true
  /\ length (calculateAvailableSlots 0 Sample.monday 2 Sample.settingsA []
               [Sample.t1] [])
     <> 9%nat.
Proof. repeat split. by vm_compute. Qed.

(** C7. The call is deterministic and leaves its arguments alone.  Run
    over a store of Date objects, [calculateAvailableSlots] returns (it
    neither throws nor loops); the slots it returns are a function of the
    values of its arguments alone: a second call in the store left by the
    first, or a call in any other store where [date] has the same time
    value, returns the same slots; and every Date object that existed before
    a call, [date] included, has its time value after it.  (The arrays and
    the records are immutable values of the model: the source only reads
    them.) *)
Theorem C7_deterministic_and_pure tza covers settings reservations tables
    specialOpeningHours (σ1 σ2 : Stateful.Store) (date1 date2 : Stateful.Ref)
    (t : Z) :
  σ1 !! date1 = Some (Some t) ->
  σ2 !! date2 = Some (Some t) ->
  exists slots σ1' σ1'' σ2',
    Stateful.calculateAvailableSlots tza date1 covers settings reservations
      tables specialOpeningHours σ1 = inr (slots, σ1')
    /\ Stateful.calculateAvailableSlots tza date1 covers settings reservations
         tables specialOpeningHours σ1' = inr (slots, σ1'')
    /\ Stateful.calculateAvailableSlots tza date2 covers settings reservations
         tables specialOpeningHours σ2 = inr (slots, σ2')
    /\ (forall r v, σ1 !! r = Some v -> σ1' !! r = Some v)
    /\ (forall r v, σ1' !! r = Some v -> σ1'' !! r = Some v)
    /\ (forall r v, σ2 !! r = Some v -> σ2' !! r = Some v)
    /\ slots = calculateAvailableSlots tza t covers settings reservations
                 tables specialOpeningHours.
Proof.
  intros H1 H2.
  destruct (returns_calculateAvailableSlots tza settings reservations date1 t
              covers tables specialOpeningHours σ1 H1)
    as (s1 & σ1' & Hrun1 & Hsub1 & ->).
  assert (H1' : σ1' !! date1 = Some (Some t)) by by eapply lookup_weaken.
  destruct (returns_calculateAvailableSlots tza settings reservations date1 t
              covers tables specialOpeningHours σ1' H1')
    as (s1' & σ1'' & Hrun1' & Hsub1' & ->).
  destruct (returns_calculateAvailableSlots tza settings reservations date2 t
              covers tables specialOpeningHours σ2 H2)
    as (s2 & σ2' & Hrun2 & Hsub2 & ->).
  exists (calculateAvailableSlots tza t covers settings reservations tables
            specialOpeningHours), σ1', σ1'', σ2'.
  repeat split; try done; intros r v Hr; by eapply lookup_weaken.
Qed.

Lemma C7_deterministic_and_pure_witness :
  exists slots σ1' σ1'' σ2',
    Stateful.calculateAvailableSlots 0 0%nat 2 Sample.settingsA
      Sample.reservationsB [Sample.t1; Sample.t2] []
      {[ 0%nat := Some Sample.monday ]} = inr (slots, σ1')
    /\ Stateful.calculateAvailableSlots 0 0%nat 2 Sample.settingsA
         Sample.reservationsB [Sample.t1; Sample.t2] [] σ1'
       = inr (slots, σ1'')
    /\ Stateful.calculateAvailableSlots 0 7%nat 2 Sample.settingsA
         Sample.reservationsB [Sample.t1; Sample.t2] []
         {[ 7%nat := Some Sample.monday; 0%nat := Some 0 ]} = inr (slots, σ2')
    /\ (forall r v, ({[ 0%nat := Some Sample.monday ]} : Stateful.Store) !! r
                    = Some v -> σ1' !! r = Some v)
    /\ (forall r v, σ1' !! r = Some v -> σ1'' !! r = Some v)
    /\ (forall r v,
          ({[ 7%nat := Some Sample.monday; 0%nat := Some 0 ]} : Stateful.Store)
            !! r = Some v -> σ2' !! r = Some v)
    /\ slots = calculateAvailableSlots 0 Sample.monday 2 Sample.settingsA
                 Sample.reservationsB [Sample.t1; Sample.t2] [].
Proof.
  exact (C7_deterministic_and_pure 0 2 Sample.settingsA Sample.reservationsB
           [Sample.t1; Sample.t2] []
           {[ 0%nat := Some Sample.monday ]}
           {[ 7%nat := Some Sample.monday; 0%nat := Some 0 ]}
           0%nat 7%nat Sample.monday eq_refl eq_refl).
Defined.

(** C8. The slot times are the opening time plus multiples of 15 minutes,
    whatever the minute of the opening time: when the restaurant opens at
    17:10 every slot time is 17:10 plus 15k minutes, so its minute is 10, 25,
    40 or 55 and never a quarter of the hour. *)
Theorem C8_slots_aligned_to_opening tza date covers settings reservations
    tables specialOpeningHours hours :
  resolveHours tza date settings specialOpeningHours = Some hours ->
  (forall o slot,
      dateWithTime tza date (open hours) = Some o ->
      slot ∈ calculateAvailableSlots tza date covers settings reservations
               tables specialOpeningHours ->
      exists k : nat,
        slot_time slot = timeString tza (Some (o + Z.of_nat k * (15 * 60000))))
  /\ (open hours = "17:10" ->
      forall slot,
        slot ∈ calculateAvailableSlots tza date covers settings reservations
                 tables specialOpeningHours ->
        exists k : nat,
          let m := 17 * 60 + 10 + 15 * Z.of_nat k in
          slot_time slot
          = JS.pad 2 ((m / 60) mod 24) +:+ ":" +:+ JS.pad 2 (m mod 60)
          /\ (m mod 60) mod 15 = 10).
Proof.
  intros Hh.
  assert (Hgen : forall o slot,
    dateWithTime tza date (open hours) = Some o ->
    slot ∈ calculateAvailableSlots tza date covers settings reservations
             tables specialOpeningHours ->
    exists k : nat,
      slot_time slot = timeString tza (Some (o + Z.of_nat k * (15 * 60000)))).
  { intros o slot Ho Hin. apply slot_origin in Hin.
    destruct Hin as (h & o' & c & k & Hh' & _ & Ho' & _ & _ & Htime & _).
    rewrite Hh in Hh'. injection Hh' as <-.
    rewrite Ho in Ho'. injection Ho' as <-. by exists k. }
  split; [exact Hgen |].
  intros Hopen slot Hin.
  destruct (dateWithTime tza date (open hours)) as [o|] eqn:Ho; cycle 1.
  { apply slot_origin in Hin.
    destruct Hin as (h & o' & c & k & Hh' & _ & Ho' & _).
    rewrite Hh in Hh'. injection Hh' as <-. congruence. }
  destruct (Hgen o slot eq_refl Hin) as (k & Htime).
  exists k. cbv zeta. split.
  - rewrite Htime. rewrite Hopen in Ho.
    apply dateWithTime_dayStart in Ho as (x & Hx & ->).
    vm_compute in Hx. injection Hx as <-.
    replace (61800000 + dayStart tza date + Z.of_nat k * (15 * 60000))
      with ((17 * 60 + 10 + 15 * Z.of_nat k) * 60000 + dayStart tza date)
      by lia.
    rewrite <- timeString_minutes.
    apply (timeString_shift tza date
             (Some ((17 * 60 + 10 + 15 * Z.of_nat k) * 60000))).
  - rewrite Z.mod_mod_divide by (by exists 4).
    replace (17 * 60 + 10 + 15 * Z.of_nat k) with (10 + (68 + Z.of_nat k) * 15)
      by lia.
    by rewrite Z_mod_plus_full.
Qed.

Lemma C8_slots_aligned_to_opening_witness :
  resolveHours 0 Sample.monday Sample.settings1710 [] =
    Some (mkOpeningHours "17:10" "18:10")
  /\ List.map slot_time
       (calculateAvailableSlots 0 Sample.monday 2 Sample.settings1710 []
          [Sample.t1] [])
     = ["17:10"; "17:25"; "17:40"; "17:55"]
  /\ forall slot,
      slot ∈ calculateAvailableSlots 0 Sample.monday 2 Sample.settings1710 []
               [Sample.t1] [] ->
      exists k : nat,
        let m := 17 * 60 + 10 + 15 * Z.of_nat k in
        slot_time slot
        = JS.pad 2 ((m / 60) mod 24) +:+ ":" +:+ JS.pad 2 (m mod 60)
        /\ (m mod 60) mod 15 = 10.
Proof.
  split; [reflexivity |]. split; [by vm_compute |].
  exact (proj2 (C8_slots_aligned_to_opening 0 Sample.monday 2
                  Sample.settings1710 [] [Sample.t1] []
                  (mkOpeningHours "17:10" "18:10") eq_refl) eq_refl).
Defined.

(** C9. When several entries of [specialOpeningHours] carry the date, the
    first of them in array order decides alone: the entries after it (and
    the entries of other dates before it) do not change the result. *)
Theorem C9_first_special_entry_decides tza date covers settings reservations
    tables pre h post :
  (forall x, x ∈ pre -> soh_date x <> JS.toISODateString date) ->
  soh_date h = JS.toISODateString date ->
  calculateAvailableSlots tza date covers settings reservations tables
    (pre ++ h :: post)
  = calculateAvailableSlots tza date covers settings reservations tables [h]
  /\ forall post',
      calculateAvailableSlots tza date covers settings reservations tables
        (pre ++ h :: post)
      = calculateAvailableSlots tza date covers settings reservations tables
          (pre ++ h :: post').
Proof.
  intros Hpre Hh.
  assert (Hfind : forall l,
    findSpecialHour (JS.toISODateString date) (pre ++ h :: l) = Some h).
  { intros l. apply find_first_match.
    - intros y Hy. by apply String.eqb_neq, Hpre.
    - by apply String.eqb_eq. }
  assert (Hcalc : forall l,
    calculateAvailableSlots tza date covers settings reservations tables
      (pre ++ h :: l)
    = calculateAvailableSlots tza date covers settings reservations tables [h]).
  { intros l. unfold calculateAvailableSlots. rewrite Hfind.
    unfold findSpecialHour. simpl List.find.
    apply String.eqb_eq in Hh. by rewrite Hh. }
  split; [apply Hcalc |]. intros post'. by rewrite !Hcalc.
Qed.

Lemma C9_first_special_entry_decides_witness :
  calculateAvailableSlots 0 Sample.monday 2 Sample.settingsA [] [Sample.t1]
    ([Sample.otherDay] ++ Sample.closedDay :: [Sample.lateDay])
  = calculateAvailableSlots 0 Sample.monday 2 Sample.settingsA [] [Sample.t1]
      [Sample.closedDay]
  /\ calculateAvailableSlots 0 Sample.monday 2 Sample.settingsA [] [Sample.t1]
       ([Sample.otherDay] ++ Sample.closedDay :: [Sample.lateDay]) = []
  /\ calculateAvailableSlots 0 Sample.monday 2 Sample.settingsA [] [Sample.t1]
       [Sample.lateDay] <> [].
Proof.
  split; [| split; by vm_compute].
  apply (C9_first_special_entry_decides 0 Sample.monday 2 Sample.settingsA []
           [Sample.t1] [Sample.otherDay] Sample.closedDay [Sample.lateDay]).
  - intros x Hx. apply elem_of_cons in Hx as [-> | Hx]; [done |].
    by apply elem_of_nil in Hx.
  - reflexivity.
Defined.

(** C10. With a larger party nothing new becomes available: every slot
    returned for [p'] has a slot of the same time returned for [p <= p'],
    which lists at least the same tables. *)
Theorem C10_antitone_in_party_size tza date p p' settings reservations tables
    specialOpeningHours slot' :
  p <= p' ->
  slot' ∈ calculateAvailableSlots tza date p' settings reservations tables
            specialOpeningHours ->
  exists slot,
    slot ∈ calculateAvailableSlots tza date p settings reservations tables
             specialOpeningHours
    /\ slot_time slot = slot_time slot'
    /\ (forall table,
          table ∈ availableTables slot' -> table ∈ availableTables slot).
Proof.
  intros Hle Hin. apply slot_origin in Hin.
  destruct Hin as (h & o & c & k & Hh & Hop & Ho & Hc & Hk & Htime & Htabs & Hne).
  set (t := o + Z.of_nat k * slotStep) in *.
  assert (Hsub : forall table,
    table ∈ availableTables slot' ->
    table ∈ List.filter (noConflict tza date settings reservations t)
              (eligible p tables)).
  { intros table. rewrite Htabs, !filter_elem. intros [Hel Hfree].
    split; [by eapply eligible_mono | done]. }
  exists (mkTimeSlot (timeString tza (Some t))
            (List.filter (noConflict tza date settings reservations t)
               (eligible p tables))).
  split; [| split; [by rewrite Htime | exact Hsub]].
  apply (slot_intro _ _ _ _ _ _ _ h o c k); try done. fold t.
  destruct (availableTables slot') as [|x l] eqn:E; [done |].
  intros Hnil. specialize (Hsub x ltac:(left)). rewrite Hnil in Hsub.
  by apply elem_of_nil in Hsub.
Qed.

Lemma C10_antitone_in_party_size_witness :
  mkTimeSlot "17:00" [Sample.t1]
  ∈ calculateAvailableSlots 0 Sample.monday 4 Sample.settingsA []
      [Sample.t1; Sample.t2] []
  /\ exists slot,
      slot ∈ calculateAvailableSlots 0 Sample.monday 2 Sample.settingsA []
               [Sample.t1; Sample.t2] []
      /\ slot_time slot = "17:00"
      /\ (forall table, table ∈ [Sample.t1] -> table ∈ availableTables slot).
Proof.
  assert (Hin : mkTimeSlot "17:00" [Sample.t1]
    ∈ calculateAvailableSlots 0 Sample.monday 4 Sample.settingsA []
        [Sample.t1; Sample.t2] []).
  { apply list_elem_of_In. vm_compute. left. reflexivity. }
  split; [exact Hin |].
  exact (C10_antitone_in_party_size 0 Sample.monday 2 4 Sample.settingsA []
           [Sample.t1; Sample.t2] [] (mkTimeSlot "17:00" [Sample.t1])
           ltac:(done) Hin).
Defined.

(** * Further properties of the engine *)

(** In zones of one offset each: the override is looked up under the
    calendar date of [date] in UTC ([toISOString]), while the weekday and
    the slot instants are those of its local day, and the result depends on
    [date] and on the offset through these two strings only; so at local
    midnight of Monday 2024-01-01 in a zone two hours east of UTC the date
    string is "2023-12-31", and an override that closes "2024-01-01" is not
    applied. *)
Lemma override_date_is_utc_one_offset :
  (forall tza tza' date date' covers settings reservations tables
          specialOpeningHours,
      JS.toISODateString date = JS.toISODateString date' ->
      getDayOfWeek tza date = getDayOfWeek tza' date' ->
      calculateAvailableSlots tza date covers settings reservations tables
        specialOpeningHours
      = calculateAvailableSlots tza' date' covers settings reservations tables
          specialOpeningHours)
  /\ JS.toISODateString (Sample.monday - 7200000) = "2023-12-31"
  /\ getDayOfWeek 7200000 (Sample.monday - 7200000) = "monday"
  /\ List.map slot_time
       (calculateAvailableSlots 7200000 (Sample.monday - 7200000) 2
          Sample.settingsA [] [Sample.t1] [Sample.closedDay])
     = ["17:00"; "17:15"; "17:30"; "17:45"; "18:00"; "18:15"; "18:30"; "18:45"].
Proof.
  split; [| by vm_compute].
  intros tza tza' date date' covers settings reservations tables
    specialOpeningHours Hiso Hday.
  unfold calculateAvailableSlots. rewrite Hiso, Hday.
  destruct (findSpecialHour _ specialOpeningHours) as [sh|].
  - destruct (negb (isOpen sh) || JS.falsy (openTime sh)
              || JS.falsy (closeTime sh)); [done |].
    destruct (openTime sh), (closeTime sh); try done.
    by rewrite (slotsForHours_shift tza), (slotsForHours_shift tza').
  - by rewrite (slotsForHours_shift tza), (slotsForHours_shift tza').
Qed.

(** X2. The [while] loop ends: the list computed with the bound [passes] is
    a result of the big-step reading of the loop, and the only one. *)
Theorem X2_loop_terminates tza date settings reservations eligibleTables
    openingTime closingTime :
  LoopRun tza date settings reservations eligibleTables closingTime
    openingTime []
    (whileLoop (passes openingTime closingTime) tza date settings reservations
       eligibleTables closingTime openingTime [])
  /\ forall result,
      LoopRun tza date settings reservations eligibleTables closingTime
        openingTime [] result ->
      result
      = whileLoop (passes openingTime closingTime) tza date settings
          reservations eligibleTables closingTime openingTime [].
Proof.
  assert (Hrun :
    LoopRun tza date settings reservations eligibleTables closingTime
      openingTime []
      (whileLoop (passes openingTime closingTime) tza date settings
         reservations eligibleTables closingTime openingTime [])).
  { apply whileLoop_runs.
    destruct openingTime as [o|], closingTime as [c|]; try done.
    apply passes_enough. }
  split; [exact Hrun |].
  intros result Hres. by eapply LoopRun_deterministic.
Qed.

(** In a zone of one offset: when the opening hours lie within the day of
    [date] (from 00:00 on, to 24:00 at the latest), the "HH:MM" string of
    every returned slot denotes, on the day of [date], the instant for which
    the tables of the slot were tested. *)
Lemma slot_time_denotes_its_instant_one_offset tza date covers settings reservations
    tables specialOpeningHours hours o c slot :
  resolveHours tza date settings specialOpeningHours = Some hours ->
  dateWithTime tza date (open hours) = Some o ->
  dateWithTime tza date (close hours) = Some c ->
  dayStart tza date <= o ->
  c <= dayStart tza date + 24 * 3600000 ->
  slot ∈ calculateAvailableSlots tza date covers settings reservations tables
           specialOpeningHours ->
  exists t,
    dateWithTime tza date (slot_time slot) = Some t
    /\ availableTables slot
       = List.filter (noConflict tza date settings reservations t)
           (eligible covers tables)
    /\ forall table res r,
         table ∈ availableTables slot ->
         res ∈ reservations ->
         tableId res = Some (tbl_id table) ->
         dateWithTime tza date (time res) = Some r ->
         ~ windowsOverlap t r (turnoverMinutes settings * 60000).
Proof.
  intros Hh Ho Hc Hopen Hclose Hin. apply slot_origin in Hin.
  destruct Hin
    as (h & o' & c' & k & Hh' & _ & Ho' & Hc' & Hk & Htime & Htabs & _).
  rewrite Hh in Hh'. injection Hh' as <-.
  rewrite Ho in Ho'. injection Ho' as <-.
  rewrite Hc in Hc'. injection Hc' as <-.
  exists (o + Z.of_nat k * slotStep). split; [| split; [exact Htabs |]].
  2: { intros table res r Ht. rewrite Htabs in Ht.
       apply filter_elem in Ht as [_ Hfree].
       by apply free_table_no_overlap. }
  rewrite Htime.
  apply dateWithTime_dayStart in Ho as (x & Hx & ->).
  unfold dateWithTime in Hx.
  destruct (parseHM (open hours)) as [[hh|] [mm|]]; try done.
  simpl in Hx. injection Hx as <-. change (JS.localDay 0 0) with 0 in *.
  unfold slotStep, JS.msPerDay, JS.msPerHour, JS.msPerMinute in *.
  replace (0 * 86400000 + (hh * 3600000 + mm * 60000) - 0 + dayStart tza date
           + Z.of_nat k * (15 * 60000))
    with ((hh * 60 + mm + 15 * Z.of_nat k) * 60000 + dayStart tza date) by lia.
  apply dateWithTime_timeString_day. lia.
Qed.

(** X4. Only the start of a slot is compared with the closing time: a
    candidate before closing with a free eligible table is returned even
    when its occupancy window ends after closing.  In scenario A the slot
    18:45 is returned although 18:45 plus 90 minutes is after 19:00. *)
Theorem X4_window_may_pass_closing :
  (forall tza date covers settings reservations tables specialOpeningHours
          h o c (k : nat),
      resolveHours tza date settings specialOpeningHours = Some h ->
      dateWithTime tza date (open h) = Some o ->
      dateWithTime tza date (close h) = Some c ->
      o + Z.of_nat k * (15 * 60000) < c ->
      List.filter
        (noConflict tza date settings reservations
           (o + Z.of_nat k * (15 * 60000)))
        (eligible covers tables) <> [] ->
      mkTimeSlot (timeString tza (Some (o + Z.of_nat k * (15 * 60000))))
        (List.filter
           (noConflict tza date settings reservations
              (o + Z.of_nat k * (15 * 60000)))
           (eligible covers tables))
      ∈ calculateAvailableSlots tza date covers settings reservations tables
          specialOpeningHours)
  /\ (mkTimeSlot "18:45" [Sample.t1]
      ∈ calculateAvailableSlots 0 Sample.monday 2 Sample.settingsA []
          [Sample.t1] []
      /\ Sample.at_ 18 45 + turnoverMinutes Sample.settingsA * 60000
         > Sample.at_ 19 0).
Proof.
  split.
  - intros tza date covers settings reservations tables specialOpeningHours
      h o c k Hh Ho Hc Hk Hne.
    apply (slot_intro _ _ _ _ _ _ _ h o c k); try done.
    by eapply dateWithTime_Some_open.
  - split; [| by vm_compute].
    apply list_elem_of_In. vm_compute. do 7 right. left. reflexivity.
Qed.

(** X5. Scenario B of the specification: as scenario A, with a reservation
    at 17:30 on the only table.  Its window, 17:30 to 19:00, overlaps the
    90-minute window of every candidate from 17:00 to 18:45, so the result
    is empty, on every Monday and in every time zone. *)
Theorem X5_scenario_B_fully_booked tza date :
  getDayOfWeek tza date = "monday" ->
  calculateAvailableSlots tza date 2 Sample.settingsA Sample.reservationsB
    [Sample.t1] [] = [].
Proof.
  intros Hday. unfold calculateAvailableSlots. simpl findSpecialHour.
  cbv zeta. rewrite Hday, slotsForHours_shift. by vm_compute.
Qed.

Lemma X5_scenario_B_fully_booked_witness :
  getDayOfWeek 0 Sample.monday = "monday"
  /\ calculateAvailableSlots 0 Sample.monday 2 Sample.settingsA
       Sample.reservationsB [Sample.t1] [] = [].
Proof.
  split; [reflexivity |].
  exact (X5_scenario_B_fully_booked 0 Sample.monday eq_refl).
Defined.

Example ex_formatTime :
  formatTime "19:00" = "7:00 PM" /\ formatTime "00:15" = "12:15 AM"
  /\ formatTime "12:30" = "12:30 PM" /\ formatTime "18:00:00" = "6:00 PM"
  /\ formatTime "" = "NaN:undefined AM" /\ formatTime "7" = "7:undefined AM"
  /\ JS.parseInt None "0x1f" = Some 31 /\ JS.parseInt (Some 10) " -12px" = Some (-12)
  /\ JS.parseInt (Some 10) "0x1f" = Some 0 /\ JS.trim "  a b 	" = "a b".
Proof. repeat split. Qed.

(** * The time labels (utils/time.ts) *)

(** ** formatTime *)

Lemma split_nonempty sep s : JS.split sep s <> [].
Proof.
  destruct s as [|c s]; simpl; [done |].
  destruct (Ascii.eqb c sep); [done |]. by destruct (JS.split sep s).
Qed.

Lemma split_app_sep sep a b :
  JS.split sep (a +:+ String sep b) = JS.split sep a ++ JS.split sep b.
Proof.
  induction a as [|c a IH]; simpl.
  - by rewrite Ascii.eqb_refl.
  - rewrite IH. destruct (Ascii.eqb c sep); [done |].
    pose proof (split_nonempty sep a).
    by destruct (JS.split sep a) as [|x xs].
Qed.

(** [formatTime] reads the first two parts of its argument only. *)
Lemma formatTime_two_parts s h m l :
  JS.split ":" s = h :: m :: l ->
  formatTime s
  = JS.StringOfNumber
      (if JS.numEq (JS.numRem (JS.parseInt (Some 10) h) (Some 12)) (Some 0)
       then Some 12 else JS.numRem (JS.parseInt (Some 10) h) (Some 12))
    +:+ ":" +:+ m +:+ " "
    +:+ (if JS.numGe (JS.parseInt (Some 10) h) (Some 12) then "PM" else "AM").
Proof. intros H. unfold formatTime. by rewrite H. Qed.

Lemma day_range_forall (P : nat -> bool) :
  forallb P (seq 0 1440) = true ->
  forall n, 0 <= n < 1440 -> P (Z.to_nat n) = true.
Proof.
  intros H n Hn. rewrite forallb_forall in H. apply H, in_seq. lia.
Qed.

(** The engine's time strings split into two parts that [parseInt] reads
    as the hour and the minute. *)
Lemma timeString_day_parts n :
  0 <= n < 1440 ->
  JS.split ":" (timeString 0 (Some (n * 60000)))
  = [JS.pad 2 (n / 60); JS.pad 2 (n mod 60)]
  /\ JS.parseInt (Some 10) (JS.pad 2 (n / 60)) = Some (n / 60)
  /\ JS.parseInt None (JS.pad 2 (n / 60)) = Some (n / 60)
  /\ JS.parseInt None (JS.pad 2 (n mod 60)) = Some (n mod 60).
Proof.
  intros Hn.
  pose proof (day_range_forall
    (fun k =>
       let n := Z.of_nat k in
       match JS.split ":" (timeString 0 (Some (n * 60000))) with
       | [h; m] =>
           String.eqb h (JS.pad 2 (n / 60))
           && String.eqb m (JS.pad 2 (n mod 60))
           && JS.numEq (JS.parseInt (Some 10) h) (Some (n / 60))
           && JS.numEq (JS.parseInt None h) (Some (n / 60))
           && JS.numEq (JS.parseInt None m) (Some (n mod 60))
       | _ => false
       end) ltac:(by vm_compute) n Hn) as H.
  cbv beta zeta in H. rewrite Z2Nat.id in H by lia.
  destruct (JS.split ":" _) as [|h [|m [|x l]]]; try done.
  rewrite !andb_true_iff in H. destruct H as ((((H1 & H2) & H3) & H4) & H5).
  apply String.eqb_eq in H1, H2. subst h m.
  unfold JS.numEq in H3, H4, H5.
  destruct (JS.parseInt (Some 10) _) as [a|]; [| done].
  destruct (JS.parseInt None (JS.pad 2 (n / 60))) as [b|]; [| done].
  destruct (JS.parseInt None (JS.pad 2 (n mod 60))) as [c|]; [| done].
  apply Z.eqb_eq in H3, H4, H5. by subst.
Qed.

Lemma label12_spec n :
  0 <= n < 1440 ->
  formatTime (timeString 0 (Some (n * 60000))) = label12 n.
Proof.
  intros Hn. destruct (timeString_day_parts n Hn) as (Hs & Hp & _).
  rewrite (formatTime_two_parts _ _ _ _ Hs), Hp. unfold label12.
  assert (Hh : 0 <= n / 60 < 24).
  { split; [apply Z.div_pos; lia | apply Z.div_lt_upper_bound; lia]. }
  simpl JS.numRem. rewrite Z.rem_mod_nonneg by lia. simpl JS.numEq.
  simpl JS.numGe.
  replace (12 <=? n / 60) with (negb (n <? 720)).
  2: { destruct (Z.ltb_spec n 720), (Z.leb_spec 12 (n / 60)); try done.
       - assert (n / 60 < 12) by (apply Z.div_lt_upper_bound; lia). lia.
       - assert (12 <= n / 60) by (apply Z.div_le_lower_bound; lia). lia. }
  destruct (Z.ltb_spec n 720); simpl negb; cbv iota;
    by destruct ((n / 60) mod 12 =? 0).
Qed.

Lemma distinctb_NoDup l : distinctb l = true -> NoDup l.
Proof.
  induction l as [|x l IH]; simpl; [constructor |].
  rewrite andb_true_iff, negb_true_iff. intros [Hx Hl].
  apply NoDup_cons. split; [| by apply IH].
  intros Hin. apply list_elem_of_In in Hin.
  assert (existsb (String.eqb x) l = true); [| congruence].
  apply existsb_exists. exists x. split; [done | apply String.eqb_refl].
Qed.

Lemma NoDup_map_injective {A B} (f : A -> B) l x y :
  NoDup (List.map f l) -> x ∈ l -> y ∈ l -> f x = f y -> x = y.
Proof.
  induction l as [|a l IH]; simpl; intros Hnd Hx Hy Hf.
  - by apply elem_of_nil in Hx.
  - apply NoDup_cons in Hnd as [Ha Hnd].
    apply elem_of_cons in Hx as [-> | Hx], Hy as [-> | Hy]; try done.
    + exfalso. apply Ha. rewrite Hf. apply list_elem_of_In, in_map.
      by apply list_elem_of_In.
    + exfalso. apply Ha. rewrite <- Hf. apply list_elem_of_In, in_map.
      by apply list_elem_of_In.
    + by apply IH.
Qed.

Lemma label12_injective n n' :
  0 <= n < 1440 -> 0 <= n' < 1440 -> label12 n = label12 n' -> n = n'.
Proof.
  intros Hn Hn' Heq.
  assert (Hnd : NoDup (List.map (fun k => label12 (Z.of_nat k)) (seq 0 1440))).
  { apply distinctb_NoDup. by vm_compute. }
  assert (Z.to_nat n = Z.to_nat n'); [| lia].
  apply (NoDup_map_injective _ _ _ _ Hnd).
  - apply list_elem_of_In, in_seq. lia.
  - apply list_elem_of_In, in_seq. lia.
  - by rewrite !Z2Nat.id by lia.
Qed.

(** X6. On the "HH:MM" string of a minute of the day, with or without a
    part for the seconds after it, [formatTime] gives the time on a 12-hour
    clock: the hour is between 1 and 12 (0 and 12 o'clock both show as 12),
    the minutes are kept as they are, AM is before 12:00 and PM from 12:00
    on; and two different minutes of the day never get the same label. *)
Theorem X6_formatTime_day_times n seconds :
  0 <= n < 1440 ->
  formatTime (timeString 0 (Some (n * 60000))) = label12 n
  /\ formatTime (timeString 0 (Some (n * 60000)) +:+ ":" +:+ seconds)
     = label12 n
  /\ 1 <= (if (n / 60) mod 12 =? 0 then 12 else (n / 60) mod 12) <= 12
  /\ forall n', 0 <= n' < 1440 ->
       formatTime (timeString 0 (Some (n' * 60000)))
       = formatTime (timeString 0 (Some (n * 60000))) ->
       n' = n.
Proof.
  intros Hn. split; [by apply label12_spec |]. split; [| split].
  - destruct (timeString_day_parts n Hn) as (Hs & Hp & _).
    rewrite <- (label12_spec n Hn).
    rewrite (formatTime_two_parts _ _ _ _ Hs).
    apply (formatTime_two_parts _ _ _ (JS.split ":" seconds)).
    change (":" +:+ seconds) with (String ":" seconds).
    by rewrite split_app_sep, Hs.
  - pose proof (Z.mod_pos_bound (n / 60) 12 ltac:(done)).
    destruct (Z.eqb_spec ((n / 60) mod 12) 0); lia.
  - intros n' Hn'. rewrite !label12_spec by done. by apply label12_injective.
Qed.

Lemma X6_formatTime_day_times_witness :
  formatTime "19:05" = "7:05 PM"
  /\ formatTime "19:05:30" = "7:05 PM"
  /\ formatTime "00:15" = "12:15 AM"
  /\ formatTime "12:00" = "12:00 PM".
Proof.
  destruct (X6_formatTime_day_times 1145 "30" ltac:(lia)) as (H1 & H2 & _).
  destruct (X6_formatTime_day_times 15 "" ltac:(lia)) as (H3 & _).
  destruct (X6_formatTime_day_times 720 "" ltac:(lia)) as (H4 & _).
  split; [exact H1 | split; [exact H2 | split; [exact H3 | exact H4]]].
Defined.

(** ** The slot buttons of the booking dialog *)

Lemma result_times tza date settings reservations eligibleTables l :
  List.map slot_time
    (flat_map (slotAt tza date settings reservations eligibleTables) l)
  = List.map (fun t => timeString tza (Some t))
      (List.filter
         (fun t =>
            (0 <? length
                    (List.filter
                       (tableIsFree tza date settings reservations (Some t))
                       eligibleTables))%nat)
         l).
Proof.
  induction l as [|t l IH]; [done |]. simpl. rewrite List.map_app, IH.
  unfold slotAt at 1, loopBody.
  by destruct (0 <? length _)%nat.
Qed.

Lemma candidateTimes_NoDup o c : NoDup (candidateTimes o c).
Proof.
  pose proof (candidateTimes_sorted o c) as H.
  induction H as [|t l Hs IH Hall]; [constructor |].
  apply NoDup_cons. split; [| done].
  intros Hin. rewrite List.Forall_forall in Hall.
  apply list_elem_of_In, Hall in Hin. lia.
Qed.

Lemma NoDup_filter_list {A} (p : A -> bool) l : NoDup l -> NoDup (List.filter p l).
Proof.
  induction 1 as [|x l Hx Hl IH]; simpl; [constructor |].
  destruct (p x); [| done]. apply NoDup_cons. split; [| done].
  rewrite filter_elem. tauto.
Qed.

Lemma NoDup_map_on {A B} (f : A -> B) l :
  (forall x y, x ∈ l -> y ∈ l -> f x = f y -> x = y) ->
  NoDup l -> NoDup (List.map f l).
Proof.
  intros Hinj Hl. induction Hl as [|x l Hx Hl IH]; simpl; [constructor |].
  apply NoDup_cons. split.
  - intros Hin. apply list_elem_of_In, in_map_iff in Hin as (y & Hf & Hy).
    apply list_elem_of_In in Hy.
    assert (y = x) as -> by (apply Hinj; [by right | by left | done]).
    done.
  - apply IH. intros a b Ha Hb. apply Hinj; by right.
Qed.

(** The minute of the day of a slot instant of a day that starts at
    [dayStart] and whose hours lie within it. *)
Lemma within_day_minute tza date s o c t :
  dateWithTime tza date s = Some o ->
  dayStart tza date <= o ->
  c <= dayStart tza date + 24 * 3600000 ->
  t ∈ candidateTimes o c ->
  exists n, 0 <= n < 1440 /\ t = n * 60000 + dayStart tza date.
Proof.
  intros Ho Hlo Hhi Ht.
  apply candidateTimes_elem in Ht as (k & -> & Hk).
  apply dateWithTime_dayStart in Ho as (x & Hx & ->).
  unfold dateWithTime in Hx.
  destruct (parseHM s) as [[hh|] [mm|]]; try done.
  simpl in Hx. injection Hx as <-. change (JS.localDay 0 0) with 0 in *.
  unfold slotStep, JS.msPerDay, JS.msPerHour, JS.msPerMinute in *.
  exists (hh * 60 + mm + 15 * Z.of_nat k). lia.
Qed.

(** The strings of candidate starts of one day, whichever of them are kept:
    they are pairwise different, and so are their labels, each the 12-hour
    form of the minute of the day at which the candidate starts. *)
Lemma day_times_distinct tza date s o c (keep : Z -> bool) :
  dateWithTime tza date s = Some o ->
  dayStart tza date <= o ->
  c <= dayStart tza date + 24 * 3600000 ->
  let times :=
    List.map (fun t => timeString tza (Some t))
      (List.filter keep (candidateTimes o c)) in
  NoDup times
  /\ NoDup (List.map formatTime times)
  /\ forall x, x ∈ times ->
       exists n, 0 <= n < 1440
                 /\ x = timeString 0 (Some (n * 60000))
                 /\ formatTime x = label12 n.
Proof.
  intros Ho Hlo Hhi times.
  assert (Hmin : forall t, t ∈ candidateTimes o c ->
    exists n, 0 <= n < 1440 /\ t = n * 60000 + dayStart tza date
              /\ timeString tza (Some t) = timeString 0 (Some (n * 60000))).
  { intros t Ht.
    destruct (within_day_minute _ _ _ _ _ _ Ho Hlo Hhi Ht) as (n & Hn & ->).
    exists n. split; [done |]. split; [done |].
    apply (timeString_shift tza date (Some (n * 60000))). }
  split; [| split].
  - apply NoDup_map_on.
    + intros t1 t2 H1 H2 Heq.
      apply filter_elem in H1 as [H1 _], H2 as [H2 _].
      destruct (Hmin t1 H1) as (n1 & Hn1 & -> & _).
      destruct (Hmin t2 H2) as (n2 & Hn2 & -> & _).
      pose proof (dateWithTime_timeString_day tza date n1 Hn1) as E1.
      pose proof (dateWithTime_timeString_day tza date n2 Hn2) as E2.
      rewrite Heq, E2 in E1. by injection E1 as ->.
    + apply NoDup_filter_list, candidateTimes_NoDup.
  - unfold times. rewrite List.map_map. apply NoDup_map_on.
    + intros t1 t2 H1 H2 Heq.
      apply filter_elem in H1 as [H1 _], H2 as [H2 _].
      destruct (Hmin t1 H1) as (n1 & Hn1 & -> & E1).
      destruct (Hmin t2 H2) as (n2 & Hn2 & -> & E2).
      rewrite E1, E2, !label12_spec in Heq by done.
      by rewrite (label12_injective n1 n2).
    + apply NoDup_filter_list, candidateTimes_NoDup.
  - intros x Hx.
    apply list_elem_of_In, in_map_iff in Hx as (t & Ht & Hin').
    apply list_elem_of_In, filter_elem in Hin' as [Hin' _].
    destruct (Hmin t Hin') as (n & Hn & _ & E).
    exists n. rewrite <- Ht, E. by rewrite label12_spec.
Qed.

(** * The timeline of the day (components/ReservationsCalendar.tsx) *)

Lemma hoursFrom_cons o c : o < c -> hoursFrom o c = o :: hoursFrom (o + 1) c.
Proof.
  intros H. unfold hoursFrom.
  replace (Z.to_nat (c - o)) with (S (Z.to_nat (c - (o + 1)))) by lia.
  simpl. f_equal; [lia |]. rewrite <- seq_shift, List.map_map.
  apply List.map_ext. intros k. lia.
Qed.

Lemma hoursFrom_nil o c : c <= o -> hoursFrom o c = [].
Proof.
  intros H. unfold hoursFrom. by replace (Z.to_nat (c - o)) with O by lia.
Qed.

Lemma hoursFrom_elem o c h : h ∈ hoursFrom o c <-> o <= h < c.
Proof.
  unfold hoursFrom. rewrite list_elem_of_In, in_map_iff. split.
  - intros (k & <- & Hk). apply in_seq in Hk. lia.
  - intros Hh. exists (Z.to_nat (h - o)). split; [lia |]. apply in_seq. lia.
Qed.

Lemma hoursFrom_NoDup o c : NoDup (hoursFrom o c).
Proof.
  unfold hoursFrom. apply NoDup_map_on; [| apply NoDup_ListNoDup, seq_NoDup].
  intros x y _ _. lia.
Qed.

(** The loop ends within [hourCount] passes: its result is the list of
    the rows of the hours from the opening to the closing hour, for every
    larger bound too. *)
Lemma hourLoop_rows fuel o c slots :
  (Z.to_nat (c - o) <= fuel)%nat ->
  hourLoop fuel (Some o) (Some c) slots
  = slots ++ flat_map rowTimes (hoursFrom o c).
Proof.
  revert o slots. induction fuel as [|fuel IH]; intros o slots Hf.
  - rewrite hoursFrom_nil by lia. simpl. by rewrite app_nil_r.
  - simpl. destruct (Z.ltb_spec o c) as [Hlt | Hge].
    + rewrite IH by lia. rewrite (hoursFrom_cons o) by done. simpl.
      by rewrite <- !app_assoc.
    + rewrite hoursFrom_nil by lia. simpl. by rewrite app_nil_r.
Qed.

Lemma hourLoop_NaN fuel hour closeTime slots :
  hour = None \/ closeTime = None ->
  hourLoop fuel hour closeTime slots = slots.
Proof.
  intros H. destruct fuel; [done |]. simpl.
  by destruct H as [-> | ->]; [| destruct hour].
Qed.

(** The rows of a day of the 24 hours: what the row filter reads from the
    key of a row, and the label of the row. *)
Lemma rowTimes_parts h :
  0 <= h < 24 ->
  parseIntPart 0 (JS.pad 2 h +:+ ":00") = Some h
  /\ parseIntPart 1 (JS.pad 2 h +:+ ":00") = Some 0
  /\ parseIntPart 0 (JS.pad 2 h +:+ ":30") = Some h
  /\ parseIntPart 1 (JS.pad 2 h +:+ ":30") = Some 30
  /\ formatTime (JS.pad 2 h +:+ ":00") = label12 (60 * h)
  /\ formatTime (JS.pad 2 h +:+ ":30") = label12 (60 * h + 30).
Proof.
  intros Hh.
  assert (Hall : forallb
    (fun k =>
       let h := Z.of_nat k in
       match parseIntPart 0 (JS.pad 2 h +:+ ":00"),
             parseIntPart 1 (JS.pad 2 h +:+ ":00"),
             parseIntPart 0 (JS.pad 2 h +:+ ":30"),
             parseIntPart 1 (JS.pad 2 h +:+ ":30") with
       | Some a, Some b, Some c, Some d =>
           (a =? h) && (b =? 0) && (c =? h) && (d =? 30)
           && String.eqb (formatTime (JS.pad 2 h +:+ ":00")) (label12 (60 * h))
           && String.eqb (formatTime (JS.pad 2 h +:+ ":30"))
                (label12 (60 * h + 30))
       | _, _, _, _ => false
       end) (seq 0 24) = true) by (by vm_compute).
  rewrite forallb_forall in Hall.
  specialize (Hall (Z.to_nat h)). rewrite in_seq, Z2Nat.id in Hall by lia.
  specialize (Hall ltac:(lia)). cbv beta zeta in Hall.
  destruct (parseIntPart 0 (JS.pad 2 h +:+ ":00")) as [a|]; [| done].
  destruct (parseIntPart 1 (JS.pad 2 h +:+ ":00")) as [b|]; [| done].
  destruct (parseIntPart 0 (JS.pad 2 h +:+ ":30")) as [c|]; [| done].
  destruct (parseIntPart 1 (JS.pad 2 h +:+ ":30")) as [d|]; [| done].
  rewrite !andb_true_iff, !Z.eqb_eq, !String.eqb_eq in Hall.
  destruct Hall as (((((-> & ->) & ->) & ->) & ?) & ?). done.
Qed.

Lemma rowTimes_injective h h' s :
  0 <= h < 24 -> 0 <= h' < 24 -> s ∈ rowTimes h -> s ∈ rowTimes h' -> h = h'.
Proof.
  intros Hh Hh' Hs Hs'.
  destruct (rowTimes_parts h Hh) as (A0 & _ & A1 & _).
  destruct (rowTimes_parts h' Hh') as (B0 & _ & B1 & _).
  unfold rowTimes in *.
  rewrite !elem_of_cons, elem_of_nil in Hs, Hs'.
  destruct Hs as [-> | [-> | []]], Hs' as [E | [E | []]];
    rewrite E in *; congruence.
Qed.

Lemma rowTimes_NoDup o c :
  0 <= o -> c <= 24 -> NoDup (flat_map rowTimes (hoursFrom o c)).
Proof.
  intros Ho Hc.
  assert (Hin : forall h, h ∈ hoursFrom o c -> 0 <= h < 24).
  { intros h Hh. apply hoursFrom_elem in Hh. lia. }
  pose proof (hoursFrom_NoDup o c) as Hnd.
  induction Hnd as [|h l Hh Hl IH]; simpl; [constructor |].
  assert (H0 : 0 <= h < 24) by (apply Hin; by left).
  destruct (rowTimes_parts h H0) as (_ & A & _ & B & _).
  assert (Hrest : forall s, s ∈ rowTimes h -> s ∉ flat_map rowTimes l).
  { intros s Hs Hs'. apply list_elem_of_In, in_flat_map in Hs'
      as (h' & Hh' & Hs'). apply list_elem_of_In in Hh', Hs'.
    assert (h = h') as <-; [| done].
    apply (rowTimes_injective h h' s); try done. apply Hin. by right. }
  apply NoDup_cons. split.
  - rewrite elem_of_cons. intros [E | E].
    + rewrite E in A. congruence.
    + revert E. apply Hrest. by left.
  - apply NoDup_cons. split.
    + intros E. revert E. apply Hrest. right. by left.
    + apply IH. intros h' Hh'. apply Hin. by right.
Qed.

(** The rows that [renderTimeSlots] draws. *)
Lemma renderTimeSlots_rows tza selectedDate settings reservations hours oh ch :
  openingHours settings !! getDayOfWeek tza selectedDate = Some hours ->
  parseIntPart 0 (open hours) = Some oh ->
  parseIntPart 0 (close hours) = Some ch ->
  renderTimeSlots tza selectedDate (Some settings) reservations
  = TimelineRows
      (List.map (calendarRow reservations)
         (flat_map rowTimes (hoursFrom oh ch))).
Proof.
  intros Hh Ho Hc. unfold renderTimeSlots. rewrite Hh.
  destruct (String.eqb_spec (open hours) "") as [E | _].
  { rewrite E in Ho. by vm_compute in Ho. }
  cbv zeta. rewrite Ho, Hc. by rewrite hourLoop_rows.
Qed.

(** When is a reservation drawn in the row of the hour [h]? *)
Lemma inRow_hour h r :
  0 <= h < 24 ->
  inRow (JS.pad 2 h +:+ ":00") r
  = JS.numEq (parseIntPart 0 (time r)) (Some h)
    && JS.numLt (parseIntPart 1 (time r)) (Some 30)
  /\ inRow (JS.pad 2 h +:+ ":30") r
     = JS.numEq (parseIntPart 0 (time r)) (Some h)
       && JS.numGe (parseIntPart 1 (time r)) (Some 30).
Proof.
  intros Hh. destruct (rowTimes_parts h Hh) as (A & B & C & D & _).
  unfold inRow. by rewrite A, B, C, D.
Qed.

Lemma row_elem reservations o c row :
  row ∈ List.map (calendarRow reservations) (flat_map rowTimes (hoursFrom o c))
  <-> exists h, o <= h < c
        /\ (row = calendarRow reservations (JS.pad 2 h +:+ ":00")
            \/ row = calendarRow reservations (JS.pad 2 h +:+ ":30")).
Proof.
  rewrite list_elem_of_In, in_map_iff. split.
  - intros (s & <- & Hs). apply in_flat_map in Hs as (h & Hh & Hs).
    apply list_elem_of_In, hoursFrom_elem in Hh. exists h. split; [done |].
    destruct Hs as [<- | [<- | []]]; auto.
  - intros (h & Hh & Hrow).
    exists (row_time row). split; [by destruct Hrow as [-> | ->] |].
    apply in_flat_map. exists h. split.
    + by apply list_elem_of_In, hoursFrom_elem.
    + destruct Hrow as [-> | ->]; simpl; auto.
Qed.

(** The row in which a reservation with a numeric hour and minute is
    drawn, among the rows of the hours from [o] to [c]. *)
Lemma row_of_reservation reservations o c r rh rm row :
  0 <= o -> c <= 24 ->
  parseIntPart 0 (time r) = Some rh ->
  parseIntPart 1 (time r) = Some rm ->
  row ∈ List.map (calendarRow reservations) (flat_map rowTimes (hoursFrom o c)) ->
  r ∈ row_reservations row
  <-> r ∈ reservations /\ o <= rh < c
      /\ row = calendarRow reservations (rowTimeOf rh rm).
Proof.
  intros Ho Hc Hrh Hrm Hrow. apply row_elem in Hrow as (h & Hh & Hrow).
  destruct (inRow_hour h r ltac:(lia)) as [I0 I30].
  rewrite Hrh, Hrm in I0, I30. simpl in I0, I30. unfold rowTimeOf.
  destruct Hrow as [-> | ->]; simpl row_reservations;
    rewrite filter_elem; [rewrite I0 | rewrite I30];
    rewrite andb_true_iff, Z.eqb_eq.
  - rewrite Z.ltb_lt. split.
    + intros (Hr & -> & Hm). apply Z.ltb_lt in Hm. rewrite Hm. auto.
    + intros (Hr & Hrange & E). split; [done |].
      destruct (Z.ltb_spec rm 30) as [Hm | Hm].
      * apply (f_equal row_time) in E. simpl in E.
        destruct (rowTimes_parts h ltac:(lia)) as (A & _).
        destruct (rowTimes_parts rh ltac:(lia)) as (B & _).
        rewrite E in A. split; [congruence | done].
      * apply (f_equal row_time) in E. simpl in E.
        destruct (rowTimes_parts h ltac:(lia)) as (_ & A & _).
        destruct (rowTimes_parts rh ltac:(lia)) as (_ & _ & _ & B & _).
        rewrite E in A. congruence.
  - rewrite Z.leb_le. split.
    + intros (Hr & -> & Hm).
      destruct (Z.ltb_spec rm 30) as [Hm' | Hm']; [lia | auto].
    + intros (Hr & Hrange & E). split; [done |].
      destruct (Z.ltb_spec rm 30) as [Hm | Hm].
      * apply (f_equal row_time) in E. simpl in E.
        destruct (rowTimes_parts h ltac:(lia)) as (_ & _ & _ & A & _).
        destruct (rowTimes_parts rh ltac:(lia)) as (_ & B & _).
        rewrite E in A. congruence.
      * apply (f_equal row_time) in E. simpl in E.
        destruct (rowTimes_parts h ltac:(lia)) as (_ & _ & A & _).
        destruct (rowTimes_parts rh ltac:(lia)) as (_ & _ & B & _).
        rewrite E in A. split; [congruence | done].
Qed.

Lemma rowTimeOf_elem reservations o c rh rm :
  o <= rh < c ->
  calendarRow reservations (rowTimeOf rh rm)
  ∈ List.map (calendarRow reservations) (flat_map rowTimes (hoursFrom o c)).
Proof.
  intros Hr. apply row_elem. exists rh. split; [done |]. unfold rowTimeOf.
  destruct (rm <? 30); auto.
Qed.

Lemma row_NaN reservations o c r row :
  0 <= o -> c <= 24 ->
  parseIntPart 0 (time r) = None \/ parseIntPart 1 (time r) = None ->
  row ∈ List.map (calendarRow reservations) (flat_map rowTimes (hoursFrom o c)) ->
  r ∉ row_reservations row.
Proof.
  intros Ho Hc Hnan Hrow Hin. apply row_elem in Hrow as (h & Hh & Hrow).
  destruct (inRow_hour h r ltac:(lia)) as [I0 I30].
  destruct Hrow as [-> | ->]; cbn [calendarRow row_reservations] in Hin;
    apply filter_elem in Hin as [_ Htrue];
    [rewrite I0 in Htrue | rewrite I30 in Htrue];
    destruct Hnan as [E | E]; rewrite E in Htrue; simpl in Htrue;
    rewrite ?andb_false_r in Htrue; done.
Qed.

(** X8. The timeline of the calendar, for a day whose opening and closing
    hours [oh] and [ch] (the numbers before the colon) are hours of the day:
    the rows are ["HH:00"] and ["HH:30"] for the hours from [oh] up to, not
    including, [ch], with pairwise different keys; a row draws only
    reservations of the list; a reservation whose time has a numeric hour
    [rh] and minute [rm] is drawn in exactly one row, the one of its half
    hour, when [oh <= rh < ch], and in no row otherwise; a reservation whose
    hour or minute is not a number is drawn in no row. *)
Theorem X8_calendar_rows_partition tza selectedDate settings reservations
    hours oh ch :
  openingHours settings !! getDayOfWeek tza selectedDate = Some hours ->
  parseIntPart 0 (open hours) = Some oh ->
  parseIntPart 0 (close hours) = Some ch ->
  0 <= oh -> ch <= 24 ->
  exists rows,
    renderTimeSlots tza selectedDate (Some settings) reservations
    = TimelineRows rows
    /\ List.map row_time rows = flat_map rowTimes (hoursFrom oh ch)
    /\ NoDup (List.map row_time rows)
    /\ (forall row r,
          row ∈ rows -> r ∈ row_reservations row -> r ∈ reservations)
    /\ (forall r rh rm,
          r ∈ reservations ->
          parseIntPart 0 (time r) = Some rh ->
          parseIntPart 1 (time r) = Some rm ->
          (oh <= rh < ch ->
           exists row,
             row ∈ rows /\ row_time row = rowTimeOf rh rm
             /\ r ∈ row_reservations row
             /\ forall row',
                  row' ∈ rows -> r ∈ row_reservations row' -> row' = row)
          /\ (~ oh <= rh < ch -> ~ shown rows r))
    /\ (forall r,
          parseIntPart 0 (time r) = None \/ parseIntPart 1 (time r) = None ->
          ~ shown rows r).
Proof.
  intros Hh Ho Hc Hlo Hhi. eexists. split.
  { by apply (renderTimeSlots_rows _ _ _ _ hours oh ch). }
  assert (Hkeys :
    List.map row_time
      (List.map (calendarRow reservations)
         (flat_map rowTimes (hoursFrom oh ch)))
    = flat_map rowTimes (hoursFrom oh ch)).
  { rewrite List.map_map. simpl. apply List.map_id. }
  split; [done |]. split; [rewrite Hkeys; by apply rowTimes_NoDup |].
  split; [| split].
  - intros row r Hrow Hr. apply row_elem in Hrow as (h & _ & [-> | ->]);
      cbn [calendarRow row_reservations] in Hr;
      by apply filter_elem in Hr as [? _].
  - intros r rh rm Hr Hrh Hrm. split.
    + intros Hrange. exists (calendarRow reservations (rowTimeOf rh rm)).
      split; [by apply rowTimeOf_elem |]. split; [done |]. split.
      * apply (row_of_reservation reservations oh ch r rh rm); try done.
        by apply rowTimeOf_elem.
      * intros row' Hrow' Hin.
        by apply (row_of_reservation reservations oh ch r rh rm) in Hin
          as (_ & _ & ->).
    + intros Hout (row & Hrow & Hin).
      by apply (row_of_reservation reservations oh ch r rh rm) in Hin
        as (_ & ? & _).
  - intros r Hnan (row & Hrow & Hin).
    by apply (row_NaN reservations oh ch r row).
Qed.

Lemma X8_calendar_rows_partition_witness :
  exists rows,
    renderTimeSlots 0 Sample.monday (Some CalendarSample.settings2230)
      Sample.reservationsB = TimelineRows rows
    /\ List.map row_time rows
       = ["17:00"; "17:30"; "18:00"; "18:30"; "19:00"; "19:30"; "20:00";
          "20:30"; "21:00"; "21:30"].
Proof.
  destruct (X8_calendar_rows_partition 0 Sample.monday
              CalendarSample.settings2230 Sample.reservationsB
              (mkOpeningHours "17:00" "22:30") 17 22
              eq_refl eq_refl eq_refl ltac:(lia) ltac:(lia))
    as (rows & Hrows & Hkeys & _).
  exists rows. split; [exact Hrows | exact Hkeys].
Defined.

(** ** The timeline and the slots of the engine *)

Lemma radixDigit_digitValue c d :
  JS.digitValue c = Some d -> JS.radixDigit 10 c = Some d /\ 0 <= d.
Proof.
  unfold JS.digitValue, JS.radixDigit. cbv zeta.
  destruct (_ && _) eqn:E; [| done]. intros [= <-].
  apply andb_true_iff in E as [E1 E2]. apply Z.leb_le in E1, E2.
  destruct (Z.ltb_spec (Z.of_N (N_of_ascii c) - 48) 10); [split; [done | lia] | lia].
Qed.

Lemma digitsValue_radixPrefix s acc v :
  JS.digitsValue acc s = Some v -> JS.radixPrefix 10 true acc s = Some v.
Proof.
  revert acc. induction s as [|c r IH]; intros acc; simpl; [done |].
  destruct (JS.digitValue c) as [d|] eqn:E; [| done].
  apply radixDigit_digitValue in E as [-> _]. apply IH.
Qed.

Lemma digitsValue_nonneg s acc v :
  0 <= acc -> JS.digitsValue acc s = Some v -> 0 <= v.
Proof.
  revert acc. induction s as [|c r IH]; intros acc Hacc; simpl.
  - by intros [= <-].
  - destruct (JS.digitValue c) as [d|] eqn:E; [| done].
    apply radixDigit_digitValue in E as [_ Hd]. apply IH. lia.
Qed.

Lemma match_not_zero {A} (c : ascii) (a b : A) :
  c <> "0"%char -> match c with "0"%char => a | _ => b end = b.
Proof. by destruct c as [[] [] [] [] [] [] [] []]. Qed.

(** On a string of decimal digits [parseInt] and [Number] agree; on the
    empty string [Number] is 0 and [parseInt] is [NaN]. *)
Lemma Number_parseInt s v :
  s <> "" -> JS.Number s = Some v -> JS.parseInt None s = Some v /\ 0 <= v.
Proof.
  intros Hs Hn. split; [| by apply (digitsValue_nonneg s 0)].
  destruct s as [|c r]; [done |]. clear Hs.
  unfold JS.Number in Hn. simpl in Hn.
  destruct (JS.digitValue c) as [d|] eqn:Ed; [| done].
  pose proof (digitsValue_radixPrefix _ _ _ Hn) as Hp.
  assert (Hc : (48 <= N_of_ascii c <= 57)%N).
  { unfold JS.digitValue in Ed. cbv zeta in Ed.
    destruct (_ && _) eqn:E in Ed; [| done].
    apply andb_true_iff in E as [E1 E2]. apply Z.leb_le in E1, E2. lia. }
  assert (Hr : JS.radixPrefix 10 false 0 (String c r) = Some v).
  { simpl. destruct (radixDigit_digitValue c d Ed) as [-> _]. exact Hp. }
  unfold JS.parseInt.
  assert (Hws : JS.isWhiteSpace c = false).
  { unfold JS.isWhiteSpace. cbv zeta.
    destruct (N.leb_spec 9 (N_of_ascii c)), (N.leb_spec (N_of_ascii c) 13),
      (N.eqb_spec (N_of_ascii c) 32), (N.eqb_spec (N_of_ascii c) 160); simpl;
      lia || done. }
  simpl JS.trimStart. rewrite Hws.
  assert (Hsign :
    match String c r with
    | String "-" r0 => (-1, r0)
    | String "+" r0 => (1, r0)
    | _ => (1, String c r)
    end = (1, String c r)).
  { destruct c as [[] [] [] [] [] [] [] []]; try done; by vm_compute in Hc; lia. }
  rewrite Hsign. simpl negb. cbv iota beta zeta. simpl "||". cbv iota.
  change (if 0 =? 0 then 10 else 0) with 10.
  destruct (Ascii.eqb_spec c "0") as [-> | Hc0].
  - destruct r as [|x r0].
    + rewrite Hr. f_equal. by destruct v.
    + assert (Hx : (Ascii.eqb x "x" || Ascii.eqb x "X") = false).
      { simpl in Hn. destruct (JS.digitValue x) as [dx|] eqn:Ex; [| done].
        destruct (Ascii.eqb_spec x "x") as [-> | _]; [by vm_compute in Ex |].
        destruct (Ascii.eqb_spec x "X") as [-> | _]; [by vm_compute in Ex |].
        done. }
      rewrite Hx. simpl andb. cbv iota. rewrite Hr. f_equal. by destruct v.
  - rewrite (match_not_zero c) by done. rewrite Hr. f_equal. by destruct v.
Qed.

(** The instant that the engine reads from "HH:MM" and the hour that the
    calendar reads from it. *)
Lemma dateWithTime_parts tza date s o ph :
  dateWithTime tza date s = Some o ->
  parseIntPart 0 s = Some ph ->
  exists m,
    0 <= ph /\ 0 <= m
    /\ o = (ph * 60 + m) * 60000 + dayStart tza date
    /\ forall pm, parseIntPart 1 s = Some pm -> pm = m.
Proof.
  intros Ho Hp. apply dateWithTime_dayStart in Ho as (x & Hx & ->).
  unfold dateWithTime in Hx.
  destruct (parseHM s) as [[h|] [m|]] eqn:E; try done.
  simpl in Hx. injection Hx as <-. change (JS.localDay 0 0) with 0.
  unfold parseHM in E. injection E as E0 E1.
  rewrite list_lookup_fmap in E0, E1. unfold parseIntPart in *.
  destruct (JS.split ":" s !! 0%nat) as [p0|]; [| done].
  destruct (JS.split ":" s !! 1%nat) as [p1|]; [| done].
  simpl in E0, E1, Hp |- *.
  assert (p0 <> "") as H0 by (intros ->; by vm_compute in Hp).
  destruct (Number_parseInt p0 h H0 E0) as [Hp0 Hh].
  assert (ph = h) as -> by congruence.
  exists m. split; [done |]. split.
  { by apply (digitsValue_nonneg p1 0). }
  split; [unfold JS.msPerDay, JS.msPerHour, JS.msPerMinute; lia |].
  intros pm Hpm.
  assert (p1 <> "") as H1 by (intros ->; by vm_compute in Hpm).
  destruct (Number_parseInt p1 m H1 E1) as [Hp1 _]. congruence.
Qed.

(** The minute of the day of a returned slot. *)
Lemma slot_minute tza date covers settings reservations tables
    specialOpeningHours hours o c slot :
  resolveHours tza date settings specialOpeningHours = Some hours ->
  dateWithTime tza date (open hours) = Some o ->
  dateWithTime tza date (close hours) = Some c ->
  dayStart tza date <= o ->
  c <= dayStart tza date + 24 * 3600000 ->
  slot ∈ calculateAvailableSlots tza date covers settings reservations tables
           specialOpeningHours ->
  exists n,
    0 <= n < 1440
    /\ o <= n * 60000 + dayStart tza date < c
    /\ slot_time slot = timeString 0 (Some (n * 60000)).
Proof.
  intros Hh Ho Hc Hlo Hhi Hin.
  rewrite calculateAvailableSlots_resolve, Hh in Hin.
  rewrite (slotsForHours_flat_map _ _ _ _ _ _ _ o c) in Hin by done.
  apply list_elem_of_In, in_flat_map in Hin as (t & Ht & Hin).
  apply list_elem_of_In in Ht, Hin. apply slotAt_elem in Hin as [-> _].
  destruct (within_day_minute _ _ _ _ _ _ Ho Hlo Hhi Ht) as (n & Hn & ->).
  apply candidateTimes_elem in Ht as (k & Hk & Hlt).
  exists n. split; [done |]. split; [unfold slotStep in Hk; lia |].
  apply (timeString_shift tza date (Some (n * 60000))).
Qed.

(** X9. The booking dialog and the calendar read the same opening hours
    differently: the engine offers every quarter of an hour before the
    closing time, the timeline has rows up to the closing hour only.  When
    both use the hours [hours] of the day, a reservation booked at the time
    of a slot that the engine returned is drawn in the timeline exactly when
    the hour of the slot is below the closing hour; so it is always drawn
    when the closing time is on the hour, and a slot in the last, partial
    hour of a day that closes at, say, 22:30 gives a reservation that no row
    shows. *)
Theorem X9_offered_slot_in_timeline tza date selectedDate covers settings
    reservations tables specialOpeningHours booked hours o c oh ch :
  resolveHours tza date settings specialOpeningHours = Some hours ->
  openingHours settings !! getDayOfWeek tza selectedDate = Some hours ->
  dateWithTime tza date (open hours) = Some o ->
  dateWithTime tza date (close hours) = Some c ->
  dayStart tza date <= o ->
  c <= dayStart tza date + 24 * 3600000 ->
  parseIntPart 0 (open hours) = Some oh ->
  parseIntPart 0 (close hours) = Some ch ->
  exists rows,
    renderTimeSlots tza selectedDate (Some settings) booked
    = TimelineRows rows
    /\ forall slot r,
         slot ∈ calculateAvailableSlots tza date covers settings
                  reservations tables specialOpeningHours ->
         r ∈ booked ->
         time r = slot_time slot ->
         exists sh,
           parseIntPart 0 (slot_time slot) = Some sh
           /\ oh <= sh
           /\ (shown rows r <-> sh < ch)
           /\ (parseIntPart 1 (close hours) = Some 0 -> shown rows r).
Proof.
  intros Hh Hcal Ho Hc Hlo Hhi Hoh Hch. eexists. split.
  { by apply (renderTimeSlots_rows _ _ _ _ hours oh ch). }
  intros slot r Hslot Hr Htime.
  destruct (slot_minute _ _ _ _ _ _ _ _ _ _ _ Hh Ho Hc Hlo Hhi Hslot)
    as (n & Hn & Hrange & Hst).
  destruct (timeString_day_parts n Hn) as (Hs & _ & Hp0 & Hp1).
  destruct (dateWithTime_parts _ _ _ _ _ Ho Hoh) as (om & Hoh0 & Hom & -> & _).
  destruct (dateWithTime_parts _ _ _ _ _ Hc Hch) as (cm & Hch0 & Hcm & -> & Hcm0).
  assert (Hsh : parseIntPart 0 (slot_time slot) = Some (n / 60)).
  { unfold parseIntPart. by rewrite Hst, Hs. }
  assert (Hsm : parseIntPart 1 (slot_time slot) = Some (n mod 60)).
  { unfold parseIntPart. by rewrite Hst, Hs. }
  assert (Hge : oh <= n / 60) by (apply Z.div_le_lower_bound; lia).
  assert (Hch24 : ch <= 24) by lia.
  assert (Hiff :
    shown
      (List.map (calendarRow booked) (flat_map rowTimes (hoursFrom oh ch))) r
    <-> n / 60 < ch).
  { rewrite <- Htime in Hsh, Hsm. split.
    - intros (row & Hrow & Hin).
      apply (row_of_reservation booked oh ch r _ _ row Hoh0 Hch24 Hsh Hsm Hrow)
        in Hin as (_ & ? & _). lia.
    - intros Hlt. exists (calendarRow booked (rowTimeOf (n / 60) (n mod 60))).
      split; [apply rowTimeOf_elem; lia |].
      apply (row_of_reservation booked oh ch r (n / 60) (n mod 60));
        first [done | apply rowTimeOf_elem; lia]. }
  exists (n / 60). split; [done |]. split; [done |]. split; [done |].
  intros Hzero. apply Hiff. specialize (Hcm0 0 Hzero). subst cm.
  apply Z.div_lt_upper_bound; lia.
Qed.

Lemma X9_offered_slot_in_timeline_witness :
  exists rows,
    renderTimeSlots 0 Sample.monday (Some CalendarSample.settings2230)
      [Sample.booking "res9" "22:15" "t1"] = TimelineRows rows
    /\ mkTimeSlot "22:15" [Sample.t1]
       ∈ calculateAvailableSlots 0 Sample.monday 2
           CalendarSample.settings2230 [] [Sample.t1] []
    /\ ~ shown rows (Sample.booking "res9" "22:15" "t1").
Proof.
  destruct (X9_offered_slot_in_timeline 0 Sample.monday Sample.monday 2
              CalendarSample.settings2230 [] [Sample.t1] []
              [Sample.booking "res9" "22:15" "t1"]
              (mkOpeningHours "17:00" "22:30")
              (Sample.at_ 17 0) (Sample.at_ 22 30) 17 22
              eq_refl eq_refl eq_refl eq_refl
              ltac:(by vm_compute) ltac:(by vm_compute) eq_refl eq_refl)
    as (rows & Hrows & Hall).
  assert (Hin : mkTimeSlot "22:15" [Sample.t1]
                ∈ calculateAvailableSlots 0 Sample.monday 2
                    CalendarSample.settings2230 [] [Sample.t1] []).
  { apply list_elem_of_In. vm_compute.
    repeat (first [left; reflexivity | right]). }
  exists rows. split; [exact Hrows |]. split; [exact Hin |].
  destruct (Hall _ (Sample.booking "res9" "22:15" "t1") Hin
              ltac:(by left) eq_refl) as (sh & Hsh & _ & Hiff & _).
  vm_compute in Hsh. injection Hsh as <-. intros Hs. apply Hiff in Hs. lia.
Defined.

(** * The dashboard (components/Dashboard.tsx) *)

Lemma fold_sum_acc {A} (f : A -> Z) l a :
  fold_left (fun sum x => sum + f x) l a = a + sumOf f l.
Proof.
  unfold sumOf. revert a. induction l as [|x l IH]; intros a; simpl; [lia |].
  rewrite IH, (IH (0 + f x)). lia.
Qed.

Lemma sumOf_cons {A} (f : A -> Z) x l : sumOf f (x :: l) = f x + sumOf f l.
Proof. unfold sumOf at 1. simpl. by rewrite fold_sum_acc. Qed.

Lemma sumOf_app {A} (f : A -> Z) l l' :
  sumOf f (l ++ l') = sumOf f l + sumOf f l'.
Proof.
  induction l as [|x l IH]; [done |]. simpl. rewrite !sumOf_cons, IH. lia.
Qed.

Lemma sumOf_perm {A} (f : A -> Z) l l' : l ≡ₚ l' -> sumOf f l = sumOf f l'.
Proof.
  induction 1 as [| x l l' _ IH | x y l | l l' l'' _ IH1 _ IH2];
    rewrite ?sumOf_cons; [done | by rewrite IH | lia | congruence].
Qed.

Lemma sumOf_filter_split {A} (f : A -> Z) (p : A -> bool) l :
  sumOf f l
  = sumOf f (List.filter p l) + sumOf f (List.filter (fun x => negb (p x)) l).
Proof.
  induction l as [|x l IH]; [done |]. simpl. rewrite sumOf_cons, IH.
  destruct (p x); simpl; rewrite sumOf_cons; lia.
Qed.

Lemma filter_perm {A} (p : A -> bool) l l' :
  l ≡ₚ l' -> List.filter p l ≡ₚ List.filter p l'.
Proof.
  induction 1 as [| x l l' _ IH | x y l | l l' l'' _ IH1 _ IH2]; simpl.
  - done.
  - destruct (p x); [by constructor | done].
  - destruct (p x), (p y); try done. apply perm_swap.
  - by etrans.
Qed.

Lemma barsAt_perm slot l l' : l ≡ₚ l' -> barsAt slot l = barsAt slot l'.
Proof. intros H. unfold barsAt. by apply sumOf_perm, filter_perm. Qed.

(** What [find] tells about the labels. *)
Lemma find_label slot (acc : list ChartItem) :
  match List.find (fun item => String.eqb (item_time item) slot) acc with
  | Some _ => slot ∈ List.map item_time acc
  | None => slot ∉ List.map item_time acc
  end.
Proof.
  induction acc as [|item acc IH]; simpl; [apply not_elem_of_nil |].
  destruct (String.eqb_spec (item_time item) slot) as [<- | Hne].
  - by left.
  - destruct (List.find _ acc); rewrite elem_of_cons; [by right |].
    intros [E | E]; [by symmetry in E | done].
Qed.

Lemma addToFirst_labels slot n acc :
  List.map item_time (addToFirst slot n acc) = List.map item_time acc.
Proof.
  induction acc as [|item acc IH]; simpl; [done |].
  destruct (String.eqb (item_time item) slot); simpl; by rewrite ?IH.
Qed.

Lemma addToFirst_bars slot n acc s :
  slot ∈ List.map item_time acc ->
  barsAt s (addToFirst slot n acc)
  = barsAt s acc + (if String.eqb slot s then n else 0).
Proof.
  unfold barsAt. induction acc as [|item acc IH]; simpl; intros Hin.
  - by apply elem_of_nil in Hin.
  - destruct (String.eqb_spec (item_time item) slot) as [E | Hne]; simpl.
    + rewrite E. destruct (String.eqb_spec slot s); rewrite ?sumOf_cons;
        simpl; lia.
    + apply elem_of_cons in Hin as [E | Hin]; [by symmetry in E |].
      destruct (String.eqb (item_time item) s); rewrite ?sumOf_cons, IH; lia || done.
Qed.

Lemma chartStep_labels acc res :
  List.map item_time (chartStep acc res)
  = match List.find (fun item => String.eqb (item_time item) (hourLabel res))
            acc with
    | Some _ => List.map item_time acc
    | None => List.map item_time acc ++ [hourLabel res]
    end.
Proof.
  unfold chartStep. cbv zeta. destruct (List.find _ acc).
  - apply addToFirst_labels.
  - by rewrite List.map_app.
Qed.

Lemma chartStep_bars acc res s :
  barsAt s (chartStep acc res)
  = barsAt s acc + (if String.eqb (hourLabel res) s then covers res else 0).
Proof.
  unfold chartStep. cbv zeta.
  pose proof (find_label (hourLabel res) acc) as Hf.
  destruct (List.find _ acc).
  - by apply addToFirst_bars.
  - unfold barsAt. rewrite List.filter_app, sumOf_app. simpl.
    destruct (String.eqb (hourLabel res) s); rewrite ?sumOf_cons; simpl;
      change (sumOf item_covers []) with 0; lia.
Qed.

(** The invariant of the [reduce]: one item for each label met so far, of
    the covers of the reservations with that label. *)
Lemma chart_invariant reservations acc :
  NoDup (List.map item_time acc) ->
  let acc' := fold_left chartStep reservations acc in
  NoDup (List.map item_time acc')
  /\ (forall s, barsAt s acc' = barsAt s acc + coversAt s reservations)
  /\ (forall s, s ∈ List.map item_time acc'
                <-> s ∈ List.map item_time acc
                    \/ s ∈ List.map hourLabel reservations).
Proof.
  revert acc. induction reservations as [|res rs IH]; intros acc Hnd; simpl.
  - split; [done |]. split.
    + intros s. unfold coversAt. simpl. unfold sumOf. simpl. lia.
    + intros s. rewrite elem_of_nil. tauto.
  - assert (Hnd' : NoDup (List.map item_time (chartStep acc res))).
    { rewrite chartStep_labels.
      pose proof (find_label (hourLabel res) acc) as Hf.
      destruct (List.find _ acc); [done |].
      apply NoDup_app. split; [done |]. split; [| apply NoDup_singleton].
      intros x Hx. rewrite list_elem_of_singleton. by intros ->. }
    destruct (IH _ Hnd') as (H1 & H2 & H3). split; [done |]. split.
    + intros s. rewrite H2, chartStep_bars. unfold coversAt. simpl.
      destruct (String.eqb (hourLabel res) s); rewrite ?sumOf_cons; lia.
    + intros s. rewrite H3, chartStep_labels, elem_of_cons.
      pose proof (find_label (hourLabel res) acc) as Hf.
      destruct (List.find _ acc).
      * split; [tauto |]. intros [? | [-> | ?]]; tauto.
      * rewrite elem_of_app, list_elem_of_singleton. tauto.
Qed.

Lemma filter_none {A} (p : A -> bool) l :
  (forall x, x ∈ l -> p x = false) -> List.filter p l = [].
Proof.
  induction l as [|x l IH]; intros H; simpl; [done |].
  rewrite (H x) by (by left). apply IH. intros y Hy. apply H. by right.
Qed.

Lemma barsAt_item items item :
  NoDup (List.map item_time items) ->
  item ∈ items ->
  barsAt (item_time item) items = item_covers item.
Proof.
  unfold barsAt. induction items as [|x l IH]; simpl; intros Hnd Hin.
  - by apply elem_of_nil in Hin.
  - apply NoDup_cons in Hnd as [Hx Hnd].
    apply elem_of_cons in Hin as [<- | Hin].
    + rewrite String.eqb_refl, sumOf_cons, filter_none;
        [change (sumOf item_covers []) with 0; lia |].
      intros y Hy. apply String.eqb_neq. intros E. apply Hx. rewrite <- E.
      apply list_elem_of_In, in_map. by apply list_elem_of_In.
    + destruct (String.eqb_spec (item_time x) (item_time item)) as [E | _];
        [| by apply IH].
      exfalso. apply Hx. rewrite E.
      apply list_elem_of_In, in_map. by apply list_elem_of_In.
Qed.

(** X10. The chart "Covers by Hour": whatever the order in which the sort
    leaves the entries, [chartData] has exactly one entry for each hour label
    ["H:00"] that occurs among the reservations (the label is ["NaN:00"] for
    a time whose hour is not a number), no other entry, and the covers of an
    entry are the sum of the covers of the reservations with its label, of
    whatever status. *)
Theorem X10_chart_groups_by_hour sort reservations :
  (forall l, sort l ≡ₚ l) ->
  let chart := chartData sort reservations in
  NoDup (List.map item_time chart)
  /\ (forall item,
        item ∈ chart ->
        item_covers item = coversAt (item_time item) reservations
        /\ exists r, r ∈ reservations /\ hourLabel r = item_time item)
  /\ (forall r,
        r ∈ reservations ->
        exists item, item ∈ chart /\ item_time item = hourLabel r).
Proof.
  intros Hsort chart.
  destruct (chart_invariant reservations [] (NoDup_nil_2 : NoDup (List.map item_time []))) as (H1 & H2 & H3).
  cbv zeta in H1, H2, H3.
  assert (Hperm : chart ≡ₚ fold_left chartStep reservations []) by apply Hsort.
  assert (Hnd : NoDup (List.map item_time chart)).
  { assert (Hp : List.map item_time chart
                 ≡ₚ List.map item_time (fold_left chartStep reservations []))
      by (by apply Permutation_map).
    by rewrite Hp. }
  split; [done |]. split.
  - intros item Hin. split.
    + rewrite <- (barsAt_item chart item Hnd Hin).
      rewrite (barsAt_perm _ _ _ Hperm), H2. unfold barsAt. simpl.
      change (sumOf item_covers []) with 0. lia.
    + assert (Hl : item_time item
                   ∈ List.map item_time (fold_left chartStep reservations [])).
      { apply list_elem_of_In, in_map, list_elem_of_In. by rewrite <- Hperm. }
      apply H3 in Hl as [Hl | Hl]; [by apply elem_of_nil in Hl |].
      apply list_elem_of_In, in_map_iff in Hl as (r & Hr & Hin').
      exists r. split; [by apply list_elem_of_In | done].
  - intros r Hr.
    assert (Hl : hourLabel r
                 ∈ List.map item_time (fold_left chartStep reservations [])).
    { apply H3. right. apply list_elem_of_In, in_map. by apply list_elem_of_In. }
    apply list_elem_of_In, in_map_iff in Hl as (item & Hi & Hin).
    exists item. split; [| done]. rewrite Hperm. by apply list_elem_of_In.
Qed.

Lemma X10_chart_groups_by_hour_witness :
  List.map (fun item => (item_time item, item_covers item))
    (chartData (@rev ChartItem) DashboardSample.today)
  = [("9:00", 9); ("18:00", 5)]
  /\ NoDup (List.map item_time
              (chartData (@rev ChartItem) DashboardSample.today)).
Proof.
  split; [reflexivity |].
  apply (X10_chart_groups_by_hour (@rev ChartItem) DashboardSample.today).
  intros l. symmetry. apply Permutation_rev.
Defined.

Lemma chart_total sort reservations :
  (forall l, sort l ≡ₚ l) ->
  sumOf item_covers (chartData sort reservations) = sumOf covers reservations.
Proof.
  intros Hsort. unfold chartData. rewrite (sumOf_perm _ _ _ (Hsort _)).
  assert (H : forall acc,
    sumOf item_covers (fold_left chartStep reservations acc)
    = sumOf item_covers acc + sumOf covers reservations).
  { induction reservations as [|res rs IH]; intros acc; simpl.
    - change (sumOf covers []) with 0. lia.
    - rewrite IH, sumOf_cons. unfold chartStep. cbv zeta.
      pose proof (find_label (hourLabel res) acc) as Hf.
      destruct (List.find _ acc).
      + assert (Hadd : forall l,
          hourLabel res ∈ List.map item_time l ->
          sumOf item_covers (addToFirst (hourLabel res) (covers res) l)
          = sumOf item_covers l + covers res).
        { induction l as [|x l IHl]; simpl; intros Hin.
          - by apply elem_of_nil in Hin.
          - destruct (String.eqb_spec (item_time x) (hourLabel res)) as [E | Hne];
              rewrite !sumOf_cons; simpl; [lia |].
            apply elem_of_cons in Hin as [E | Hin]; [by symmetry in E |].
            rewrite IHl by done. lia. }
        rewrite Hadd by done. lia.
      + rewrite sumOf_app, sumOf_cons. simpl.
        change (sumOf item_covers []) with 0. lia. }
  rewrite H. change (sumOf item_covers []) with 0. lia.
Qed.

(** X11. The bars of the chart add up to the covers of all the reservations
    of the day, while the card "Confirmed Covers" ([totalCovers]) counts the
    confirmed ones only: the chart exceeds the card by the covers of the
    pending, cancelled, no-show and paid reservations. *)
Theorem X11_chart_total_and_confirmed_covers sort reservations :
  (forall l, sort l ≡ₚ l) ->
  sumOf item_covers (chartData sort reservations) = sumOf covers reservations
  /\ sumOf item_covers (chartData sort reservations)
     = totalCovers reservations
       + sumOf covers
           (List.filter (fun r => negb (hasStatus CONFIRMED r)) reservations).
Proof.
  intros Hsort. rewrite chart_total by done. split; [done |].
  unfold totalCovers, confirmedReservations. apply sumOf_filter_split.
Qed.

Lemma X11_chart_total_and_confirmed_covers_witness :
  sumOf item_covers (chartData (@rev ChartItem) DashboardSample.today) = 14
  /\ totalCovers DashboardSample.today = 7.
Proof.
  destruct (X11_chart_total_and_confirmed_covers (@rev ChartItem)
              DashboardSample.today
              (fun l => Permutation_sym (Permutation_rev l))) as [H _].
  split; [exact H | reflexivity].
Defined.

(** * The booking dialog (components/ReservationModal.tsx) *)

(** ** Dates written and read back *)

Lemma allFrom_spec n z P x :
  allFrom n z P = true -> z <= x < z + Z.of_nat n -> P x = true.
Proof.
  revert z. induction n as [|n IH]; intros z H Hx; [lia |].
  simpl in H. apply andb_true_iff in H as [H0 H].
  destruct (Z.eq_dec x z) as [-> | Hne]; [done |].
  apply (IH (z + 1)); [done | lia].
Qed.

Lemma allFrom_range n z P x :
  allFrom (Z.to_nat n) z P = true -> z <= x < z + n -> P x = true.
Proof.
  intros H Hx. apply (allFrom_spec _ _ _ x H). rewrite Z2Nat.id; lia.
Qed.

(** The calendar repeats after 400 years, which are 146097 days. *)
Lemma civilFromDays_era z k :
  JS.civilFromDays (z + 146097 * k)
  = let '(y, m, d) := JS.civilFromDays z in (y + 400 * k, m, d).
Proof.
  unfold JS.civilFromDays. cbv zeta.
  replace (z + 146097 * k + 719468) with (z + 719468 + k * 146097) by lia.
  rewrite Z.div_add, Z.mod_add by done.
  f_equal. f_equal. lia.
Qed.

Lemma daysFromCivil_era y m d k :
  JS.daysFromCivil (y + 400 * k) m d = JS.daysFromCivil y m d + 146097 * k.
Proof.
  unfold JS.daysFromCivil. cbv zeta.
  assert (E : (if m <=? 2 then y + 400 * k - 1 else y + 400 * k)
              = (if m <=? 2 then y - 1 else y) + k * 400)
    by (destruct (m <=? 2); lia).
  rewrite E, Z.div_add, Z.mod_add by done. lia.
Qed.

(** One period of 400 years, day by day. *)
Lemma civil_period x :
  0 <= x < 146097 ->
  let '(y, m, d) := JS.civilFromDays (x - 719468) in
  JS.daysFromCivil y m d = x - 719468
  /\ 1 <= m <= 12 /\ 1 <= d <= 31 /\ 0 <= y <= 400
  /\ (146037 <= x -> y = 400) /\ (x <= 146036 -> y <= 399).
Proof.
  intros Hx.
  assert (Hall : allFrom (Z.to_nat 146097) 0
    (fun x =>
       let '(y, m, d) := JS.civilFromDays (x - 719468) in
       (JS.daysFromCivil y m d =? x - 719468)
       && (1 <=? m) && (m <=? 12) && (1 <=? d) && (d <=? 31)
       && (0 <=? y) && (y <=? 400)
       && (if 146037 <=? x then y =? 400 else y <=? 399)) = true)
    by (by vm_compute).
  pose proof (allFrom_range _ _ _ x Hall ltac:(lia)) as H. cbv beta in H.
  destruct (JS.civilFromDays (x - 719468)) as [[y m] d].
  rewrite !andb_true_iff in H.
  destruct H as (((((((H1 & H2) & H3) & H4) & H5) & H6) & H7) & H8).
  apply Z.eqb_eq in H1. apply Z.leb_le in H2, H3, H4, H5, H6, H7.
  destruct (Z.leb_spec 146037 x);
    [apply Z.eqb_eq in H8 | apply Z.leb_le in H8]; repeat split; lia.
Qed.

(** [daysFromCivil] is the inverse of [civilFromDays], on every day. *)
Lemma daysFromCivil_civilFromDays z :
  let '(y, m, d) := JS.civilFromDays z in
  JS.daysFromCivil y m d = z /\ 1 <= m <= 12 /\ 1 <= d <= 31.
Proof.
  pose proof (Z.div_mod (z + 719468) 146097 ltac:(done)) as E.
  pose proof (Z.mod_pos_bound (z + 719468) 146097 ltac:(done)) as Hx.
  set (k := (z + 719468) / 146097) in *.
  set (x := (z + 719468) mod 146097) in *.
  replace z with (x - 719468 + 146097 * k) by lia.
  rewrite civilFromDays_era. pose proof (civil_period x Hx) as H.
  destruct (JS.civilFromDays (x - 719468)) as [[y m] d].
  destruct H as (H1 & H2 & H3 & _). rewrite daysFromCivil_era. repeat split; lia.
Qed.

(** The years of the days from [firstDay] to [lastDay]. *)
Lemma civilFromDays_year z :
  firstDay <= z <= lastDay ->
  let '(y, _, _) := JS.civilFromDays z in 0 <= y <= 9999.
Proof.
  unfold firstDay, lastDay. intros Hz.
  pose proof (Z.div_mod (z + 719468) 146097 ltac:(done)) as E.
  pose proof (Z.mod_pos_bound (z + 719468) 146097 ltac:(done)) as Hx.
  set (k := (z + 719468) / 146097) in *.
  set (x := (z + 719468) mod 146097) in *.
  replace z with (x - 719468 + 146097 * k) by lia.
  rewrite civilFromDays_era. pose proof (civil_period x Hx) as H.
  destruct (JS.civilFromDays (x - 719468)) as [[y m] d].
  destruct H as (_ & _ & _ & Hy & Hlast & Hfirst).
  assert (-1 <= k <= 24) by lia.
  destruct (Z.eq_dec k (-1)); [lia |]. destruct (Z.eq_dec k 24); lia.
Qed.

Lemma split_none sep s : hasChar sep s = false -> JS.split sep s = [s].
Proof.
  induction s as [|c r IH]; simpl; [done |].
  intros H. apply orb_false_iff in H as [Hc Hr]. rewrite Hc, IH by done. done.
Qed.

Lemma split_first sep a b :
  hasChar sep a = false ->
  JS.split sep (a +:+ String sep b) = a :: JS.split sep b.
Proof. intros H. by rewrite split_app_sep, split_none. Qed.

(** The digits of the fields of a date. *)
Lemma pad4_digits y :
  0 <= y <= 9999 ->
  JS.fixedDigits 4 (JS.pad 4 y) = Some y
  /\ hasChar "T" (JS.pad 4 y) = false /\ hasChar "-" (JS.pad 4 y) = false.
Proof.
  intros Hy.
  assert (Hall : allFrom (Z.to_nat 10000) 0
    (fun y =>
       match JS.fixedDigits 4 (JS.pad 4 y) with
       | Some v => v =? y
       | None => false
       end
       && negb (hasChar "T" (JS.pad 4 y)) && negb (hasChar "-" (JS.pad 4 y)))
    = true) by (by vm_compute).
  pose proof (allFrom_range _ _ _ y Hall ltac:(lia)) as H. cbv beta in H.
  rewrite !andb_true_iff, !negb_true_iff in H. destruct H as ((H1 & H2) & H3).
  destruct (JS.fixedDigits 4 (JS.pad 4 y)) as [v|]; [| done].
  apply Z.eqb_eq in H1 as ->. split; [reflexivity | split; assumption].
Qed.

Lemma pad2_digits v :
  0 <= v <= 99 ->
  JS.fixedDigits 2 (JS.pad 2 v) = Some v
  /\ hasChar "T" (JS.pad 2 v) = false /\ hasChar "-" (JS.pad 2 v) = false.
Proof.
  intros Hv.
  assert (Hall : allFrom (Z.to_nat 100) 0
    (fun y =>
       match JS.fixedDigits 2 (JS.pad 2 y) with
       | Some v => v =? y
       | None => false
       end
       && negb (hasChar "T" (JS.pad 2 y)) && negb (hasChar "-" (JS.pad 2 y)))
    = true) by (by vm_compute).
  pose proof (allFrom_range _ _ _ v Hall ltac:(lia)) as H. cbv beta in H.
  rewrite !andb_true_iff, !negb_true_iff in H. destruct H as ((H1 & H2) & H3).
  destruct (JS.fixedDigits 2 (JS.pad 2 v)) as [w|]; [| done].
  apply Z.eqb_eq in H1 as ->. split; [reflexivity | split; assumption].
Qed.

Lemma hasChar_app c a b : hasChar c (a +:+ b) = hasChar c a || hasChar c b.
Proof.
  induction a as [|x a IH]; simpl; [done |]. by rewrite IH, orb_assoc.
Qed.

(** [new Date(s + 'T00:00:00')] of a written date is the local midnight of
    that date. *)
Lemma dayOfDate_written y m d :
  0 <= y <= 9999 -> 1 <= m <= 12 -> 1 <= d <= 31 ->
  JS.dayOfDate (JS.pad 4 y +:+ "-" +:+ JS.pad 2 m +:+ "-" +:+ JS.pad 2 d)
  = Some (JS.daysFromCivil y m d).
Proof.
  intros Hy Hm Hd.
  destruct (pad4_digits y Hy) as (Y1 & Y2 & Y3).
  destruct (pad2_digits m ltac:(lia)) as (M1 & M2 & M3).
  destruct (pad2_digits d ltac:(lia)) as (D1 & D2 & D3).
  unfold JS.dayOfDate.
  change ("-" +:+ JS.pad 2 m +:+ "-" +:+ JS.pad 2 d)
    with (String "-" (JS.pad 2 m +:+ String "-" (JS.pad 2 d))).
  rewrite (split_first "-" (JS.pad 4 y)) by done.
  rewrite (split_first "-" (JS.pad 2 m)) by done.
  rewrite (split_none "-" (JS.pad 2 d)) by done.
  rewrite Y1, M1, D1.
  replace ((1 <=? m) && (m <=? 12) && (1 <=? d) && (d <=? 31)) with true;
    [done |].
  symmetry. rewrite !andb_true_iff, !Z.leb_le. lia.
Qed.

Lemma written_date_no_T y m d :
  0 <= y <= 9999 -> 1 <= m <= 12 -> 1 <= d <= 31 ->
  hasChar "T" (JS.pad 4 y +:+ "-" +:+ JS.pad 2 m +:+ "-" +:+ JS.pad 2 d)
  = false.
Proof.
  intros Hy Hm Hd.
  destruct (pad4_digits y Hy) as (_ & Y2 & _).
  destruct (pad2_digits m ltac:(lia)) as (_ & M2 & _).
  destruct (pad2_digits d ltac:(lia)) as (_ & D2 & _).
  rewrite !hasChar_app. simpl. rewrite ?hasChar_app. simpl.
  by rewrite Y2, M2, D2.
Qed.

Lemma parse_written_date tza y m d :
  0 <= y <= 9999 -> 1 <= m <= 12 -> 1 <= d <= 31 ->
  JS.parseDateTimeLocal tza
    ((JS.pad 4 y +:+ "-" +:+ JS.pad 2 m +:+ "-" +:+ JS.pad 2 d) +:+ "T00:00:00")
  = Some (JS.daysFromCivil y m d * JS.msPerDay - tza).
Proof.
  intros Hy Hm Hd. unfold JS.parseDateTimeLocal.
  change "T00:00:00" with (String "T" "00:00:00").
  rewrite split_first by (by apply written_date_no_T).
  change (JS.split "T" "00:00:00") with ["00:00:00"].
  rewrite dayOfDate_written by done.
  change (JS.timeOfDayMs "00:00:00") with (Some 0). f_equal. lia.
Qed.

(** The date string of a day of the years 0000 to 9999 is read back as
    the local midnight of that day. *)
Lemma parse_toISODateString tza day :
  firstDay <= day <= lastDay ->
  JS.parseDateTimeLocal tza
    (JS.toISODateString (day * JS.msPerDay) +:+ "T00:00:00")
  = Some (day * JS.msPerDay - tza).
Proof.
  intros Hday. unfold JS.toISODateString.
  rewrite Z.div_mul by done.
  pose proof (daysFromCivil_civilFromDays day) as H.
  pose proof (civilFromDays_year day Hday) as Hy.
  destruct (JS.civilFromDays day) as [[y m] d].
  destruct H as (H & Hm & Hd).
  unfold JS.isoYear.
  replace ((0 <=? y) && (y <=? 9999)) with true
    by (symmetry; rewrite andb_true_iff, !Z.leb_le; lia).
  rewrite parse_written_date by done. by rewrite H.
Qed.

Lemma toISODateString_injective day day' :
  firstDay <= day <= lastDay -> firstDay <= day' <= lastDay ->
  JS.toISODateString (day * JS.msPerDay)
  = JS.toISODateString (day' * JS.msPerDay) ->
  day = day'.
Proof.
  intros H H' E.
  pose proof (parse_toISODateString 0 day H) as P.
  rewrite E, parse_toISODateString in P by done.
  injection P. unfold JS.msPerDay. lia.
Qed.

(** The UTC date of the local midnight of a day. *)
Lemma toISODateString_local_midnight tza day :
  - JS.msPerDay < tza <= JS.msPerDay ->
  JS.toISODateString (day * JS.msPerDay - tza)
  = JS.toISODateString
      ((if 0 <? tza then day - 1 else day) * JS.msPerDay).
Proof.
  unfold JS.msPerDay. intros Hz. unfold JS.toISODateString, JS.msPerDay.
  rewrite Z.div_mul by done.
  replace ((day * 86400000 - tza) / 86400000)
    with (if 0 <? tza then day - 1 else day); [done |].
  destruct (Z.ltb_spec 0 tza).
  - apply Z.div_unique with (r := 86400000 - tza); lia.
  - apply Z.div_unique with (r := - tza); lia.
Qed.

Lemma getDayOfWeek_local_midnight tza day :
  getDayOfWeek tza (day * JS.msPerDay - tza)
  = getDayOfWeek 0 (day * JS.msPerDay).
Proof.
  unfold getDayOfWeek, JS.weekdayLong, JS.localDay.
  replace (day * JS.msPerDay - tza + tza) with (day * JS.msPerDay + 0) by lia.
  done.
Qed.

(** ** The date of the dialog and the date of the engine *)

(** X13. The dialog calls the engine with [new Date(formData.date +
    'T00:00:00')], the local midnight of the chosen date (for every date of
    the years 0000 to 9999 and every time zone).  The weekday that the
    engine takes from it is the weekday of the chosen date.  The date under
    which the engine looks up the special opening hours is the chosen date in
    the zones at or west of UTC; east of UTC it is the date of the day
    before, so that there an override entered for the chosen date is not
    applied to it. *)
Theorem X13_dialog_date_and_override_key tza day formData settings
    reservations allTables specialOpeningHours covers :
  firstDay < day <= lastDay ->
  - JS.msPerDay < tza <= JS.msPerDay ->
  fd_date formData = JS.toISODateString (day * JS.msPerDay) ->
  fd_covers formData = Some covers ->
  covers <> 0 ->
  allTables <> [] ->
  let dateObj := day * JS.msPerDay - tza in
  slotsEffect tza formData (Some settings) reservations allTables
    specialOpeningHours
  = EffectSlots
      (calculateAvailableSlots tza dateObj covers settings reservations
         allTables specialOpeningHours)
  /\ getDayOfWeek tza dateObj = getDayOfWeek 0 (day * JS.msPerDay)
  /\ (tza <= 0 -> JS.toISODateString dateObj = fd_date formData)
  /\ (0 < tza ->
      JS.toISODateString dateObj
      = JS.toISODateString ((day - 1) * JS.msPerDay)
      /\ JS.toISODateString dateObj <> fd_date formData
      /\ ((forall h, h ∈ specialOpeningHours -> soh_date h = fd_date formData) ->
          calculateAvailableSlots tza dateObj covers settings reservations
            allTables specialOpeningHours
          = calculateAvailableSlots tza dateObj covers settings reservations
              allTables [])).
Proof.
  intros Hday Htza Hdate Hcov Hc0 Htables dateObj.
  assert (Hparse :
    JS.parseDateTimeLocal tza (fd_date formData +:+ "T00:00:00")
    = Some dateObj).
  { rewrite Hdate. apply parse_toISODateString. lia. }
  pose proof (toISODateString_local_midnight tza day Htza) as Hkey.
  fold dateObj in Hkey.
  split; [| split; [apply getDayOfWeek_local_midnight | split]].
  - unfold slotsEffect. rewrite Hcov.
    destruct allTables as [|t ts]; [done |]. simpl length. simpl Nat.eqb.
    destruct (String.eqb_spec (fd_date formData) "") as [E | _].
    { rewrite E in Hparse. by vm_compute in Hparse. }
    simpl. destruct (Z.eqb_spec covers 0); [done |]. by rewrite Hparse.
  - intros Hw. rewrite Hkey, Hdate.
    by destruct (Z.ltb_spec 0 tza); [lia |].
  - intros He. destruct (Z.ltb_spec 0 tza); [| lia].
    assert (Hne : JS.toISODateString dateObj <> fd_date formData).
    { rewrite Hkey, Hdate. intros E.
      apply toISODateString_injective in E; unfold firstDay, lastDay in *; lia. }
    split; [done |]. split; [done |]. intros Hall.
    rewrite !calculateAvailableSlots_resolve. f_equal.
    unfold resolveHours.
    assert (findSpecialHour (JS.toISODateString dateObj) specialOpeningHours
            = None) as ->; [| done].
    apply findSpecialHour_None. intros h Hh. rewrite (Hall h Hh). congruence.
Qed.

Lemma X13_dialog_date_and_override_key_witness :
  slotsEffect 7200000
    (mkFormData "Ada" "555" "2024-01-01" "" (Some 2) None "" CONFIRMED "")
    (Some Sample.settingsA) [] [Sample.t1] [Sample.closedDay]
  = EffectSlots
      (calculateAvailableSlots 7200000 (19723 * JS.msPerDay - 7200000) 2
         Sample.settingsA [] [Sample.t1] [Sample.closedDay])
  /\ JS.toISODateString (19723 * JS.msPerDay - 7200000) = "2023-12-31".
Proof.
  destruct (X13_dialog_date_and_override_key 7200000 19723
              (mkFormData "Ada" "555" "2024-01-01" "" (Some 2) None ""
                 CONFIRMED "")
              Sample.settingsA [] [Sample.t1] [Sample.closedDay] 2
              ltac:(by vm_compute) ltac:(by vm_compute) eq_refl eq_refl
              ltac:(lia) ltac:(done))
    as (H1 & _ & _ & H2).
  split; [exact H1 |]. destruct (H2 ltac:(lia)) as (-> & _). reflexivity.
Defined.

(** ** The checks of the last step *)

Lemma blank_trimStart s : blank (JS.trimStart s) = blank s.
Proof.
  induction s as [|c r IH]; simpl; [done |].
  destruct (JS.isWhiteSpace c) eqn:E; simpl; [done | by rewrite E].
Qed.

Lemma trimStart_empty s : JS.trimStart s = "" <-> blank s = true.
Proof.
  induction s as [|c r IH]; simpl; [done |].
  destruct (JS.isWhiteSpace c); simpl; [done |]. split; done.
Qed.

Lemma rev_string_empty acc s : JS.rev_string acc s = "" -> acc = "" /\ s = "".
Proof.
  revert acc. induction s as [|c r IH]; intros acc; simpl; [done |].
  intros H. by apply IH in H as [? _].
Qed.

Lemma blank_rev_string acc s :
  blank (JS.rev_string acc s) = blank acc && blank s.
Proof.
  revert acc. induction s as [|c r IH]; intros acc; simpl.
  - by rewrite andb_true_r.
  - rewrite IH. simpl. by destruct (JS.isWhiteSpace c), (blank acc), (blank r).
Qed.

(** [s.trim()] is empty exactly when [s] is white space only. *)
Lemma trim_empty s : JS.trim s = "" <-> blank s = true.
Proof.
  unfold JS.trim, JS.trimEnd. rewrite <- (blank_trimStart s).
  set (t := JS.trimStart s). split.
  - intros H. apply rev_string_empty in H as [_ H].
    apply trimStart_empty in H. by rewrite blank_rev_string in H.
  - intros H.
    assert (JS.trimStart (JS.rev_string "" t) = "") as ->; [| done].
    apply trimStart_empty. by rewrite blank_rev_string.
Qed.

Lemma trim_eqb s : String.eqb (JS.trim s) "" = blank s.
Proof.
  destruct (String.eqb_spec (JS.trim s) "") as [E | E].
  - symmetry. by apply trim_empty.
  - destruct (blank s) eqn:B; [| done]. by apply trim_empty in B.
Qed.

(** The white space that [trim] strips. *)
Lemma isWhiteSpace_codes c :
  JS.isWhiteSpace c = true
  <-> In (N_of_ascii c) [9; 10; 11; 12; 13; 32; 160]%N.
Proof.
  unfold JS.isWhiteSpace. cbv zeta. generalize (N_of_ascii c) as n. intros n.
  simpl. rewrite !orb_true_iff, andb_true_iff, !N.leb_le, !N.eqb_eq. lia.
Qed.

Example ex_trim_no_break_space :
  JS.trim (String "160" (String " " "")) = ""
  /\ JS.trim (String "160" (String "a" (String "009" ""))) = "a"
  /\ blank (String "160" "") = true.
Proof. by vm_compute. Qed.

(** X14. [validateDetails] accepts the details exactly when the customer
    name and the contact each hold a character that is not white space,
    for names and contacts of characters up to U+00FF; white space is what
    [trim] strips there: TAB, LF, VT, FF, CR, the space and NO-BREAK SPACE.
    A name or a contact of white space only makes [handleSubmit] return with
    the inline errors, whatever the table and the party size, without a call
    of the API. *)
Theorem X14_blank_details_rejected reservation allTables formData :
  (validateDetails formData = true
   <-> blank (fd_customerName formData) = false
       /\ blank (fd_contact formData) = false)
  /\ (blank (fd_customerName formData) = true
      \/ blank (fd_contact formData) = true ->
      exists errors,
        errors <> []
        /\ handleSubmit reservation allTables formData = InvalidDetails errors)
  /\ (forall s,
        blank s = true
        <-> forall c, hasChar c s = true ->
                      In (N_of_ascii c) [9; 10; 11; 12; 13; 32; 160]%N).
Proof.
  split; [| split].
  - unfold validateDetails, detailErrors. rewrite !trim_eqb.
    destruct (blank (fd_customerName formData)),
      (blank (fd_contact formData)); simpl;
      (split; [done || by intros _ | done || by intros [? ?]]).
  - unfold handleSubmit, validateDetails, detailErrors. rewrite !trim_eqb.
    destruct (blank (fd_customerName formData)),
      (blank (fd_contact formData)); simpl;
      try (intros _; eexists; split; [| reflexivity]; done);
      by intros [? | ?].
  - induction s as [|x r IH]; simpl.
    + split; [intros _ c Hc; discriminate Hc | reflexivity].
    + rewrite andb_true_iff, IH, isWhiteSpace_codes. split.
      * intros [Hx Hr] c Hc. apply orb_true_iff in Hc as [Hc | Hc].
        -- apply Ascii.eqb_eq in Hc. by subst c.
        -- by apply Hr.
      * intros H. split.
        -- apply H. by rewrite Ascii.eqb_refl.
        -- intros c Hc. apply H. rewrite Hc. apply orb_true_r.
Qed.

(** [find] by the id, in a list where ids are not repeated. *)
Lemma find_by_id (allTables : list Table) table :
  NoDup (List.map tbl_id allTables) ->
  table ∈ allTables ->
  List.find (fun t => String.eqb (tbl_id t) (tbl_id table)) allTables
  = Some table.
Proof.
  induction allTables as [|x l IH]; simpl; intros Hnd Hin.
  - by apply elem_of_nil in Hin.
  - apply NoDup_cons in Hnd as [Hx Hnd].
    apply elem_of_cons in Hin as [<- | Hin]; [by rewrite String.eqb_refl |].
    destruct (String.eqb_spec (tbl_id x) (tbl_id table)) as [E | _];
      [| by apply IH].
    exfalso. apply Hx. rewrite E.
    apply list_elem_of_In, in_map. by apply list_elem_of_In.
Qed.

Lemma sectionsWithAvailableTables_elem allSections available section tables
    table :
  (section, tables) ∈ sectionsWithAvailableTables allSections available ->
  table ∈ tables ->
  section ∈ allSections /\ table ∈ available
  /\ tbl_sectionId table = sec_id section.
Proof.
  unfold sectionsWithAvailableTables. intros Hs Ht.
  apply filter_elem in Hs as [Hs _].
  apply list_elem_of_In, in_map_iff in Hs as (s & [= -> <-] & Hs).
  apply filter_elem in Ht as [Ht E]. apply String.eqb_eq in E.
  split; [by apply list_elem_of_In | done].
Qed.

(** X12. From a slot to the call of the API: when the ids of the tables
    are not repeated, the id of the table is not empty, the party size is
    not 0 and the details are valid, a table offered in step 2 for a slot
    that the engine returned for the party size passes the checks of
    [handleSubmit] (it is found again by its id, it is ready and its
    capacity is not below the party size), and the reservation sent to the
    API carries the time of the slot, the id of that table and the id of the
    section under which the table was shown. *)
Theorem X12_picked_table_passes_submit tza date covers settings reservations
    allTables specialOpeningHours allSections reservation formData
    shownBefore slot section tables table :
  NoDup (List.map tbl_id allTables) ->
  tbl_id table <> "" ->
  covers <> 0 ->
  fd_covers formData = Some covers ->
  validateDetails formData = true ->
  slot ∈ calculateAvailableSlots tza date covers settings reservations
           allTables specialOpeningHours ->
  let afterTime := handleTimeSelect slot (formData, shownBefore) in
  (section, tables)
  ∈ sectionsWithAvailableTables allSections (snd afterTime) ->
  table ∈ tables ->
  let payload :=
    mkSubmissionPayload (fd_customerName formData) (fd_contact formData)
      (fd_date formData) (slot_time slot) covers (tbl_id table)
      (sec_id section) (fd_status formData) (fd_notes formData) in
  covers <= capacity table
  /\ isReady table = true
  /\ handleSubmit reservation allTables
       (handleTableSelect table (fst afterTime))
     = match reservation with
       | Some res => UpdateReservation (res_id res) payload
       | None => CreateReservation payload
       end.
Proof.
  intros Hnd Hid Hc0 Hcov Hvalid Hslot afterTime Hsec Htab payload.
  destruct (sectionsWithAvailableTables_elem _ _ _ _ _ Hsec Htab)
    as (_ & Hav & Hsid).
  simpl in Hav.
  destruct (slot_origin _ _ _ _ _ _ _ _ Hslot)
    as (h & o & c & k & _ & _ & _ & _ & _ & _ & Hfree & _).
  rewrite Hfree in Hav. apply filter_elem in Hav as [Hel _].
  apply eligible_elem in Hel as (Hin & Hcap & Hready).
  split; [lia |]. split; [done |].
  unfold handleSubmit.
  assert (Hv : validateDetails (handleTableSelect table (fst afterTime))
               = true) by exact Hvalid.
  rewrite Hv. simpl.
  rewrite (proj2 (String.eqb_neq _ _) Hid), (find_by_id allTables table Hnd Hin).
  rewrite Hcov.
  replace (covers =? 0) with false by (symmetry; by apply Z.eqb_neq).
  replace (capacity table <? covers) with false
    by (symmetry; apply Z.ltb_ge; lia).
  simpl. rewrite Hsid. by destruct reservation.
Qed.

Lemma X12_picked_table_passes_submit_witness :
  handleSubmit None [Sample.t1; Sample.t2]
    (handleTableSelect Sample.t2
       (fst (handleTimeSelect Sample.slot1700 (DialogSample.details, []))))
  = CreateReservation
      (mkSubmissionPayload "Ada" "555" "2024-01-01" "17:00" 2 "t2" "sec1"
         CONFIRMED "").
Proof.
  assert (Hslot : Sample.slot1700
                  ∈ calculateAvailableSlots 0 Sample.monday 2 Sample.settingsA
                      Sample.reservationsB [Sample.t1; Sample.t2] []).
  { apply list_elem_of_In. vm_compute. by left. }
  assert (Hsec : (mkSection "sec1" "Main Room" "f1", [Sample.t2])
                 ∈ sectionsWithAvailableTables DialogSample.sections
                     (snd (handleTimeSelect Sample.slot1700
                             (DialogSample.details, [])))).
  { apply list_elem_of_In. vm_compute. by left. }
  destruct (X12_picked_table_passes_submit 0 Sample.monday 2 Sample.settingsA
              Sample.reservationsB [Sample.t1; Sample.t2] []
              DialogSample.sections None DialogSample.details []
              Sample.slot1700 (mkSection "sec1" "Main Room" "f1")
              [Sample.t2] Sample.t2)
    as (_ & _ & H); try done.
  - apply NoDup_cons. split; [| apply NoDup_singleton].
    rewrite list_elem_of_singleton. done.
  - by left.
Defined.

(** ** Editing a reservation *)

(** In a zone of one offset: with a positive turnover time and opening
    hours within the day, the slot at the time of the edited reservation
    still lists its table when the reservation is left out, provided the
    table is eligible for the party and no other reservation on it overlaps;
    with the edited reservation left in, no slot of that time lists the
    table. *)
Lemma edited_reservation_keeps_its_slot_one_offset tza date covers settings
    reservationsData allTables specialOpeningHours res hours o c (k : nat)
    table :
  resolveHours tza date settings specialOpeningHours = Some hours ->
  open hours <> "" ->
  dateWithTime tza date (open hours) = Some o ->
  dateWithTime tza date (close hours) = Some c ->
  dayStart tza date <= o ->
  c <= dayStart tza date + 24 * 3600000 ->
  let t := o + Z.of_nat k * slotStep in
  t < c ->
  res ∈ reservationsData ->
  dateWithTime tza date (time res) = Some t ->
  tableId res = Some (tbl_id table) ->
  table ∈ eligible covers allTables ->
  0 < turnoverMinutes settings ->
  (forall r,
     r ∈ reservationsData -> res_id r <> res_id res ->
     tableId r = Some (tbl_id table) ->
     conflicts tza date settings (Some t) r = false) ->
  (exists slot,
     slot ∈ calculateAvailableSlots tza date covers settings
              (reservationsForDate (Some res) reservationsData) allTables
              specialOpeningHours
     /\ slot_time slot = timeString tza (Some t)
     /\ table ∈ availableTables slot)
  /\ (forall slot,
        slot ∈ calculateAvailableSlots tza date covers settings
                 (reservationsForDate None reservationsData) allTables
                 specialOpeningHours ->
        slot_time slot = timeString tza (Some t) ->
        table ∉ availableTables slot).
Proof.
  intros Hh Hopen Ho Hc Hlo Hhi t Ht Hres Htime Htable Hel Hturn Hothers.
  split.
  - assert (Hfree :
      table ∈ List.filter
                (noConflict tza date settings
                   (reservationsForDate (Some res) reservationsData) t)
                (eligible covers allTables)).
    { apply filter_elem. split; [done |]. apply noConflict_true_iff.
      intros r Hr Hon. simpl in Hr. apply filter_elem in Hr as [Hr Hid].
      apply negb_true_iff, String.eqb_neq in Hid. by apply Hothers. }
    exists (mkTimeSlot (timeString tza (Some t))
              (List.filter
                 (noConflict tza date settings
                    (reservationsForDate (Some res) reservationsData) t)
                 (eligible covers allTables))).
    split; [| split; [done | exact Hfree]].
    apply (slot_intro _ _ _ _ _ _ _ hours o c k); try done.
    intros E. fold t in E. rewrite E in Hfree. by apply elem_of_nil in Hfree.
  - intros slot Hslot Hst Hin. simpl in Hslot.
    destruct (slot_origin _ _ _ _ _ _ _ _ Hslot)
      as (h' & o' & c' & k' & Hh' & _ & Ho' & Hc' & Hlt' & Hst' & Hfree & _).
    rewrite Hh in Hh'. injection Hh' as <-.
    rewrite Ho in Ho'. injection Ho' as <-.
    rewrite Hc in Hc'. injection Hc' as <-.
    set (t' := o + Z.of_nat k' * slotStep) in *.
    assert (Ht1 : t ∈ candidateTimes o c)
      by (apply candidateTimes_elem; by exists k).
    assert (Ht2 : t' ∈ candidateTimes o c)
      by (apply candidateTimes_elem; by exists k').
    destruct (within_day_minute _ _ _ _ _ _ Ho Hlo Hhi Ht1) as (n & Hn & En).
    destruct (within_day_minute _ _ _ _ _ _ Ho Hlo Hhi Ht2) as (n' & Hn' & En').
    assert (Some t' = Some t) as Heq.
    { rewrite En, En'.
      rewrite <- (dateWithTime_timeString_day tza date n Hn).
      rewrite <- (dateWithTime_timeString_day tza date n' Hn').
      rewrite <- En, <- En'. congruence. }
    injection Heq as Heq. rewrite Heq in Hfree.
    rewrite Hfree in Hin. apply filter_elem in Hin as [_ Hin].
    assert (Hself : conflicts tza date settings (Some t) res = true).
    { apply conflicts_true_iff. exists t. split; [done |]. lia. }
    rewrite noConflict_true_iff in Hin. rewrite (Hin res Hres Htable) in Hself.
    done.
Qed.

(** * The mock service (services/mockApiService.ts) *)

Example ex_toISOString :
  JS.toISOString 1704130245678 = "2024-01-01T17:30:45.678Z"
  /\ JS.toISOString (-1) = "1969-12-31T23:59:59.999Z".
Proof. by vm_compute. Qed.

(** ** [findIndex] *)

Lemma findIndex_None {A} (f : A -> bool) l :
  findIndex f l = None <-> forall x, x ∈ l -> f x = false.
Proof.
  induction l as [|x l IH]; simpl.
  - split; [intros _ y Hy; by apply elem_of_nil in Hy | done].
  - destruct (f x) eqn:E.
    + split; [done |]. intros H. rewrite (H x) in E by (by left). done.
    + destruct (findIndex f l) as [i|]; simpl.
      * split; [done |]. intros H.
        assert (Some i = None) as H0; [| done].
        apply IH. intros y Hy. apply H. by right.
      * split; [| done]. intros _ y Hy.
        apply elem_of_cons in Hy as [-> | Hy]; [done |]. by apply IH.
Qed.

Lemma findIndex_Some {A} (f : A -> bool) l i :
  findIndex f l = Some i ->
  exists pre x post,
    l = pre ++ x :: post /\ length pre = i /\ f x = true
    /\ forall y, y ∈ pre -> f y = false.
Proof.
  revert i. induction l as [|x l IH]; intros i; simpl; [done |].
  destruct (f x) eqn:E.
  - intros [= <-]. exists [], x, l. repeat split; try done.
    intros y Hy. by apply elem_of_nil in Hy.
  - destruct (findIndex f l) as [j|]; simpl; [| done]. intros [= <-].
    destruct (IH j eq_refl) as (pre & y & post & -> & Hlen & Hy & Hpre).
    exists (x :: pre), y, post. repeat split; simpl; try done; [lia |].
    intros z Hz. apply elem_of_cons in Hz as [-> | Hz]; [done | by apply Hpre].
Qed.

Lemma findIndex_first {A} (f : A -> bool) pre x post :
  f x = true -> (forall y, y ∈ pre -> f y = false) ->
  findIndex f (pre ++ x :: post) = Some (length pre).
Proof.
  intros Hx Hpre. induction pre as [|z pre IH]; simpl; [by rewrite Hx |].
  rewrite (Hpre z) by (by left). rewrite IH; [done |].
  intros w Hw. apply Hpre. by right.
Qed.

Lemma delete_at_length {A} (pre : list A) x post :
  delete (length pre) (pre ++ x :: post) = pre ++ post.
Proof. induction pre as [|z pre IH]; simpl; [done | by rewrite IH]. Qed.

Lemma insert_at_length {A} (pre : list A) x y post :
  <[length pre := y]> (pre ++ x :: post) = pre ++ y :: post.
Proof. induction pre as [|z pre IH]; simpl; [done | by rewrite IH]. Qed.

Lemma findIndex_is_Some {A} (f : A -> bool) l x :
  x ∈ l -> f x = true -> exists i, findIndex f l = Some i.
Proof.
  intros Hx Hf. destruct (findIndex f l) as [i|] eqn:E; [by exists i |].
  rewrite findIndex_None in E. rewrite (E x Hx) in Hf. done.
Qed.

(** ** The ids of the reservations *)

Lemma string_of_uint_injective d d' :
  NilEmpty.string_of_uint d = NilEmpty.string_of_uint d' -> d = d'.
Proof.
  intros E. apply (f_equal NilEmpty.uint_of_string) in E.
  rewrite !NilEmpty.usu in E. by injection E.
Qed.

Lemma string_of_uint_no_sign d s : NilEmpty.string_of_uint d <> String "-" s.
Proof. by destruct d. Qed.

(** [String(n)] tells the integers apart. *)
Lemma String_injective n m : JS.String_ n = JS.String_ m -> n = m.
Proof.
  destruct n as [|p|p], m as [|q|q]; simpl; intros E; try done.
  - exfalso. apply (Unsigned.to_uint_nonzero q), string_of_uint_injective.
    by rewrite <- E.
  - exfalso. apply (Unsigned.to_uint_nonzero p), string_of_uint_injective.
    by rewrite E.
  - f_equal. by apply Unsigned.to_uint_inj, string_of_uint_injective.
  - exfalso. by apply (string_of_uint_no_sign _ _ E).
  - exfalso. symmetry in E. by apply (string_of_uint_no_sign _ _ E).
  - injection E as E. f_equal.
    by apply Unsigned.to_uint_inj, string_of_uint_injective.
Qed.

Lemma reservationsOn_app date l l' :
  reservationsOn date (l ++ l')
  = reservationsOn date l ++ reservationsOn date l'.
Proof. unfold reservationsOn. simpl. apply List.filter_app. Qed.

Lemma delete_first_match (l : list Reservation) id r :
  (forall x, x ∈ l -> res_id x <> id) -> res_id r = id ->
  deleteReservation id (l ++ [r]) = (Resolved id, l).
Proof.
  intros Hfresh Hr. unfold deleteReservation.
  assert (findIndex (fun x => String.eqb (res_id x) id) (l ++ [r])
          = Some (length l)) as ->.
  { induction l as [|x l IH]; simpl.
    - by rewrite (proj2 (String.eqb_eq _ _) Hr).
    - rewrite (proj2 (String.eqb_neq _ _) (Hfresh x ltac:(by left))).
      rewrite IH; [done |]. intros y Hy. apply Hfresh. by right. }
  f_equal. induction l as [|x l IH]; simpl; [done |].
  f_equal. apply IH. intros y Hy. apply Hfresh. by right.
Qed.

(** X16. [createReservation] appends a reservation with the id ["res" +
    Date.now()] and the data given: afterwards [getReservationsByDate]
    returns it last for its date and returns what it returned before for any
    other date.  Two reservations get the same id exactly when they are
    created in the same millisecond.  When the id is not in use, deleting
    the new reservation by its id gives back the array as it was and keeps
    the ids distinct; when the id is in use, the delete removes another
    reservation, and the new one stays. *)
Theorem X16_create_then_lookup now now' data mockReservations :
  exists r,
    createReservation now now' data mockReservations
    = (Resolved r, mockReservations ++ [r])
    /\ res_id r = "res" +:+ JS.String_ now
    /\ (res_date r, time r, covers r, tableId r, status r)
       = (res_date data, time data, covers data, tableId data, status data)
    /\ (forall date,
          reservationsOn date (mockReservations ++ [r])
          = reservationsOn date mockReservations
            ++ (if String.eqb (res_date data) date then [r] else []))
    /\ (forall t t' data' l,
          (exists r', fst (createReservation t t' data' l) = Resolved r'
                      /\ res_id r' = res_id r)
          <-> t = now)
    /\ ((forall x, x ∈ mockReservations -> res_id x <> res_id r) ->
        deleteReservation (res_id r) (mockReservations ++ [r])
        = (Resolved (res_id r), mockReservations)
        /\ (NoDup (List.map res_id mockReservations) ->
            NoDup (List.map res_id (mockReservations ++ [r]))))
    /\ ((exists x, x ∈ mockReservations /\ res_id x = res_id r) ->
        exists l,
          deleteReservation (res_id r) (mockReservations ++ [r])
          = (Resolved (res_id r), l ++ [r])
          /\ length l + 1 = length mockReservations)%nat.
Proof.
  eexists. split; [reflexivity |]. split; [reflexivity |].
  split; [reflexivity |]. split; [| split; [| split]].
  - intros date. rewrite reservationsOn_app. by f_equal.
  - intros t t' data' l. simpl. split.
    + intros (r' & [= <-] & E). simpl in E. injection E as E.
      by apply String_injective.
    + intros ->. eexists. split; reflexivity.
  - intros Hfresh. split; [by apply delete_first_match |].
    intros Hnd. rewrite List.map_app. apply NoDup_app. split; [done |].
    split; [| apply NoDup_singleton].
    intros i Hi. simpl. rewrite list_elem_of_singleton. intros ->.
    apply list_elem_of_In, in_map_iff in Hi as (x & E & Hx).
    by apply (Hfresh x); [apply list_elem_of_In |].
  - intros (x & Hx & E). unfold deleteReservation.
    destruct (findIndex_is_Some
                (fun y => String.eqb (res_id y) ("res" +:+ JS.String_ now))
                mockReservations x Hx) as (i & Hi).
    { by apply String.eqb_eq. }
    apply findIndex_Some in Hi as Hparts.
    destruct Hparts as (pre & y & post & -> & Hlen & Hy & Hpre).
    rewrite <- app_assoc. simpl app.
    rewrite (findIndex_first _ pre y _ Hy Hpre), delete_at_length.
    exists (pre ++ post). split; [by rewrite <- app_assoc |].
    rewrite !length_app. simpl. lia.
Qed.

(** X17. [updateReservation] replaces the first reservation that has the id
    of its argument and leaves every other entry, the order and the length of
    the array as they are; when no reservation has the id it rejects with
    "Reservation not found" and leaves the array unchanged.  With distinct
    ids, the array afterwards holds the new value and nothing else under that
    id. *)
Theorem X17_update_replaces_first_match updated mockReservations :
  ((forall x, x ∈ mockReservations -> res_id x <> res_id updated) ->
   updateReservation updated mockReservations
   = (Rejected "Reservation not found", mockReservations))
  /\ (forall x,
        x ∈ mockReservations -> res_id x = res_id updated ->
        exists pre old post,
          mockReservations = pre ++ old :: post
          /\ res_id old = res_id updated
          /\ (forall y, y ∈ pre -> res_id y <> res_id updated)
          /\ updateReservation updated mockReservations
             = (Resolved updated, pre ++ updated :: post)
          /\ (NoDup (List.map res_id mockReservations) ->
              old = x
              /\ NoDup (List.map res_id (pre ++ updated :: post))
              /\ forall y,
                   y ∈ pre ++ updated :: post ->
                   res_id y = res_id updated -> y = updated)).
Proof.
  unfold updateReservation. split.
  - intros Hnone.
    assert (findIndex (fun r => String.eqb (res_id r) (res_id updated))
              mockReservations = None) as ->; [| done].
    apply findIndex_None. intros x Hx. by apply String.eqb_neq, Hnone.
  - intros x Hx Hid.
    destruct (findIndex_is_Some
                (fun r => String.eqb (res_id r) (res_id updated))
                mockReservations x Hx) as (i & Hi).
    { by apply String.eqb_eq. }
    rewrite Hi. apply findIndex_Some in Hi
      as (pre & old & post & -> & <- & Hold & Hpre).
    apply String.eqb_eq in Hold.
    exists pre, old, post. split; [done |]. split; [done |]. split.
    { intros y Hy. by apply String.eqb_neq, Hpre. }
    split; [by rewrite insert_at_length |].
    intros Hnd. rewrite List.map_app in Hnd. simpl in Hnd.
    apply NoDup_app in Hnd as (Hnd1 & Hdisj & Hnd2).
    apply NoDup_cons in Hnd2 as [Hold' Hnd2].
    assert (Hpost : forall y, y ∈ post -> res_id y <> res_id updated).
    { intros y Hy E. apply Hold'. rewrite Hold, <- E.
      apply list_elem_of_In, in_map. by apply list_elem_of_In. }
    assert (Hpre' : forall y, y ∈ pre -> res_id y <> res_id updated).
    { intros y Hy. by apply String.eqb_neq, Hpre. }
    split; [| split].
    + apply elem_of_app in Hx as [Hx | Hx]; [by destruct (Hpre' x Hx) |].
      apply elem_of_cons in Hx as [-> | Hx]; [done |].
      by destruct (Hpost x Hx).
    + rewrite List.map_app. simpl. apply NoDup_app. split; [done |].
      split; [by rewrite <- Hold | apply NoDup_cons; by rewrite <- Hold].
    + intros y Hy E. apply elem_of_app in Hy as [Hy | Hy];
        [by destruct (Hpre' y Hy) |].
      apply elem_of_cons in Hy as [-> | Hy]; [done |].
      by destruct (Hpost y Hy).
Qed.

(** X18. [deleteReservation] removes the first reservation with the id and
    nothing else; when no reservation has the id it rejects with
    "Reservation not found" and leaves the array unchanged.  With distinct
    ids no reservation with the id is left, the others are all left, in their
    order, and a second delete of the same id rejects. *)
Theorem X18_delete_removes_first_match reservationId mockReservations :
  ((forall x, x ∈ mockReservations -> res_id x <> reservationId) ->
   deleteReservation reservationId mockReservations
   = (Rejected "Reservation not found", mockReservations))
  /\ (forall x,
        x ∈ mockReservations -> res_id x = reservationId ->
        exists pre old post,
          mockReservations = pre ++ old :: post
          /\ res_id old = reservationId
          /\ (forall y, y ∈ pre -> res_id y <> reservationId)
          /\ deleteReservation reservationId mockReservations
             = (Resolved reservationId, pre ++ post)
          /\ (NoDup (List.map res_id mockReservations) ->
              pre ++ post
              = List.filter
                  (fun r => negb (String.eqb (res_id r) reservationId))
                  mockReservations
              /\ deleteReservation reservationId (pre ++ post)
                 = (Rejected "Reservation not found", pre ++ post))).
Proof.
  unfold deleteReservation. split.
  - intros Hnone.
    assert (findIndex (fun r => String.eqb (res_id r) reservationId)
              mockReservations = None) as ->; [| done].
    apply findIndex_None. intros x Hx. by apply String.eqb_neq, Hnone.
  - intros x Hx Hid.
    destruct (findIndex_is_Some
                (fun r => String.eqb (res_id r) reservationId)
                mockReservations x Hx) as (i & Hi).
    { by apply String.eqb_eq. }
    rewrite Hi. apply findIndex_Some in Hi
      as (pre & old & post & -> & <- & Hold & Hpre).
    apply String.eqb_eq in Hold.
    exists pre, old, post. split; [done |]. split; [done |]. split.
    { intros y Hy. by apply String.eqb_neq, Hpre. }
    split; [by rewrite delete_at_length |].
    intros Hnd. rewrite List.map_app in Hnd. simpl in Hnd.
    apply NoDup_app in Hnd as (Hnd1 & Hdisj & Hnd2).
    apply NoDup_cons in Hnd2 as [Hold' Hnd2].
    assert (Hpost : forall y, y ∈ post -> res_id y <> reservationId).
    { intros y Hy E. apply Hold'. rewrite Hold, <- E.
      apply list_elem_of_In, in_map. by apply list_elem_of_In. }
    assert (Hpre' : forall y, y ∈ pre -> res_id y <> reservationId).
    { intros y Hy. by apply String.eqb_neq, Hpre. }
    assert (Hkeep : forall l,
      (forall y, y ∈ l -> res_id y <> reservationId) ->
      List.filter (fun r => negb (String.eqb (res_id r) reservationId)) l = l).
    { induction l as [|z l IH]; intros Hl; simpl; [done |].
      rewrite (proj2 (String.eqb_neq _ _) (Hl z ltac:(by left))). simpl.
      f_equal. apply IH. intros y Hy. apply Hl. by right. }
    split.
    + rewrite List.filter_app. simpl.
      rewrite (proj2 (String.eqb_eq _ _) Hold). simpl.
      by rewrite !Hkeep.
    + assert (findIndex (fun r => String.eqb (res_id r) reservationId)
                (pre ++ post) = None) as ->; [| done].
      apply findIndex_None. intros y Hy. apply String.eqb_neq.
      apply elem_of_app in Hy as [Hy | Hy]; [by apply Hpre' | by apply Hpost].
Qed.

(** * The engine and the reservations it is given *)

(** The instant of a returned slot, read back from its string. *)
Lemma slot_instant tza date covers settings reservations tables
    specialOpeningHours hours o c slot :
  resolveHours tza date settings specialOpeningHours = Some hours ->
  dateWithTime tza date (open hours) = Some o ->
  dateWithTime tza date (close hours) = Some c ->
  dayStart tza date <= o ->
  c <= dayStart tza date + 24 * 3600000 ->
  slot ∈ calculateAvailableSlots tza date covers settings reservations tables
           specialOpeningHours ->
  exists t,
    t ∈ candidateTimes o c
    /\ dateWithTime tza date (slot_time slot) = Some t
    /\ availableTables slot
       = List.filter (noConflict tza date settings reservations t)
           (eligible covers tables).
Proof.
  intros Hh Ho Hc Hlo Hhi Hin.
  rewrite calculateAvailableSlots_resolve, Hh in Hin.
  rewrite (slotsForHours_flat_map _ _ _ _ _ _ _ o c) in Hin by done.
  apply list_elem_of_In, in_flat_map in Hin as (t & Ht & Hin).
  apply list_elem_of_In in Ht, Hin. apply slotAt_elem in Hin as [-> _].
  exists t. split; [done |]. simpl. split.
  - destruct (within_day_minute _ _ _ _ _ _ Ho Hlo Hhi Ht) as (n & Hn & ->).
    by apply dateWithTime_timeString_day.
  - apply List.filter_ext. intros table. apply tableIsFree_noConflict.
Qed.

(** A reservation at the very instant [t], on the table, with a positive
    turnover: the table is not free at [t]. *)
Lemma noConflict_own_time tza date settings reservations t table res :
  0 < turnoverMinutes settings ->
  res ∈ reservations ->
  tableId res = Some (tbl_id table) ->
  dateWithTime tza date (time res) = Some t ->
  noConflict tza date settings reservations t table = false.
Proof.
  intros Hturn Hres Htable Htime.
  destruct (noConflict _ _ _ _ _ _) eqn:E; [| done].
  rewrite noConflict_true_iff in E.
  assert (Hself : conflicts tza date settings (Some t) res = true).
  { apply conflicts_true_iff. exists t. split; [done |]. lia. }
  by rewrite (E res Hres Htable) in Hself.
Qed.

(** Without a positive turnover time no reservation is in the way. *)
Lemma noConflict_no_turnover tza date settings reservations t table :
  turnoverMinutes settings <= 0 ->
  noConflict tza date settings reservations t table = true.
Proof.
  intros Hturn. apply noConflict_true_iff. intros res _ _.
  destruct (conflicts _ _ _ _ _) eqn:E; [| done].
  apply conflicts_true_iff in E as (r & _ & H1 & H2). lia.
Qed.

Lemma slots_by_noConflict tza date covers settings reservations reservations'
    tables specialOpeningHours :
  (forall t table,
     noConflict tza date settings reservations t table
     = noConflict tza date settings reservations' t table) ->
  calculateAvailableSlots tza date covers settings reservations tables
    specialOpeningHours
  = calculateAvailableSlots tza date covers settings reservations' tables
      specialOpeningHours.
Proof.
  intros Hsame. rewrite !calculateAvailableSlots_resolve.
  destruct (resolveHours tza date settings specialOpeningHours) as [hours|];
    [| done].
  destruct (dateWithTime tza date (open hours)) as [o|] eqn:Ho.
  - destruct (dateWithTime tza date (close hours)) as [c|] eqn:Hc.
    + rewrite !(slotsForHours_flat_map _ _ _ _ _ _ _ o c) by done.
      assert (Hf : forall t,
        List.filter (tableIsFree tza date settings reservations (Some t))
          (eligible covers tables)
        = List.filter (tableIsFree tza date settings reservations' (Some t))
            (eligible covers tables)).
      { intros t. apply List.filter_ext. intros table.
        by rewrite !tableIsFree_noConflict. }
      induction (candidateTimes o c) as [|t l IH]; [done |].
      simpl. rewrite IH. f_equal. unfold slotAt, loopBody. by rewrite Hf.
    + unfold slotsForHours. rewrite Ho, Hc. simpl.
      destruct (String.eqb (open hours) ""); [done |].
      by destruct (length (eligible covers tables) =? 0)%nat.
  - unfold slotsForHours. rewrite Ho. simpl.
    destruct (String.eqb (open hours) ""); [done |].
    by destruct (length (eligible covers tables) =? 0)%nat.
Qed.

Lemma noConflict_by_time_and_table tza date settings reservations reservations'
    t table :
  List.map (fun r => (time r, tableId r)) reservations
  = List.map (fun r => (time r, tableId r)) reservations' ->
  noConflict tza date settings reservations t table
  = noConflict tza date settings reservations' t table.
Proof.
  revert reservations'. induction reservations as [|r rs IH];
    intros [|r' rs']; simpl; try done.
  intros [= Ht Hid Hrest]. rewrite (IH rs' Hrest). f_equal. f_equal.
  unfold onTable, conflicts. by rewrite Ht, Hid.
Qed.

(** X20. Of a reservation the engine reads the time and the table id and
    nothing else: two lists of reservations with the same times and table
    ids, in the same order, give the same slots.  In particular the status is
    not read: a reservation that is cancelled, a no-show or paid occupies its
    table like a confirmed one. *)
Theorem X20_only_time_and_table_are_read tza date covers settings
    reservations reservations' tables specialOpeningHours :
  List.map (fun r => (time r, tableId r)) reservations
  = List.map (fun r => (time r, tableId r)) reservations' ->
  calculateAvailableSlots tza date covers settings reservations tables
    specialOpeningHours
  = calculateAvailableSlots tza date covers settings reservations' tables
      specialOpeningHours.
Proof.
  intros Hsame. apply slots_by_noConflict. intros t table.
  by apply noConflict_by_time_and_table.
Qed.

Lemma X20_only_time_and_table_are_read_witness :
  calculateAvailableSlots 0 Sample.monday 2 Sample.settingsA
    [mkReservation "res1" "Alice Johnson" "555-0101" "2024-01-01" "17:30" 2
       (Some "t1") "sec1" CANCELLED "" "" None None None]
    [Sample.t1] []
  = calculateAvailableSlots 0 Sample.monday 2 Sample.settingsA
      Sample.reservationsB [Sample.t1] [].
Proof.
  apply (X20_only_time_and_table_are_read 0 Sample.monday 2 Sample.settingsA
           _ Sample.reservationsB [Sample.t1] []).
  reflexivity.
Defined.

(** X21. Reservations only take tables away: when every reservation of one
    list is in another, each slot returned for the larger list is returned
    for the smaller one too, at the same time and with at least the same
    tables. *)
Theorem X21_more_reservations_fewer_tables tza date covers settings
    reservations reservations' tables specialOpeningHours slot' :
  (forall r, r ∈ reservations -> r ∈ reservations') ->
  slot' ∈ calculateAvailableSlots tza date covers settings reservations'
            tables specialOpeningHours ->
  exists slot,
    slot ∈ calculateAvailableSlots tza date covers settings reservations
             tables specialOpeningHours
    /\ slot_time slot = slot_time slot'
    /\ forall table,
         table ∈ availableTables slot' -> table ∈ availableTables slot.
Proof.
  intros Hsub Hin.
  destruct (slot_origin _ _ _ _ _ _ _ _ Hin)
    as (h & o & c & k & Hh & Hopen & Ho & Hc & Hlt & Hst & Hfree & Hne).
  set (t := o + Z.of_nat k * slotStep) in *.
  assert (Hmono : forall table,
    table ∈ availableTables slot' ->
    table ∈ List.filter (noConflict tza date settings reservations t)
              (eligible covers tables)).
  { intros table Ht. rewrite Hfree in Ht.
    apply filter_elem in Ht as [Hel Hno]. apply filter_elem. split; [done |].
    rewrite noConflict_true_iff in Hno |- *.
    intros res Hres. apply Hno. by apply Hsub. }
  exists (mkTimeSlot (timeString tza (Some t))
            (List.filter (noConflict tza date settings reservations t)
               (eligible covers tables))).
  split; [| split; [done | exact Hmono]].
  apply (slot_intro _ _ _ _ _ _ _ h o c k); try done. fold t.
  destruct (availableTables slot') as [|x l] eqn:E; [done |].
  intros E'. specialize (Hmono x ltac:(by left)). rewrite E' in Hmono.
  by apply elem_of_nil in Hmono.
Qed.

Lemma X21_more_reservations_fewer_tables_witness :
  exists slot,
    slot ∈ calculateAvailableSlots 0 Sample.monday 2 Sample.settingsA []
             [Sample.t1; Sample.t2] []
    /\ slot_time slot = "17:00"
    /\ forall table,
         table ∈ availableTables Sample.slot1700 ->
         table ∈ availableTables slot.
Proof.
  apply (X21_more_reservations_fewer_tables 0 Sample.monday 2
           Sample.settingsA [] Sample.reservationsB [Sample.t1; Sample.t2] []
           Sample.slot1700).
  - intros r Hr. by apply elem_of_nil in Hr.
  - apply list_elem_of_In. vm_compute. by left.
Defined.

(** ** Booking a slot *)

(** In a zone of one offset: let the engine return a slot for the
    reservations that the in-memory service holds for a date, with opening
    hours within the day, and let a reservation for that date, the time of
    the slot and one of its tables be created.  With a positive turnover
    time, no slot of that time that the engine returns for the reservations
    then held lists the table.  With a turnover time of 0 (or below) the
    engine returns what it returned before. *)
Lemma booking_takes_the_table_one_offset tza date dateString covers settings
    mockReservations allTables specialOpeningHours hours o c slot table
    now now' payload :
  resolveHours tza date settings specialOpeningHours = Some hours ->
  dateWithTime tza date (open hours) = Some o ->
  dateWithTime tza date (close hours) = Some c ->
  dayStart tza date <= o ->
  c <= dayStart tza date + 24 * 3600000 ->
  slot ∈ calculateAvailableSlots tza date covers settings
           (reservationsOn dateString mockReservations) allTables
           specialOpeningHours ->
  table ∈ availableTables slot ->
  p_date payload = dateString ->
  p_time payload = slot_time slot ->
  p_tableId payload = tbl_id table ->
  let after :=
    snd (createReservation now now' (reservationOfPayload payload)
           mockReservations) in
  (0 < turnoverMinutes settings ->
   forall slot',
     slot' ∈ calculateAvailableSlots tza date covers settings
               (reservationsOn dateString after) allTables
               specialOpeningHours ->
     slot_time slot' = slot_time slot ->
     table ∉ availableTables slot')
  /\ (turnoverMinutes settings <= 0 ->
      calculateAvailableSlots tza date covers settings
        (reservationsOn dateString after) allTables specialOpeningHours
      = calculateAvailableSlots tza date covers settings
          (reservationsOn dateString mockReservations) allTables
          specialOpeningHours).
Proof.
  intros Hh Ho Hc Hlo Hhi Hslot Htable Hdate Htime Hid after. split.
  - intros Hturn slot' Hslot' Hsame Hin.
    destruct (slot_instant _ _ _ _ _ _ _ _ _ _ _ Hh Ho Hc Hlo Hhi Hslot)
      as (t & _ & Ht & _).
    destruct (slot_instant _ _ _ _ _ _ _ _ _ _ _ Hh Ho Hc Hlo Hhi Hslot')
      as (t' & _ & Ht' & Hfree').
    rewrite Hsame, Ht in Ht'. injection Ht' as <-.
    rewrite Hfree' in Hin. apply filter_elem in Hin as [_ Hin].
    set (r := mkReservation ("res" +:+ JS.String_ now) (p_customerName payload)
                (p_contact payload) (p_date payload) (p_time payload)
                (p_covers payload) (Some (p_tableId payload))
                (p_sectionId payload) (p_status payload) (p_notes payload)
                (JS.toISOString now') None None None).
    rewrite (noConflict_own_time tza date settings _ t table r) in Hin;
      try done.
    + unfold after. simpl. fold r. rewrite reservationsOn_app.
      apply elem_of_app. right. unfold reservationsOn. simpl.
      rewrite Hdate, String.eqb_refl. by left.
    + simpl. by rewrite Hid.
    + simpl. by rewrite Htime.
  - intros Hturn. apply slots_by_noConflict. intros t tbl.
    by rewrite !noConflict_no_turnover.
Qed.

(** * The tables, the clock and the calendar day *)

(** ** A table that is not ready *)

Lemma slots_flat_map tza date covers settings reservations tables
    specialOpeningHours :
  calculateAvailableSlots tza date covers settings reservations tables
    specialOpeningHours
  = flat_map (slotAt tza date settings reservations (eligible covers tables))
      (engineCandidates tza date settings specialOpeningHours).
Proof.
  rewrite calculateAvailableSlots_resolve. unfold engineCandidates.
  destruct (resolveHours tza date settings specialOpeningHours) as [hours|];
    [| done].
  destruct (dateWithTime tza date (open hours)) as [o|] eqn:Ho.
  - destruct (dateWithTime tza date (close hours)) as [c|] eqn:Hc.
    + by apply slotsForHours_flat_map.
    + unfold slotsForHours. rewrite Ho, Hc. simpl.
      destruct (String.eqb (open hours) ""); [done |].
      by destruct (length (eligible covers tables) =? 0)%nat.
  - unfold slotsForHours. rewrite Ho. simpl.
    destruct (String.eqb (open hours) ""); [done |].
    by destruct (length (eligible covers tables) =? 0)%nat.
Qed.

Lemma filter_comm {A} (p q : A -> bool) l :
  List.filter p (List.filter q l) = List.filter q (List.filter p l).
Proof.
  induction l as [|x l IH]; simpl; [done |].
  destruct (p x) eqn:Hp, (q x) eqn:Hq; simpl; rewrite ?Hp, ?Hq, IH; done.
Qed.

Lemma flat_map_flat_map {A B C} (f : A -> list B) (g : B -> list C) l :
  flat_map g (flat_map f l) = flat_map (fun x => flat_map g (f x)) l.
Proof.
  induction l as [|x l IH]; simpl; [done |]. by rewrite flat_map_app, IH.
Qed.

Lemma eligible_not_ready covers tables updated tableId :
  eligible covers
    (handleToggleTableReady (Resolved updated) tableId true tables)
  = List.filter (fun t => negb (String.eqb (tbl_id t) tableId))
      (eligible covers tables).
Proof.
  unfold eligible. induction tables as [|t l IH]; simpl; [done |].
  simpl in IH. rewrite IH.
  destruct (String.eqb (tbl_id t) tableId) eqn:E; simpl.
  - rewrite andb_false_r.
    destruct ((capacity t >=? covers) && isReady t); simpl; by rewrite ?E.
  - destruct ((capacity t >=? covers) && isReady t); simpl; by rewrite ?E.
Qed.

Lemma slotAt_without tza date settings reservations eligibleTables tableId t :
  slotAt tza date settings reservations
    (List.filter (fun x => negb (String.eqb (tbl_id x) tableId)) eligibleTables)
    t
  = flat_map (withoutTable tableId)
      (slotAt tza date settings reservations eligibleTables t).
Proof.
  unfold slotAt, loopBody. rewrite filter_comm.
  destruct (List.filter (tableIsFree tza date settings reservations (Some t))
              eligibleTables) as [|x l] eqn:E; simpl; [done |].
  unfold withoutTable. simpl.
  destruct (negb (String.eqb (tbl_id x) tableId)); simpl; [done |].
  by destruct (List.filter _ l).
Qed.

Lemma toggle_twice tables table updated updated' :
  table ∈ tables ->
  NoDup (List.map tbl_id tables) ->
  handleToggleTableReady (Resolved updated') (tbl_id table)
    (negb (isReady table))
    (handleToggleTableReady (Resolved updated) (tbl_id table) (isReady table)
       tables)
  = tables.
Proof.
  intros Hin Hnd. simpl. rewrite List.map_map.
  rewrite <- (List.map_id tables) at 2. apply List.map_ext_in.
  intros t Ht. apply list_elem_of_In in Ht.
  destruct (String.eqb_spec (tbl_id t) (tbl_id table)) as [E | Hne]; simpl.
  - rewrite E, String.eqb_refl.
    assert (t = table) as ->.
    { apply (NoDup_map_injective tbl_id tables); done. }
    rewrite negb_involutive. by destruct table.
  - by rewrite (proj2 (String.eqb_neq _ _) Hne).
Qed.

(** X22. The switch "Ready" of the layout page, for tables with distinct
    ids: a second click brings the tables back as they were; a failed
    request leaves them as they are; and after a ready table is switched to
    not ready the engine returns the slots it returned before without that
    table: the table is taken out of every slot, a slot that had no other
    table is gone, and nothing else changes. *)
Theorem X22_not_ready_table_leaves_the_slots tza date covers settings
    reservations tables specialOpeningHours table updated updated' message :
  table ∈ tables ->
  NoDup (List.map tbl_id tables) ->
  let tables' :=
    handleToggleTableReady (Resolved updated) (tbl_id table) (isReady table)
      tables in
  handleToggleTableReady (Resolved updated') (tbl_id table)
    (negb (isReady table)) tables' = tables
  /\ handleToggleTableReady (Rejected message) (tbl_id table) (isReady table)
       tables = tables
  /\ (isReady table = true ->
      calculateAvailableSlots tza date covers settings reservations tables'
        specialOpeningHours
      = flat_map (withoutTable (tbl_id table))
          (calculateAvailableSlots tza date covers settings reservations
             tables specialOpeningHours)).
Proof.
  intros Hin Hnd tables'. split; [by apply toggle_twice |]. split; [done |].
  intros Hready. unfold tables'. rewrite Hready, !slots_flat_map.
  rewrite eligible_not_ready, flat_map_flat_map.
  induction (engineCandidates tza date settings specialOpeningHours)
    as [|t l IH]; [done |].
  simpl. by rewrite IH, slotAt_without.
Qed.

Lemma X22_not_ready_table_leaves_the_slots_witness :
  calculateAvailableSlots 0 Sample.monday 2 Sample.settingsA
    Sample.reservationsB
    (handleToggleTableReady (Resolved Sample.t2) "t2" true
       [Sample.t1; Sample.t2]) []
  = flat_map (withoutTable "t2")
      (calculateAvailableSlots 0 Sample.monday 2 Sample.settingsA
         Sample.reservationsB [Sample.t1; Sample.t2] []).
Proof.
  destruct (X22_not_ready_table_leaves_the_slots 0 Sample.monday 2
              Sample.settingsA Sample.reservationsB [Sample.t1; Sample.t2] []
              Sample.t2 Sample.t2 Sample.t2 "") as (_ & _ & H).
  - right. by left.
  - apply NoDup_cons. split; [| apply NoDup_singleton].
    rewrite list_elem_of_singleton. done.
  - exact (H eq_refl).
Defined.

(** ** The clock of the no-show mark *)

Lemma timeOfDay_slot n :
  0 <= n < 1440 ->
  JS.timeOfDayMs (timeString 0 (Some (n * 60000))) = Some (n * 60000)
  /\ JS.timeOfDayMs (timeString 0 (Some (n * 60000)) +:+ ":00")
     = Some (n * 60000)
  /\ hasChar "T" (timeString 0 (Some (n * 60000))) = false.
Proof.
  intros Hn.
  assert (Hall : allFrom (Z.to_nat 1440) 0
    (fun n =>
       let s := timeString 0 (Some (n * 60000)) in
       match JS.timeOfDayMs s, JS.timeOfDayMs (s +:+ ":00") with
       | Some a, Some b => (a =? n * 60000) && (b =? n * 60000)
       | _, _ => false
       end && negb (hasChar "T" s)) = true) by (vm_compute; reflexivity).
  pose proof (allFrom_range _ _ _ n Hall ltac:(lia)) as H. cbv beta zeta in H.
  apply andb_true_iff in H as [H HT]. apply negb_true_iff in HT.
  destruct (JS.timeOfDayMs (timeString 0 (Some (n * 60000)))) as [a|];
    [| discriminate].
  destruct (JS.timeOfDayMs (timeString 0 (Some (n * 60000)) +:+ ":00"))
    as [b|]; [| discriminate].
  apply andb_true_iff in H as [Ha Hb].
  apply Z.eqb_eq in Ha, Hb. subst a b.
  split; [reflexivity | split; [reflexivity | exact HT]].
Qed.

(** The instant written as the date of a day and the time of a minute of
    the day. *)
Lemma parse_date_and_slot_time tza day n time :
  firstDay <= day <= lastDay ->
  0 <= n < 1440 ->
  time = timeString 0 (Some (n * 60000))
  \/ time = timeString 0 (Some (n * 60000)) +:+ ":00" ->
  JS.parseDateTimeLocal tza
    (JS.toISODateString (day * JS.msPerDay) +:+ "T" +:+ time)
  = Some (day * JS.msPerDay + n * 60000 - tza).
Proof.
  intros Hday Hn Htime. destruct (timeOfDay_slot n Hn) as (T1 & T2 & T3).
  assert (HT : hasChar "T" time = false /\ JS.timeOfDayMs time = Some (n * 60000)).
  { destruct Htime as [-> | ->]; [done |]. split; [| done].
    rewrite hasChar_app, T3. done. }
  destruct HT as [HT1 HT2].
  unfold JS.toISODateString. rewrite Z.div_mul by done.
  pose proof (daysFromCivil_civilFromDays day) as H.
  pose proof (civilFromDays_year day Hday) as Hy.
  destruct (JS.civilFromDays day) as [[y m] d]. destruct H as (H & Hm & Hd).
  unfold JS.isoYear.
  replace ((0 <=? y) && (y <=? 9999)) with true
    by (symmetry; rewrite andb_true_iff, !Z.leb_le; lia).
  unfold JS.parseDateTimeLocal.
  change ("T" +:+ time) with (String "T" time).
  rewrite split_first by (by apply written_date_no_T).
  rewrite (split_none "T" time) by done.
  rewrite dayOfDate_written by done. by rewrite HT2, H.
Qed.

(** X23. The mark of a possible no-show: for a confirmed reservation whose
    date is a date of the calendar and whose time is the "HH:MM" (or
    "HH:MM:00") of a minute of the day, and a grace period of [g] minutes
    that is not 0, the mark is set exactly when the clock is past the start
    of the reservation by more than [g] minutes, the start being the instant
    that the engine means by that time on the date of the dialog.  Without a
    grace period in the settings, or with one of 0, the mark is never set,
    although the settings page then shows a grace period of 15 minutes. *)
Theorem X23_no_show_after_grace tza now settings reservation day n :
  firstDay <= day <= lastDay ->
  0 <= n < 1440 ->
  res_date reservation = JS.toISODateString (day * JS.msPerDay) ->
  time reservation = timeString 0 (Some (n * 60000))
  \/ time reservation = timeString 0 (Some (n * 60000)) +:+ ":00" ->
  status reservation = CONFIRMED ->
  let start := day * JS.msPerDay - tza + n * 60000 in
  dateWithTime tza (day * JS.msPerDay - tza)
    (timeString 0 (Some (n * 60000))) = Some start
  /\ (forall g,
        noShowGraceMinutes settings = Some g -> g <> 0 ->
        isPotentialNoShow tza now (Some settings) reservation
        = (start + g * 60000 <? now))
  /\ (noShowGraceMinutes settings = None
      \/ noShowGraceMinutes settings = Some 0 ->
      isPotentialNoShow tza now (Some settings) reservation = false
      /\ shownGraceMinutes settings = 15).
Proof.
  intros Hday Hn Hdate Htime Hstatus start.
  assert (Hconf : hasStatus CONFIRMED reservation = true).
  { unfold hasStatus. by rewrite Hstatus. }
  split; [| split].
  - assert (Hds : dayStart tza (day * JS.msPerDay - tza)
                  = day * JS.msPerDay - tza).
    { unfold dayStart, JS.localDay.
      replace (day * JS.msPerDay - tza + tza) with (day * JS.msPerDay) by lia.
      by rewrite Z.div_mul. }
    pose proof (dateWithTime_timeString_day tza (day * JS.msPerDay - tza) n Hn)
      as H.
    rewrite Hds in H.
    change (Some (n * 60000 + (day * JS.msPerDay - tza)))
      with (JS.addMs (Some (n * 60000)) (day * JS.msPerDay - tza)) in H at 1.
    rewrite <- Hds in H at 2. rewrite timeString_shift in H.
    rewrite H. unfold start. f_equal. lia.
  - intros g Hg Hg0. unfold isPotentialNoShow. rewrite Hconf, Hg. simpl.
    destruct (Z.eqb_spec g 0) as [| _]; [done |].
    rewrite Hdate,
      (parse_date_and_slot_time tza day n (time reservation) Hday Hn Htime).
    simpl. unfold start. f_equal. lia.
  - intros Hg. unfold isPotentialNoShow, shownGraceMinutes. rewrite Hconf.
    by destruct Hg as [-> | ->].
Qed.

Lemma X23_no_show_after_grace_witness :
  isPotentialNoShow 0 (Sample.at_ 17 46)
    (Some (mkSettings 90 ∅ "UTC" None (Some 15)))
    (Sample.booking "res1" "17:30" "t1")
  = true
  /\ isPotentialNoShow 0 (Sample.at_ 17 45)
       (Some (mkSettings 90 ∅ "UTC" None (Some 15)))
       (Sample.booking "res1" "17:30" "t1")
     = false.
Proof.
  assert (Hday : firstDay <= 19723 <= lastDay) by (by vm_compute).
  assert (Hn : 0 <= 1050 < 1440) by lia.
  split.
  - destruct (X23_no_show_after_grace 0 (Sample.at_ 17 46)
                (mkSettings 90 ∅ "UTC" None (Some 15))
                (Sample.booking "res1" "17:30" "t1") 19723 1050
                Hday Hn eq_refl (or_introl eq_refl) eq_refl)
      as (_ & H & _).
    rewrite (H 15 eq_refl ltac:(lia)). reflexivity.
  - destruct (X23_no_show_after_grace 0 (Sample.at_ 17 45)
                (mkSettings 90 ∅ "UTC" None (Some 15))
                (Sample.booking "res1" "17:30" "t1") 19723 1050
                Hday Hn eq_refl (or_introl eq_refl) eq_refl)
      as (_ & H & _).
    rewrite (H 15 eq_refl ltac:(lia)). reflexivity.
Defined.

(** ** The day that the calendar shows *)

(** With a constant offset from UTC, a click on an arrow moves the selected
    date by whole days. *)
Lemma handleDateChange_days tza days prev :
  handleDateChange tza days prev = prev + days * JS.msPerDay.
Proof.
  unfold handleDateChange, JS.setDate, JS.getDate. cbv zeta.
  pose proof (daysFromCivil_civilFromDays (JS.localDay tza prev)) as H.
  destruct (JS.civilFromDays (JS.localDay tza prev)) as [[y m] d].
  destruct H as (H & _).
  assert (Hlin : JS.daysFromCivil y m (d + days)
                 = JS.daysFromCivil y m d + days).
  { unfold JS.daysFromCivil. cbv zeta. lia. }
  rewrite Hlin, H. unfold JS.localDay.
  pose proof (Z.div_mod (prev + tza) JS.msPerDay ltac:(done)) as E.
  unfold JS.msPerDay in *. lia.
Qed.

Lemma getDayOfWeek_of_day tza t :
  getDayOfWeek tza t
  = getDayOfWeek 0 (((JS.localDay tza t + 4) mod 7 + 3) * JS.msPerDay).
Proof.
  unfold getDayOfWeek, JS.weekdayLong. f_equal.
  unfold JS.localDay at 2. rewrite Z.add_0_r, Z.div_mul by done.
  replace (((JS.localDay tza t + 4) mod 7 + 3 + 4) mod 7)
    with ((JS.localDay tza t + 4) mod 7); [done |].
  pose proof (Z.mod_pos_bound (JS.localDay tza t + 4) 7 ltac:(done)).
  replace ((JS.localDay tza t + 4) mod 7 + 3 + 4)
    with ((JS.localDay tza t + 4) mod 7 + 1 * 7) by lia.
  rewrite Z.mod_add by done. by rewrite Z.mod_mod.
Qed.

(** X24. The calendar page takes the weekday of its rows from the local
    day of the selected date, and the date of the reservations it fetches and
    of the dialog it opens from the UTC day ([toISOString]).  A click on an
    arrow moves the selected date by whole days, so the time of day stays
    that of the moment the page was opened.  The two days are the same, and
    the weekday of the rows is the weekday of the date of the reservations,
    exactly when the UTC time of day plus the zone offset stays within the
    day; otherwise, west of UTC in the evening and east of UTC in the
    morning, the rows are those of one weekday and the reservations those of
    the date of the next or of the previous day. *)
Theorem X24_calendar_weekday_and_date tza now days :
  - JS.msPerDay < tza < JS.msPerDay ->
  let selectedDate := handleDateChange tza days now in
  let utcDay := selectedDate / JS.msPerDay in
  let localDay := JS.localDay tza selectedDate in
  let timeOfDay := now mod JS.msPerDay in
  selectedDate = now + days * JS.msPerDay
  /\ dateString selectedDate = JS.toISODateString (utcDay * JS.msPerDay)
  /\ (0 <= timeOfDay + tza < JS.msPerDay <-> localDay = utcDay)
  /\ (timeOfDay + tza < 0 <-> localDay = utcDay - 1)
  /\ (JS.msPerDay <= timeOfDay + tza <-> localDay = utcDay + 1)
  /\ (getDayOfWeek tza selectedDate = getDayOfWeek 0 (utcDay * JS.msPerDay)
      <-> 0 <= timeOfDay + tza < JS.msPerDay).
Proof.
  intros Htza selectedDate utcDay localDay timeOfDay.
  assert (Hsel : selectedDate = now + days * JS.msPerDay)
    by apply handleDateChange_days.
  assert (Hutc : utcDay = now / JS.msPerDay + days).
  { unfold utcDay. by rewrite Hsel, Z.div_add. }
  assert (Hloc : localDay = utcDay + (timeOfDay + tza) / JS.msPerDay).
  { unfold localDay, JS.localDay, timeOfDay. rewrite Hsel, Hutc.
    pose proof (Z.div_mod now JS.msPerDay ltac:(done)) as E.
    replace (now + days * JS.msPerDay + tza)
      with (now mod JS.msPerDay + tza
            + (now / JS.msPerDay + days) * JS.msPerDay) by lia.
    rewrite Z.div_add by done. lia. }
  pose proof (Z.mod_pos_bound now JS.msPerDay ltac:(done)) as Htod.
  fold timeOfDay in Htod.
  assert (Hq : (0 <= timeOfDay + tza < JS.msPerDay
                /\ (timeOfDay + tza) / JS.msPerDay = 0)
               \/ (timeOfDay + tza < 0
                   /\ (timeOfDay + tza) / JS.msPerDay = -1)
               \/ (JS.msPerDay <= timeOfDay + tza
                   /\ (timeOfDay + tza) / JS.msPerDay = 1)).
  { unfold JS.msPerDay in *.
    destruct (Z.lt_ge_cases (timeOfDay + tza) 0) as [Hneg | Hpos].
    - right. left. split; [done |]. symmetry.
      apply Z.div_unique with (r := timeOfDay + tza + 86400000); lia.
    - destruct (Z.lt_ge_cases (timeOfDay + tza) 86400000) as [Hin | Hout].
      + left. split; [done |]. by apply Z.div_small.
      + right. right. split; [done |]. symmetry.
        apply Z.div_unique with (r := timeOfDay + tza - 86400000); lia. }
  split; [done |]. split.
  { unfold dateString, JS.toISODateString. by rewrite Z.div_mul. }
  split; [| split; [| split]].
  - rewrite Hloc. destruct Hq as [[? ->] | [[? ->] | [? ->]]]; lia.
  - rewrite Hloc. destruct Hq as [[? ->] | [[? ->] | [? ->]]]; lia.
  - rewrite Hloc. destruct Hq as [[? ->] | [[? ->] | [? ->]]]; lia.
  - rewrite (getDayOfWeek_of_day tza selectedDate).
    rewrite (getDayOfWeek_of_day 0 (utcDay * JS.msPerDay)).
    fold localDay.
    assert (Hu : JS.localDay 0 (utcDay * JS.msPerDay) = utcDay).
    { unfold JS.localDay. by rewrite Z.add_0_r, Z.div_mul. }
    rewrite Hu.
    pose proof (Z.mod_pos_bound (localDay + 4) 7 ltac:(done)) as B1.
    pose proof (Z.mod_pos_bound (utcDay + 4) 7 ltac:(done)) as B2.
    split.
    + intros E.
      assert (Hm : (localDay + 4) mod 7 + 3 = (utcDay + 4) mod 7 + 3).
      { destruct (Z.eq_dec ((localDay + 4) mod 7) ((utcDay + 4) mod 7))
          as [-> | Hne]; [done |].
        exfalso.
        pose proof (Z.div_mod (localDay + 4) 7 ltac:(done)).
        pose proof (Z.div_mod (utcDay + 4) 7 ltac:(done)).
        revert E Hne B1 B2.
        generalize ((localDay + 4) mod 7) ((utcDay + 4) mod 7).
        intros a b E Hne Ba Bb.
        assert (a = 0 \/ a = 1 \/ a = 2 \/ a = 3 \/ a = 4 \/ a = 5 \/ a = 6)
          as Ha' by lia.
        assert (b = 0 \/ b = 1 \/ b = 2 \/ b = 3 \/ b = 4 \/ b = 5 \/ b = 6)
          as Hb' by lia.
        destruct Ha' as [-> | [-> | [-> | [-> | [-> | [-> | ->]]]]]],
          Hb' as [-> | [-> | [-> | [-> | [-> | [-> | ->]]]]]];
          vm_compute in E; first [by apply Hne | discriminate E]. }
      assert (Hmod : (localDay + 4) mod 7 = (utcDay + 4) mod 7) by lia.
      rewrite Hloc in Hmod.
      destruct Hq as [[? Hq] | [[? Hq] | [? Hq]]]; [done | |];
        rewrite Hq in Hmod; exfalso.
      * replace (utcDay + -1 + 4) with (utcDay + 4 - 1) in Hmod by lia.
        pose proof (Z.div_mod (utcDay + 4) 7 ltac:(done)).
        pose proof (Z.div_mod (utcDay + 4 - 1) 7 ltac:(done)).
        pose proof (Z.mod_pos_bound (utcDay + 4 - 1) 7 ltac:(done)). lia.
      * replace (utcDay + 1 + 4) with (utcDay + 4 + 1) in Hmod by lia.
        pose proof (Z.div_mod (utcDay + 4) 7 ltac:(done)).
        pose proof (Z.div_mod (utcDay + 4 + 1) 7 ltac:(done)).
        pose proof (Z.mod_pos_bound (utcDay + 4 + 1) 7 ltac:(done)). lia.
    + intros Hin. destruct Hq as [[_ Hq] | [[? _] | [? _]]]; [| lia | lia].
      rewrite Hloc, Hq, Z.add_0_r. done.
Qed.

Lemma X24_calendar_weekday_and_date_witness :
  getDayOfWeek (-18000000) (Sample.at_ 25 0) = "monday"
  /\ dateString (Sample.at_ 25 0) = "2024-01-02"
  /\ getDayOfWeek 0 (19724 * JS.msPerDay) = "tuesday"
  /\ ~ (0 <= Sample.at_ 25 0 mod JS.msPerDay + -18000000 < JS.msPerDay).
Proof.
  destruct (X24_calendar_weekday_and_date (-18000000) (Sample.at_ 25 0) 0)
    as (_ & _ & _ & _ & _ & H).
  { by vm_compute. }
  split; [reflexivity |]. split; [reflexivity |]. split; [reflexivity |].
  intros Hin. apply H in Hin. vm_compute in Hin. discriminate Hin.
Defined.

(** * The engine in a time zone with clock changes *)

(** ** The zone of the samples *)

Example ex_newYork :
  Zoned.getDayOfWeek ZoneSample.newYork ZoneSample.newYearsDay = "monday"
  /\ Zoned.timeString ZoneSample.newYork (Some ZoneSample.newYearsDay)
     = "00:00"
  /\ Zoned.getDayOfWeek ZoneSample.newYork ZoneSample.fallBackDay = "sunday"
  /\ Zoned.timeString ZoneSample.newYork (Some ZoneSample.fallBackDay)
     = "00:00"
  (* 01:00 comes twice on the day the clock is put back; [setHours] gives
     the first *)
  /\ Zoned.timeString ZoneSample.newYork
       (Some (ZoneSample.fallBackDay + 3600000)) = "01:00"
  /\ Zoned.timeString ZoneSample.newYork
       (Some (ZoneSample.fallBackDay + 2 * 3600000)) = "01:00"
  /\ Zoned.dateWithTime ZoneSample.newYork ZoneSample.fallBackDay "01:00"
     = Some (ZoneSample.fallBackDay + 3600000)
  /\ Zoned.dateWithTime ZoneSample.newYork ZoneSample.fallBackDay "02:00"
     = Some (ZoneSample.fallBackDay + 3 * 3600000).
Proof. by vm_compute. Qed.

(** The day on which the clock is put back, open from 00:30 to 02:30: the
    loop makes twelve passes, the times 01:00 to 01:45 are offered twice,
    and with the table booked at 01:00 and a turnover of an hour the second
    01:00 still offers it. *)
Example ex_fall_back_day :
  List.map slot_time
    (Zoned.calculateAvailableSlots ZoneSample.newYork ZoneSample.fallBackDay 2
       ZoneSample.nightSettings [] [Sample.t1] [])
  = ["00:30"; "00:45"; "01:00"; "01:15"; "01:30"; "01:45"; "01:00"; "01:15";
     "01:30"; "01:45"; "02:00"; "02:15"]
  /\ List.map slot_time
       (Zoned.calculateAvailableSlots (fixedZone (-14400000))
          ZoneSample.fallBackDay 2 ZoneSample.nightSettings [] [Sample.t1] [])
     = ["00:30"; "00:45"; "01:00"; "01:15"; "01:30"; "01:45"; "02:00"; "02:15"]
  /\ List.map slot_time
       (Zoned.calculateAvailableSlots ZoneSample.newYork
          ZoneSample.fallBackDay 2 ZoneSample.nightSettings
          [Sample.booking "res1" "01:00" "t1"] [Sample.t1] [])
     = ["01:00"; "01:15"; "01:30"; "01:45"; "02:00"; "02:15"].
Proof. by vm_compute. Qed.

(** ** A day without a clock change *)

Lemma dayStart_bounds tza date :
  dayStart tza date <= date < dayStart tza date + JS.msPerDay.
Proof.
  unfold dayStart, JS.localDay, JS.msPerDay.
  pose proof (Z.div_mod (date + tza) 86400000 ltac:(done)).
  pose proof (Z.mod_pos_bound (date + tza) 86400000 ltac:(done)). lia.
Qed.

Lemma noClockChange_at zone tza date :
  noClockChange zone tza date -> offsetAt zone date = tza.
Proof.
  intros [Hat _]. apply Hat. pose proof (dayStart_bounds tza date). lia.
Qed.

Lemma noClockChange_fixedZone tza date : noClockChange (fixedZone tza) tza date.
Proof. by split. Qed.

Lemma zoned_setHours zone tza date h m :
  noClockChange zone tza date ->
  0 <= h * 60 + m <= 1440 ->
  Zoned.setHours zone date (Some h) (Some m)
  = JS.setHours tza date (Some h) (Some m).
Proof.
  intros Hz Hhm. pose proof (noClockChange_at _ _ _ Hz) as Hat.
  destruct Hz as [_ Hloc].
  unfold Zoned.setHours, JS.setHours, Zoned.utc, Zoned.localTime.
  rewrite Hat. fold (JS.localDay tza date). rewrite Hloc; [reflexivity |].
  unfold JS.msPerDay, JS.msPerHour, JS.msPerMinute. lia.
Qed.

Lemma zoned_dateWithTime zone tza date s :
  noClockChange zone tza date ->
  withinDay s ->
  Zoned.dateWithTime zone date s = dateWithTime tza date s.
Proof.
  intros Hz. unfold withinDay, Zoned.dateWithTime, dateWithTime.
  destruct (parseHM s) as [[h|] [m|]]; intros Hs; try reflexivity.
  by apply zoned_setHours.
Qed.

Lemma withinDay_bounds tza date s o :
  withinDay s ->
  dateWithTime tza date s = Some o ->
  dayStart tza date <= o <= dayStart tza date + JS.msPerDay.
Proof.
  unfold withinDay, dateWithTime.
  destruct (parseHM s) as [[h|] [m|]]; simpl; intros Hs [= <-].
  unfold dayStart, JS.msPerDay, JS.msPerHour, JS.msPerMinute. lia.
Qed.

Lemma zoned_timeString zone tza date t :
  noClockChange zone tza date ->
  dayStart tza date <= t <= dayStart tza date + JS.msPerDay ->
  Zoned.timeString zone (Some t) = timeString tza (Some t).
Proof.
  intros [Hat _] Ht.
  unfold Zoned.timeString, timeString, Zoned.getHours, Zoned.getMinutes,
    JS.getHours, JS.getMinutes, Zoned.localTime.
  rewrite (Hat t Ht). reflexivity.
Qed.

Lemma zoned_conflicts zone tza date settings currentTime res :
  noClockChange zone tza date ->
  withinDay (time res) ->
  Zoned.conflicts zone date settings currentTime res
  = conflicts tza date settings currentTime res.
Proof.
  intros Hz Hs. unfold Zoned.conflicts, conflicts.
  rewrite (zoned_dateWithTime zone tza) by assumption. reflexivity.
Qed.

Lemma zoned_tableIsFree zone tza date settings reservations currentTime table :
  noClockChange zone tza date ->
  (forall r, r ∈ reservations -> withinDay (time r)) ->
  Zoned.tableIsFree zone date settings reservations currentTime table
  = tableIsFree tza date settings reservations currentTime table.
Proof.
  intros Hz Hres. unfold Zoned.tableIsFree, tableIsFree. f_equal.
  induction reservations as [|r l IH]; [reflexivity |]. simpl.
  assert (Hl : forall x, x ∈ l -> withinDay (time x)).
  { intros x Hx. apply Hres. by right. }
  destruct (onTable table r); [| by apply IH]. simpl.
  rewrite (zoned_conflicts zone tza) by (try assumption; apply Hres; by left).
  by rewrite IH.
Qed.

Lemma zoned_slotAt zone tza date settings reservations eligibleTables t :
  noClockChange zone tza date ->
  (forall r, r ∈ reservations -> withinDay (time r)) ->
  dayStart tza date <= t <= dayStart tza date + JS.msPerDay ->
  Zoned.slotAt zone date settings reservations eligibleTables t
  = slotAt tza date settings reservations eligibleTables t.
Proof.
  intros Hz Hres Ht. unfold Zoned.slotAt, slotAt, Zoned.loopBody, loopBody.
  rewrite (zoned_timeString zone tza date) by assumption.
  rewrite (List.filter_ext _ (tableIsFree tza date settings reservations (Some t)));
    [reflexivity |].
  intros table. by apply zoned_tableIsFree.
Qed.

(** ** The loop over the zone *)

Section ZonedLoop.

Context (zone : TimeZone) (date : Z) (settings : Settings)
  (reservations : list Reservation) (eligibleTables : list Table).

Local Abbreviation zbody :=
  (Zoned.loopBody zone date settings reservations eligibleTables).
Local Abbreviation zloop :=
  (fun fuel =>
     Zoned.whileLoop fuel zone date settings reservations eligibleTables).
Local Abbreviation zat :=
  (Zoned.slotAt zone date settings reservations eligibleTables).

Lemma zoned_loopBody_app cur acc : zbody cur acc = acc ++ zbody cur [].
Proof.
  unfold Zoned.loopBody. destruct (_ <? _)%nat; [done | by rewrite app_nil_r].
Qed.

Lemma zoned_whileLoop_candidates fuel o c acc :
  (candidateCount o c < fuel)%nat ->
  zloop fuel (Some c) (Some o) acc = acc ++ flat_map zat (candidateTimes o c).
Proof.
  revert o acc. induction fuel as [|fuel IH]; intros o acc Hfuel; [lia |].
  simpl. destruct (Z.ltb_spec o c) as [Hlt|Hge].
  - rewrite candidateTimes_lt by done. simpl.
    rewrite candidateCount_lt in Hfuel by done.
    rewrite IH by (unfold slotStep in *; lia).
    rewrite (zoned_loopBody_app (Some o) acc). unfold Zoned.slotAt, slotStep.
    by rewrite <- app_assoc.
  - rewrite candidateTimes_le by done. simpl. by rewrite app_nil_r.
Qed.

End ZonedLoop.

Lemma flat_map_no_tables {A} (f : A -> list TimeSlot) l :
  (forall x, f x = []) -> flat_map f l = [].
Proof.
  intros Hf. induction l as [|x l IH]; [reflexivity |]. simpl.
  by rewrite Hf, IH.
Qed.

Lemma flat_map_ext_elem {A B} (f g : A -> list B) l :
  (forall x, x ∈ l -> f x = g x) -> flat_map f l = flat_map g l.
Proof.
  induction l as [|x l IH]; intros H; [reflexivity |]. simpl.
  rewrite (H x) by (by left). rewrite IH; [reflexivity |].
  intros y Hy. apply H. by right.
Qed.

Lemma zoned_slotsForHours_flat_map zone date covers settings reservations
    tables hours o c :
  Zoned.dateWithTime zone date (open hours) = Some o ->
  Zoned.dateWithTime zone date (close hours) = Some c ->
  Zoned.slotsForHours zone date covers settings reservations tables
    (Some hours)
  = flat_map
      (Zoned.slotAt zone date settings reservations (eligible covers tables))
      (candidateTimes o c).
Proof.
  intros Ho Hc. unfold Zoned.slotsForHours.
  destruct (String.eqb_spec (open hours) "") as [E | _].
  { rewrite E in Ho. discriminate Ho. }
  destruct (eligible covers tables) as [|x l] eqn:E.
  - simpl. symmetry. by apply flat_map_no_tables.
  - simpl length. simpl Nat.eqb. cbv iota. rewrite Ho, Hc.
    by rewrite zoned_whileLoop_candidates by apply passes_enough.
Qed.

Lemma zoned_slotsForHours_invalid zone date covers settings reservations
    tables hours :
  Zoned.dateWithTime zone date (open hours) = None
  \/ Zoned.dateWithTime zone date (close hours) = None ->
  Zoned.slotsForHours zone date covers settings reservations tables
    (Some hours) = [].
Proof.
  intros H. unfold Zoned.slotsForHours.
  destruct (String.eqb (open hours) ""); [reflexivity |].
  destruct (length (eligible covers tables) =? 0)%nat; [reflexivity |].
  destruct H as [-> | ->]; [reflexivity |].
  by destruct (Zoned.dateWithTime zone date (open hours)).
Qed.

Lemma slotsForHours_invalid tza date covers settings reservations tables
    hours :
  dateWithTime tza date (open hours) = None
  \/ dateWithTime tza date (close hours) = None ->
  slotsForHours tza date covers settings reservations tables (Some hours)
  = [].
Proof.
  intros H. unfold slotsForHours.
  destruct (String.eqb (open hours) ""); [reflexivity |].
  destruct (length (eligible covers tables) =? 0)%nat; [reflexivity |].
  destruct H as [-> | ->]; [reflexivity |].
  by destruct (dateWithTime tza date (open hours)).
Qed.

Lemma zoned_calculateAvailableSlots_resolve zone date covers settings
    reservations tables specialOpeningHours :
  Zoned.calculateAvailableSlots zone date covers settings reservations tables
    specialOpeningHours
  = Zoned.slotsForHours zone date covers settings reservations tables
      (resolveHours (offsetAt zone date) date settings specialOpeningHours).
Proof.
  unfold Zoned.calculateAvailableSlots, resolveHours.
  destruct (findSpecialHour _ specialOpeningHours) as [sh|]; [| done].
  unfold JS.falsy.
  destruct (isOpen sh), (openTime sh) as [o|], (closeTime sh) as [c|];
    cbn [negb orb]; try done.
  - destruct (String.eqb o ""), (String.eqb c ""); done.
  - by destruct (String.eqb o "").
Qed.

(** The slots of a zone on a day without a clock change, as a list over the
    candidate starts. *)
Lemma zoned_slots_candidates zone tza date covers settings reservations
    tables specialOpeningHours :
  noClockChange zone tza date ->
  (forall hours,
     resolveHours tza date settings specialOpeningHours = Some hours ->
     withinDay (open hours) /\ withinDay (close hours)) ->
  Zoned.calculateAvailableSlots zone date covers settings reservations tables
    specialOpeningHours
  = flat_map
      (Zoned.slotAt zone date settings reservations (eligible covers tables))
      (engineCandidates tza date settings specialOpeningHours).
Proof.
  intros Hz Hhours.
  rewrite zoned_calculateAvailableSlots_resolve, (noClockChange_at _ _ _ Hz).
  unfold engineCandidates.
  destruct (resolveHours tza date settings specialOpeningHours)
    as [hours|]; [| reflexivity].
  destruct (Hhours hours eq_refl) as [Hto Htc].
  pose proof (zoned_dateWithTime _ _ _ _ Hz Hto) as Eo.
  pose proof (zoned_dateWithTime _ _ _ _ Hz Htc) as Ec.
  destruct (dateWithTime tza date (open hours)) as [o|].
  - destruct (dateWithTime tza date (close hours)) as [c|].
    + by apply zoned_slotsForHours_flat_map.
    + apply zoned_slotsForHours_invalid. by right.
  - apply zoned_slotsForHours_invalid. by left.
Qed.

Lemma engineCandidates_day tza date settings specialOpeningHours t :
  (forall hours,
     resolveHours tza date settings specialOpeningHours = Some hours ->
     withinDay (open hours) /\ withinDay (close hours)) ->
  t ∈ engineCandidates tza date settings specialOpeningHours ->
  dayStart tza date <= t <= dayStart tza date + JS.msPerDay.
Proof.
  intros Hhours. unfold engineCandidates.
  destruct (resolveHours tza date settings specialOpeningHours)
    as [hours|]; [| intros H; by apply elem_of_nil in H].
  destruct (Hhours hours eq_refl) as [Hto Htc].
  destruct (dateWithTime tza date (open hours)) as [o|] eqn:Ho;
    [| intros H; by apply elem_of_nil in H].
  destruct (dateWithTime tza date (close hours)) as [c|] eqn:Hc;
    [| intros H; by apply elem_of_nil in H].
  intros Ht. apply candidateTimes_elem in Ht as (k & -> & Hk).
  pose proof (withinDay_bounds _ _ _ _ Hto Ho).
  pose proof (withinDay_bounds _ _ _ _ Htc Hc).
  unfold slotStep in *. lia.
Qed.

(** On a day without a clock change, with opening hours and reservations
    at times of the day, the engine over the zone returns what the engine
    of the one offset returns. *)
Lemma zoned_slots_no_clock_change zone tza date covers settings reservations
    tables specialOpeningHours :
  noClockChange zone tza date ->
  (forall hours,
     resolveHours tza date settings specialOpeningHours = Some hours ->
     withinDay (open hours) /\ withinDay (close hours)) ->
  (forall r, r ∈ reservations -> withinDay (time r)) ->
  Zoned.calculateAvailableSlots zone date covers settings reservations tables
    specialOpeningHours
  = calculateAvailableSlots tza date covers settings reservations tables
      specialOpeningHours.
Proof.
  intros Hz Hhours Hres.
  rewrite (zoned_slots_candidates zone tza) by assumption.
  rewrite slots_flat_map. apply flat_map_ext_elem. intros t Ht.
  apply zoned_slotAt; try assumption.
  by eapply engineCandidates_day.
Qed.

(** The engine over a zone without clock changes is the engine of the one
    offset, whatever the strings. *)
Lemma zoned_dateWithTime_fixedZone tza date s :
  Zoned.dateWithTime (fixedZone tza) date s = dateWithTime tza date s.
Proof.
  unfold Zoned.dateWithTime, dateWithTime.
  by destruct (parseHM s) as [[h|] [m|]].
Qed.

Lemma zoned_whileLoop_fixedZone fuel tza date settings reservations
    eligibleTables closingTime currentTime availableSlots :
  Zoned.whileLoop fuel (fixedZone tza) date settings reservations
    eligibleTables closingTime currentTime availableSlots
  = whileLoop fuel tza date settings reservations eligibleTables closingTime
      currentTime availableSlots.
Proof.
  revert currentTime availableSlots.
  induction fuel as [|fuel IH]; intros currentTime availableSlots;
    [reflexivity |].
  simpl. destruct (JS.dateLt currentTime closingTime); [| reflexivity].
  rewrite IH. reflexivity.
Qed.

Lemma zoned_fixedZone tza date covers settings reservations tables
    specialOpeningHours :
  Zoned.calculateAvailableSlots (fixedZone tza) date covers settings
    reservations tables specialOpeningHours
  = calculateAvailableSlots tza date covers settings reservations tables
      specialOpeningHours.
Proof.
  rewrite zoned_calculateAvailableSlots_resolve,
    calculateAvailableSlots_resolve.
  change (offsetAt (fixedZone tza) date) with tza.
  destruct (resolveHours tza date settings specialOpeningHours)
    as [hours|]; [| reflexivity].
  unfold Zoned.slotsForHours, slotsForHours.
  destruct (String.eqb (open hours) ""); [reflexivity |].
  destruct (length (eligible covers tables) =? 0)%nat; [reflexivity |].
  cbv zeta. rewrite !zoned_dateWithTime_fixedZone.
  apply zoned_whileLoop_fixedZone.
Qed.

(** ** Times of the day *)

Lemma withinDay_timeString n :
  0 <= n < 1440 -> withinDay (timeString 0 (Some (n * 60000))).
Proof.
  intros Hn. unfold withinDay.
  replace n with (Z.of_nat (Z.to_nat n)) by lia.
  rewrite parseHM_timeString_day by lia.
  pose proof (Z.div_mod (Z.of_nat (Z.to_nat n)) 60 ltac:(done)). lia.
Qed.

Example ex_withinDay :
  withinDay "17:00" /\ withinDay "19:00" /\ withinDay "17:30"
  /\ withinDay "24:00" /\ ~ withinDay "24:15".
Proof.
  unfold withinDay.
  change (parseHM "17:00") with (Some 17, Some 0).
  change (parseHM "19:00") with (Some 19, Some 0).
  change (parseHM "17:30") with (Some 17, Some 30).
  change (parseHM "24:00") with (Some 24, Some 0).
  change (parseHM "24:15") with (Some 24, Some 15).
  cbv beta iota. lia.
Qed.

(** New Year's Day 2024 in New York: no clock change, five hours behind
    UTC. *)
Lemma newYork_newYearsDay :
  noClockChange ZoneSample.newYork (-18000000) ZoneSample.newYearsDay.
Proof.
  assert (Hd : dayStart (-18000000) ZoneSample.newYearsDay = 1704085200000)
    by reflexivity.
  assert (Hl : JS.localDay (-18000000) ZoneSample.newYearsDay * JS.msPerDay
               = 1704067200000) by reflexivity.
  unfold noClockChange. rewrite Hd, Hl. unfold JS.msPerDay.
  split; intros x Hx; unfold ZoneSample.newYork, zoneWithSummerTime;
    cbn [offsetAt offsetOfLocal].
  - replace (1710054000000 <=? x) with false
      by (symmetry; apply Z.leb_gt; lia).
    reflexivity.
  - replace (1710054000000 + -18000000 + JS.msPerHour <=? x) with false
      by (symmetry; apply Z.leb_gt; unfold JS.msPerHour; lia).
    reflexivity.
Qed.

Lemma sample_hours_withinDay hours :
  hours = mkOpeningHours "17:00" "19:00" ->
  withinDay (open hours) /\ withinDay (close hours).
Proof.
  intros ->. pose proof ex_withinDay as (H1 & H2 & _). by split.
Qed.

Lemma sample_reservations_withinDay r :
  r ∈ Sample.reservationsB -> withinDay (time r).
Proof.
  intros Hr. apply list_elem_of_singleton in Hr. subst r.
  pose proof ex_withinDay as (_ & _ & H & _). exact H.
Qed.

(** The times of the slots of a zone, on a day without a clock change. *)
Lemma zoned_result_times zone tza date settings reservations eligibleTables l :
  noClockChange zone tza date ->
  (forall t, t ∈ l ->
     dayStart tza date <= t <= dayStart tza date + JS.msPerDay) ->
  List.map slot_time
    (flat_map (Zoned.slotAt zone date settings reservations eligibleTables) l)
  = List.map (fun t => timeString tza (Some t))
      (List.filter
         (fun t =>
            (0 <? length
                    (List.filter
                       (Zoned.tableIsFree zone date settings reservations
                          (Some t))
                       eligibleTables))%nat)
         l).
Proof.
  intros Hz. induction l as [|t l IH]; intros Hl; [reflexivity |]. simpl.
  rewrite List.map_app, IH by (intros x Hx; apply Hl; by right).
  unfold Zoned.slotAt at 1, Zoned.loopBody.
  destruct (0 <? length _)%nat; [| reflexivity]. simpl.
  rewrite (zoned_timeString zone tza date); [reflexivity | assumption |].
  apply Hl. by left.
Qed.

(** ** The claims and the properties that read the clock *)

(** C3. The override of the date is not looked up under the date: the key
    of line 34 is the calendar date of [date] in UTC, while [date] stands
    for a local day (the weekday of line 47 is the local one, and the dialog
    passes the local midnight of the chosen date).  In a zone ahead of UTC,
    at the local midnight of a day, the key is the date of the day before:
    the entry of [specialOpeningHours] for the day itself is not found,
    whatever it says, and the slots are those of the weekday default.  So
    the first sentence of the claim, and the comment of line 36 ("for the
    selected date"), do not hold of the code. *)
Theorem C3_override_of_the_date_is_missed zone tza day covers settings
    reservations tables sh :
  firstDay < day <= lastDay ->
  0 < tza <= JS.msPerDay ->
  offsetAt zone (day * JS.msPerDay - tza) = tza ->
  soh_date sh = JS.toISODateString (day * JS.msPerDay) ->
  let date := day * JS.msPerDay - tza in
  Zoned.timeString zone (Some date) = "00:00"
  /\ Zoned.getDayOfWeek zone date = getDayOfWeek 0 (day * JS.msPerDay)
  /\ findSpecialHour (JS.toISODateString date) [sh] = None
  /\ Zoned.calculateAvailableSlots zone date covers settings reservations
       tables [sh]
     = Zoned.slotsForHours zone date covers settings reservations tables
         (openingHours settings !! Zoned.getDayOfWeek zone date).
Proof.
  intros Hday Htza Hat Hsh date.
  assert (Hiso : JS.toISODateString date
                 = JS.toISODateString ((day - 1) * JS.msPerDay)).
  { unfold date. rewrite toISODateString_local_midnight by lia.
    destruct (Z.ltb_spec 0 tza); [reflexivity | lia]. }
  assert (Hnone : findSpecialHour (JS.toISODateString date) [sh] = None).
  { apply findSpecialHour_None. intros h Hin.
    apply list_elem_of_singleton in Hin. subst h. rewrite Hsh, Hiso.
    intros E. apply toISODateString_injective in E; lia. }
  split; [| split; [| split; [exact Hnone |]]].
  - unfold Zoned.timeString, Zoned.getHours, Zoned.getMinutes,
      Zoned.localTime. fold date in Hat. rewrite Hat. unfold date.
    replace (day * JS.msPerDay - tza + tza) with (day * JS.msPerDay) by lia.
    replace (day * JS.msPerDay / JS.msPerHour) with (day * 24).
    2: { unfold JS.msPerDay, JS.msPerHour.
         replace (day * 86400000) with (day * 24 * 3600000) by lia.
         by rewrite Z.div_mul. }
    replace (day * JS.msPerDay / JS.msPerMinute) with (day * 24 * 60).
    2: { unfold JS.msPerDay, JS.msPerMinute.
         replace (day * 86400000) with (day * 24 * 60 * 60000) by lia.
         by rewrite Z.div_mul. }
    rewrite !Z.mod_mul by lia. reflexivity.
  - unfold Zoned.getDayOfWeek. fold date in Hat. rewrite Hat. unfold date.
    apply getDayOfWeek_local_midnight.
  - unfold Zoned.calculateAvailableSlots. by rewrite Hnone.
Qed.

Lemma C3_override_of_the_date_is_missed_witness :
  (* Johannesburg, two hours ahead of UTC; Monday 2024-01-01 is open from
     17:00 to 19:00 by default and closed by an override *)
  isOpen Sample.closedDay = false
  /\ soh_date Sample.closedDay = "2024-01-01"
  /\ JS.toISODateString (Sample.monday - 7200000) = "2023-12-31"
  /\ findSpecialHour (JS.toISODateString (Sample.monday - 7200000))
       [Sample.closedDay] = None
  /\ Zoned.calculateAvailableSlots ZoneSample.johannesburg
       (Sample.monday - 7200000) 2 Sample.settingsA [] [Sample.t1]
       [Sample.closedDay]
     = Zoned.slotsForHours ZoneSample.johannesburg (Sample.monday - 7200000)
         2 Sample.settingsA [] [Sample.t1]
         (Some (mkOpeningHours "17:00" "19:00"))
  /\ List.map slot_time
       (Zoned.calculateAvailableSlots ZoneSample.johannesburg
          (Sample.monday - 7200000) 2 Sample.settingsA [] [Sample.t1]
          [Sample.closedDay])
     = ["17:00"; "17:15"; "17:30"; "17:45"; "18:00"; "18:15"; "18:30";
        "18:45"].
Proof.
  destruct (C3_override_of_the_date_is_missed ZoneSample.johannesburg 7200000
              19723 2 Sample.settingsA [] [Sample.t1] Sample.closedDay)
    as (_ & _ & Hnone & Hslots).
  - unfold firstDay, lastDay. lia.
  - unfold JS.msPerDay. lia.
  - reflexivity.
  - reflexivity.
  - split; [reflexivity |]. split; [reflexivity |]. split; [reflexivity |].
    split; [exact Hnone |]. split; [exact Hslots | by vm_compute].
Defined.

(** X1. On days without a clock change the engine reads the zone and
    [date] through two strings only, the calendar date of [date] in UTC
    ([toISOString]), under which the override is looked up, and the weekday
    of its local day: two calls that agree on both return the same slots,
    when the opening hours in force and the times of the reservations are
    times of the day.  So at local midnight of Monday 2024-01-01 in
    Johannesburg the key is "2023-12-31", and an override that closes
    "2024-01-01" is not applied.  On a day with a clock change the two
    strings do not determine the result: on 3 November 2024 New York and a
    zone that stays four hours behind UTC agree on both, and the first
    returns twelve slots where the second returns eight. *)
Theorem X1_override_date_is_utc :
  (forall zone zone' tza tza' date date' covers settings reservations tables
          specialOpeningHours,
      noClockChange zone tza date ->
      noClockChange zone' tza' date' ->
      (forall hours,
         resolveHours tza date settings specialOpeningHours = Some hours ->
         withinDay (open hours) /\ withinDay (close hours)) ->
      (forall r, r ∈ reservations -> withinDay (time r)) ->
      JS.toISODateString date = JS.toISODateString date' ->
      Zoned.getDayOfWeek zone date = Zoned.getDayOfWeek zone' date' ->
      Zoned.calculateAvailableSlots zone date covers settings reservations
        tables specialOpeningHours
      = Zoned.calculateAvailableSlots zone' date' covers settings reservations
          tables specialOpeningHours)
  /\ JS.toISODateString (Sample.monday - 7200000) = "2023-12-31"
  /\ Zoned.getDayOfWeek ZoneSample.johannesburg (Sample.monday - 7200000)
     = "monday"
  /\ List.map slot_time
       (Zoned.calculateAvailableSlots ZoneSample.johannesburg
          (Sample.monday - 7200000) 2 Sample.settingsA [] [Sample.t1]
          [Sample.closedDay])
     = ["17:00"; "17:15"; "17:30"; "17:45"; "18:00"; "18:15"; "18:30"; "18:45"]
  /\ Zoned.getDayOfWeek ZoneSample.newYork ZoneSample.fallBackDay
     = Zoned.getDayOfWeek (fixedZone (-14400000)) ZoneSample.fallBackDay
  /\ length (Zoned.calculateAvailableSlots ZoneSample.newYork
               ZoneSample.fallBackDay 2 ZoneSample.nightSettings []
               [Sample.t1] []) = 12%nat
  /\ length (Zoned.calculateAvailableSlots (fixedZone (-14400000))
               ZoneSample.fallBackDay 2 ZoneSample.nightSettings []
               [Sample.t1] []) = 8%nat.
Proof.
  split; [| by vm_compute].
  intros zone zone' tza tza' date date' covers settings reservations tables
    specialOpeningHours Hz Hz' Hhours Hres Hiso Hday.
  unfold Zoned.getDayOfWeek in Hday.
  rewrite (noClockChange_at _ _ _ Hz), (noClockChange_at _ _ _ Hz') in Hday.
  fold (getDayOfWeek tza date) in Hday.
  fold (getDayOfWeek tza' date') in Hday.
  assert (Hsame : resolveHours tza' date' settings specialOpeningHours
                  = resolveHours tza date settings specialOpeningHours).
  { unfold resolveHours. by rewrite Hiso, Hday. }
  rewrite (zoned_slots_no_clock_change zone tza) by assumption.
  rewrite (zoned_slots_no_clock_change zone' tza');
    [| assumption | by rewrite Hsame | assumption].
  destruct override_date_is_utc_one_offset as [H _]. by apply H.
Qed.

(** X3. On a day without a clock change, when the opening hours in force
    and the times of the reservations are times of the day (00:00 to
    24:00), the "HH:MM" string of every returned slot denotes, on the day of
    [date], the instant for which the tables of the slot were tested:
    booking the slot at its displayed time books the instant that was
    checked, and no reservation on a table of the slot overlaps it.  (On the
    day the clock is put back the strings 01:00 to 01:45 come twice, and the
    second of each denotes the instant of the first, see
    [ex_fall_back_day].) *)
Theorem X3_slot_time_denotes_its_instant zone tza date covers settings
    reservations tables specialOpeningHours hours slot :
  noClockChange zone tza date ->
  resolveHours tza date settings specialOpeningHours = Some hours ->
  withinDay (open hours) ->
  withinDay (close hours) ->
  (forall r, r ∈ reservations -> withinDay (time r)) ->
  slot ∈ Zoned.calculateAvailableSlots zone date covers settings reservations
           tables specialOpeningHours ->
  exists t,
    Zoned.dateWithTime zone date (slot_time slot) = Some t
    /\ availableTables slot
       = List.filter (Zoned.tableIsFree zone date settings reservations (Some t))
           (eligible covers tables)
    /\ forall table res r,
         table ∈ availableTables slot ->
         res ∈ reservations ->
         tableId res = Some (tbl_id table) ->
         Zoned.dateWithTime zone date (time res) = Some r ->
         ~ windowsOverlap t r (turnoverMinutes settings * 60000).
Proof.
  intros Hz Hh Hto Htc Hres Hin.
  assert (Hhours : forall h,
    resolveHours tza date settings specialOpeningHours = Some h ->
    withinDay (open h) /\ withinDay (close h)).
  { intros h Hh'. rewrite Hh in Hh'. injection Hh' as <-. by split. }
  rewrite (zoned_slots_no_clock_change zone tza) in Hin by assumption.
  destruct (slot_origin _ _ _ _ _ _ _ _ Hin)
    as (h & o & c & k & Hh' & _ & Ho & Hc & _).
  rewrite Hh in Hh'. injection Hh' as <-.
  pose proof (withinDay_bounds _ _ _ _ Hto Ho) as Hlo.
  pose proof (withinDay_bounds _ _ _ _ Htc Hc) as Hhi.
  unfold JS.msPerDay in Hlo, Hhi.
  assert (Hlo' : dayStart tza date <= o) by lia.
  assert (Hhi' : c <= dayStart tza date + 24 * 3600000) by lia.
  destruct (slot_time_denotes_its_instant_one_offset tza date covers settings
              reservations tables specialOpeningHours hours o c slot
              Hh Ho Hc Hlo' Hhi' Hin) as (t & Ht & Htabs & Hno).
  destruct (slot_minute _ _ _ _ _ _ _ _ _ _ _ Hh Ho Hc Hlo' Hhi' Hin)
    as (n & Hn & _ & Hst).
  exists t. split; [| split].
  - rewrite (zoned_dateWithTime zone tza); [exact Ht | assumption |].
    rewrite Hst. by apply withinDay_timeString.
  - rewrite Htabs. apply List.filter_ext. intros table.
    rewrite (zoned_tableIsFree zone tza) by assumption.
    symmetry. apply tableIsFree_noConflict.
  - intros table res r Htab Hr Hid Hzr.
    rewrite (zoned_dateWithTime zone tza) in Hzr
      by (try assumption; by apply Hres).
    by eapply Hno.
Qed.

Lemma X3_slot_time_denotes_its_instant_witness :
  Sample.slot1700
  ∈ Zoned.calculateAvailableSlots ZoneSample.newYork ZoneSample.newYearsDay 2
      Sample.settingsA Sample.reservationsB [Sample.t1; Sample.t2] []
  /\ exists t,
    Zoned.dateWithTime ZoneSample.newYork ZoneSample.newYearsDay
      (slot_time Sample.slot1700) = Some t
    /\ availableTables Sample.slot1700
       = List.filter
           (Zoned.tableIsFree ZoneSample.newYork ZoneSample.newYearsDay
              Sample.settingsA Sample.reservationsB (Some t))
           (eligible 2 [Sample.t1; Sample.t2])
    /\ forall table res r,
         table ∈ availableTables Sample.slot1700 ->
         res ∈ Sample.reservationsB ->
         tableId res = Some (tbl_id table) ->
         Zoned.dateWithTime ZoneSample.newYork ZoneSample.newYearsDay
           (time res) = Some r ->
         ~ windowsOverlap t r (turnoverMinutes Sample.settingsA * 60000).
Proof.
  assert (Hin : Sample.slot1700
    ∈ Zoned.calculateAvailableSlots ZoneSample.newYork ZoneSample.newYearsDay
        2 Sample.settingsA Sample.reservationsB [Sample.t1; Sample.t2] []).
  { apply list_elem_of_In. vm_compute. left. reflexivity. }
  split; [exact Hin |].
  apply (X3_slot_time_denotes_its_instant ZoneSample.newYork (-18000000)
           ZoneSample.newYearsDay 2 Sample.settingsA Sample.reservationsB
           [Sample.t1; Sample.t2] [] (mkOpeningHours "17:00" "19:00")
           Sample.slot1700 newYork_newYearsDay eq_refl
           (proj1 (sample_hours_withinDay _ eq_refl))
           (proj2 (sample_hours_withinDay _ eq_refl))
           sample_reservations_withinDay Hin).
Defined.

(** X7. On a day without a clock change, when the opening hours in force
    are times of the day, the slots returned by [calculateAvailableSlots]
    have pairwise different times (the keys of the buttons of step 1 of the
    booking dialog), and the labels [formatTime(slot.time)] of the buttons
    are pairwise different too, each the 12-hour form of the minute of the
    day at which the slot starts.  (On the day the clock is put back four
    times and labels come twice, see [ex_fall_back_day].) *)
Theorem X7_slot_buttons_distinct zone tza date covers settings reservations
    tables specialOpeningHours hours :
  noClockChange zone tza date ->
  resolveHours tza date settings specialOpeningHours = Some hours ->
  withinDay (open hours) ->
  withinDay (close hours) ->
  let slots := Zoned.calculateAvailableSlots zone date covers settings
                 reservations tables specialOpeningHours in
  NoDup (List.map slot_time slots)
  /\ NoDup (List.map (fun slot => formatTime (slot_time slot)) slots)
  /\ forall slot, slot ∈ slots ->
       exists n, 0 <= n < 1440
                 /\ slot_time slot = timeString 0 (Some (n * 60000))
                 /\ formatTime (slot_time slot) = label12 n.
Proof.
  intros Hz Hh Hto Htc slots.
  assert (Hhours : forall h,
    resolveHours tza date settings specialOpeningHours = Some h ->
    withinDay (open h) /\ withinDay (close h)).
  { intros h Hh'. rewrite Hh in Hh'. injection Hh' as <-. by split. }
  assert (Htimes : List.map slot_time slots
    = List.map (fun t => timeString tza (Some t))
        (List.filter
           (fun t =>
              (0 <? length
                      (List.filter
                         (Zoned.tableIsFree zone date settings reservations
                            (Some t))
                         (eligible covers tables)))%nat)
           (engineCandidates tza date settings specialOpeningHours))).
  { unfold slots. rewrite (zoned_slots_candidates zone tza) by assumption.
    apply zoned_result_times; [assumption |].
    intros t Ht. by eapply engineCandidates_day. }
  assert (Hlabels :
    List.map (fun slot => formatTime (slot_time slot)) slots
    = List.map formatTime (List.map slot_time slots)).
  { by rewrite List.map_map. }
  assert (Hgoal :
    NoDup (List.map slot_time slots)
    /\ NoDup (List.map formatTime (List.map slot_time slots))
    /\ forall x, x ∈ List.map slot_time slots ->
         exists n, 0 <= n < 1440
                   /\ x = timeString 0 (Some (n * 60000))
                   /\ formatTime x = label12 n).
  { rewrite Htimes. unfold engineCandidates. rewrite Hh.
    destruct (dateWithTime tza date (open hours)) as [o|] eqn:Ho.
    - destruct (dateWithTime tza date (close hours)) as [c|] eqn:Hc.
      + pose proof (withinDay_bounds _ _ _ _ Hto Ho) as Hlo.
        pose proof (withinDay_bounds _ _ _ _ Htc Hc) as Hhi.
        unfold JS.msPerDay in Hlo, Hhi.
        apply (day_times_distinct tza date (open hours) o c); [done | lia | lia].
      + simpl. split; [constructor | split; [constructor |]].
        intros x Hx. by apply elem_of_nil in Hx.
    - simpl. split; [constructor | split; [constructor |]].
      intros x Hx. by apply elem_of_nil in Hx. }
  destruct Hgoal as (H1 & H2 & H3).
  split; [exact H1 |]. split; [by rewrite Hlabels |].
  intros slot Hin. apply H3.
  apply list_elem_of_In, in_map. by apply list_elem_of_In.
Qed.

Lemma X7_slot_buttons_distinct_witness :
  NoDup (List.map slot_time
           (Zoned.calculateAvailableSlots ZoneSample.newYork
              ZoneSample.newYearsDay 2 Sample.settingsA Sample.reservationsB
              [Sample.t1; Sample.t2] []))
  /\ NoDup (List.map (fun slot => formatTime (slot_time slot))
              (Zoned.calculateAvailableSlots ZoneSample.newYork
                 ZoneSample.newYearsDay 2 Sample.settingsA
                 Sample.reservationsB [Sample.t1; Sample.t2] []))
  /\ List.map (fun slot => formatTime (slot_time slot))
       (Zoned.calculateAvailableSlots ZoneSample.newYork
          ZoneSample.newYearsDay 2 Sample.settingsA Sample.reservationsB
          [Sample.t1; Sample.t2] [])
     = ["5:00 PM"; "5:15 PM"; "5:30 PM"; "5:45 PM"; "6:00 PM"; "6:15 PM";
        "6:30 PM"; "6:45 PM"].
Proof.
  destruct (X7_slot_buttons_distinct ZoneSample.newYork (-18000000)
              ZoneSample.newYearsDay 2 Sample.settingsA Sample.reservationsB
              [Sample.t1; Sample.t2] [] (mkOpeningHours "17:00" "19:00")
              newYork_newYearsDay eq_refl
              (proj1 (sample_hours_withinDay _ eq_refl))
              (proj2 (sample_hours_withinDay _ eq_refl)))
    as (H1 & H2 & _).
  split; [exact H1 |]. split; [exact H2 | by vm_compute].
Defined.

(** X15. The dialog hands the engine the reservations of the day without
    the one that is edited (lines 47-49).  So, on a day without a clock
    change, with a positive turnover time and with opening hours and
    reservations at times of the day, the slot at the time of the edited
    reservation still lists its table, provided the table is eligible for the
    party and no other reservation on it overlaps; with the edited
    reservation left in, as when the same data is used for a new booking, no
    slot of that time lists the table. *)
Theorem X15_edited_reservation_keeps_its_slot zone tza date covers settings
    reservationsData allTables specialOpeningHours res hours o c (k : nat)
    table :
  noClockChange zone tza date ->
  resolveHours tza date settings specialOpeningHours = Some hours ->
  open hours <> "" ->
  withinDay (open hours) ->
  withinDay (close hours) ->
  (forall r, r ∈ reservationsData -> withinDay (time r)) ->
  Zoned.dateWithTime zone date (open hours) = Some o ->
  Zoned.dateWithTime zone date (close hours) = Some c ->
  let t := o + Z.of_nat k * slotStep in
  t < c ->
  res ∈ reservationsData ->
  Zoned.dateWithTime zone date (time res) = Some t ->
  tableId res = Some (tbl_id table) ->
  table ∈ eligible covers allTables ->
  0 < turnoverMinutes settings ->
  (forall r,
     r ∈ reservationsData -> res_id r <> res_id res ->
     tableId r = Some (tbl_id table) ->
     Zoned.conflicts zone date settings (Some t) r = false) ->
  (exists slot,
     slot ∈ Zoned.calculateAvailableSlots zone date covers settings
              (reservationsForDate (Some res) reservationsData) allTables
              specialOpeningHours
     /\ slot_time slot = Zoned.timeString zone (Some t)
     /\ table ∈ availableTables slot)
  /\ (forall slot,
        slot ∈ Zoned.calculateAvailableSlots zone date covers settings
                 (reservationsForDate None reservationsData) allTables
                 specialOpeningHours ->
        slot_time slot = Zoned.timeString zone (Some t) ->
        table ∉ availableTables slot).
Proof.
  intros Hz Hh Hopen Hto Htc Hres Ho Hc t Ht Hr Htime Htable Hel Hturn
    Hothers.
  assert (Hhours : forall h,
    resolveHours tza date settings specialOpeningHours = Some h ->
    withinDay (open h) /\ withinDay (close h)).
  { intros h Hh'. rewrite Hh in Hh'. injection Hh' as <-. by split. }
  rewrite (zoned_dateWithTime zone tza) in Ho, Hc by assumption.
  rewrite (zoned_dateWithTime zone tza) in Htime
    by (try assumption; by apply Hres).
  pose proof (withinDay_bounds _ _ _ _ Hto Ho) as Hlo.
  pose proof (withinDay_bounds _ _ _ _ Htc Hc) as Hhi.
  assert (Hts : Zoned.timeString zone (Some t) = timeString tza (Some t)).
  { apply (zoned_timeString zone tza date); [assumption |].
    unfold t, slotStep in *. lia. }
  assert (Hothers' : forall r,
    r ∈ reservationsData -> res_id r <> res_id res ->
    tableId r = Some (tbl_id table) ->
    conflicts tza date settings (Some t) r = false).
  { intros r Hin Hid Htab.
    rewrite <- (zoned_conflicts zone tza) by (try assumption; by apply Hres).
    by apply Hothers. }
  assert (Hres' : forall r,
    r ∈ reservationsForDate (Some res) reservationsData ->
    withinDay (time r)).
  { intros r Hin. simpl in Hin. apply filter_elem in Hin as [Hin _].
    by apply Hres. }
  rewrite Hts.
  rewrite (zoned_slots_no_clock_change zone tza) by assumption.
  rewrite (zoned_slots_no_clock_change zone tza _ _ _
             (reservationsForDate None reservationsData)) by assumption.
  unfold JS.msPerDay in Hlo, Hhi.
  apply (edited_reservation_keeps_its_slot_one_offset tza date covers settings
           reservationsData allTables specialOpeningHours res hours o c k
           table); try assumption; lia.
Qed.

Lemma X15_edited_reservation_keeps_its_slot_witness :
  exists slot,
    slot ∈ Zoned.calculateAvailableSlots ZoneSample.newYork
             ZoneSample.newYearsDay 2 Sample.settingsA
             (reservationsForDate (Some (Sample.booking "res1" "17:30" "t1"))
                Sample.reservationsB)
             [Sample.t1] []
    /\ slot_time slot = "17:30"
    /\ Sample.t1 ∈ availableTables slot.
Proof.
  pose proof ex_withinDay as (W17 & W19 & _).
  destruct (X15_edited_reservation_keeps_its_slot ZoneSample.newYork
              (-18000000) ZoneSample.newYearsDay 2
              Sample.settingsA Sample.reservationsB [Sample.t1] []
              (Sample.booking "res1" "17:30" "t1")
              (mkOpeningHours "17:00" "19:00")
              (ZoneSample.newYearsDay + 17 * 3600000)
              (ZoneSample.newYearsDay + 19 * 3600000) 2 Sample.t1
              newYork_newYearsDay eq_refl ltac:(discriminate) W17 W19
              sample_reservations_withinDay eq_refl eq_refl)
    as [H _].
  - reflexivity.
  - by left.
  - reflexivity.
  - reflexivity.
  - apply list_elem_of_In. vm_compute. by left.
  - reflexivity.
  - intros r Hr Hid. apply list_elem_of_singleton in Hr. by subst r.
  - exact H.
Defined.

(** X19. Booking a slot through the in-memory service takes the table out
    of it, on a day without a clock change: let the engine return a slot for
    the reservations that the service holds for a date, with opening hours
    and reservations at times of the day, and let a reservation for that
    date, the time of the slot and one of its tables be created.  With a
    positive turnover time, no slot of that time that the engine returns for
    the reservations then held lists the table.  With a turnover time of 0
    (or below) the engine returns what it returned before: the same table
    can be booked again for the same time.  (On the day the clock is put
    back the second slot of a time that comes twice keeps the table, see
    [ex_fall_back_day].) *)
Theorem X19_booking_takes_the_table zone tza date dateString covers settings
    mockReservations allTables specialOpeningHours hours slot table
    now now' payload :
  noClockChange zone tza date ->
  resolveHours tza date settings specialOpeningHours = Some hours ->
  withinDay (open hours) ->
  withinDay (close hours) ->
  (forall r, r ∈ mockReservations -> withinDay (time r)) ->
  slot ∈ Zoned.calculateAvailableSlots zone date covers settings
           (reservationsOn dateString mockReservations) allTables
           specialOpeningHours ->
  table ∈ availableTables slot ->
  p_date payload = dateString ->
  p_time payload = slot_time slot ->
  p_tableId payload = tbl_id table ->
  let after :=
    snd (createReservation now now' (reservationOfPayload payload)
           mockReservations) in
  (0 < turnoverMinutes settings ->
   forall slot',
     slot' ∈ Zoned.calculateAvailableSlots zone date covers settings
               (reservationsOn dateString after) allTables
               specialOpeningHours ->
     slot_time slot' = slot_time slot ->
     table ∉ availableTables slot')
  /\ (turnoverMinutes settings <= 0 ->
      Zoned.calculateAvailableSlots zone date covers settings
        (reservationsOn dateString after) allTables specialOpeningHours
      = Zoned.calculateAvailableSlots zone date covers settings
          (reservationsOn dateString mockReservations) allTables
          specialOpeningHours).
Proof.
  intros Hz Hh Hto Htc Hres Hslot Htable Hdate Htime Hid after.
  assert (Hhours : forall h,
    resolveHours tza date settings specialOpeningHours = Some h ->
    withinDay (open h) /\ withinDay (close h)).
  { intros h Hh'. rewrite Hh in Hh'. injection Hh' as <-. by split. }
  assert (Hon : forall r,
    r ∈ reservationsOn dateString mockReservations -> withinDay (time r)).
  { intros r Hr. unfold reservationsOn in Hr. simpl in Hr.
    apply filter_elem in Hr as [Hr _]. by apply Hres. }
  rewrite (zoned_slots_no_clock_change zone tza) in Hslot by assumption.
  destruct (slot_origin _ _ _ _ _ _ _ _ Hslot)
    as (h & o & c & k & Hh' & _ & Ho & Hc & _).
  rewrite Hh in Hh'. injection Hh' as <-.
  pose proof (withinDay_bounds _ _ _ _ Hto Ho) as Hlo.
  pose proof (withinDay_bounds _ _ _ _ Htc Hc) as Hhi.
  unfold JS.msPerDay in Hlo, Hhi.
  assert (Hlo' : dayStart tza date <= o) by lia.
  assert (Hhi' : c <= dayStart tza date + 24 * 3600000) by lia.
  destruct (slot_minute _ _ _ _ _ _ _ _ _ _ _ Hh Ho Hc Hlo' Hhi' Hslot)
    as (n & Hn & _ & Hst).
  assert (Hafter : forall r,
    r ∈ reservationsOn dateString after -> withinDay (time r)).
  { intros r Hr. unfold after in Hr. simpl in Hr.
    rewrite reservationsOn_app in Hr. apply elem_of_app in Hr as [Hr | Hr].
    - by apply Hon.
    - unfold reservationsOn in Hr. simpl in Hr.
      destruct (String.eqb (p_date payload) dateString);
        [| by apply elem_of_nil in Hr].
      apply list_elem_of_singleton in Hr. subst r. simpl.
      rewrite Htime, Hst. by apply withinDay_timeString. }
  destruct (booking_takes_the_table_one_offset tza date dateString covers
              settings mockReservations allTables specialOpeningHours hours
              o c slot table now now' payload Hh Ho Hc Hlo' Hhi' Hslot Htable
              Hdate Htime Hid) as [H1 H2].
  split.
  - intros Hturn slot' Hslot'.
    rewrite (zoned_slots_no_clock_change zone tza) in Hslot' by assumption.
    by apply H1.
  - intros Hturn.
    rewrite !(zoned_slots_no_clock_change zone tza) by assumption.
    by apply H2.
Qed.

Lemma X19_booking_takes_the_table_witness :
  Sample.t2 ∈ availableTables Sample.slot1700
  /\ forall slot',
    slot' ∈ Zoned.calculateAvailableSlots ZoneSample.newYork
              ZoneSample.newYearsDay 2 Sample.settingsA
              (reservationsOn "2024-01-01"
                 (snd (createReservation 1704000000000 1704000000001
                         (reservationOfPayload
                            (mkSubmissionPayload "Ada" "555" "2024-01-01"
                               "17:00" 2 "t2" "sec1" CONFIRMED ""))
                         Sample.reservationsB)))
              [Sample.t1; Sample.t2] [] ->
    slot_time slot' = "17:00" ->
    Sample.t2 ∉ availableTables slot'.
Proof.
  assert (Hslot : Sample.slot1700
                  ∈ Zoned.calculateAvailableSlots ZoneSample.newYork
                      ZoneSample.newYearsDay 2 Sample.settingsA
                      (reservationsOn "2024-01-01" Sample.reservationsB)
                      [Sample.t1; Sample.t2] []).
  { apply list_elem_of_In. vm_compute. by left. }
  destruct (X19_booking_takes_the_table ZoneSample.newYork (-18000000)
              ZoneSample.newYearsDay "2024-01-01" 2
              Sample.settingsA Sample.reservationsB [Sample.t1; Sample.t2] []
              (mkOpeningHours "17:00" "19:00") Sample.slot1700 Sample.t2
              1704000000000 1704000000001
              (mkSubmissionPayload "Ada" "555" "2024-01-01" "17:00" 2 "t2"
                 "sec1" CONFIRMED "")
              newYork_newYearsDay eq_refl
              (proj1 (sample_hours_withinDay _ eq_refl))
              (proj2 (sample_hours_withinDay _ eq_refl))
              sample_reservations_withinDay Hslot ltac:(by left) eq_refl
              eq_refl eq_refl) as [H _].
  split; [by left | exact (H ltac:(done))].
Defined.
